(** * AkashChat: the message-versioning and conversation-state core

    A shallow embedding of [chat/models.py], [chat/services.py], the
    conversation and message views of [chat/views.py] and the preview of
    [chat/admin.py], followed by the properties of the specification that
    were checked against it and by further properties of the code.

    Conventions.
    - Python [str] is [string]; one [ascii] stands for one character.
    - Python [int] and timestamps are [Z].
    - A database table is the list of its rows in insertion order; a model
      instance held by the program is a plain record value, and
      [save] writes that value back over the row with the same primary key.
    - Code that can raise runs in the monad [M], state plus exceptions. *)

From Stdlib Require Import ZArith List String Ascii Bool Lia Permutation Sorted
  DecimalString.
Import ListNotations.

Local Open Scope string_scope.
Local Open Scope list_scope.
Local Open Scope Z_scope.

(* ===================================================================== *)
(** * Python strings *)
(* ===================================================================== *)

Module PyStr.

(** [len(s)] *)
Definition len (s : string) : Z := Z.of_nat (String.length s).

(** [s[:n]] for a literal [n >= 0]. *)
Definition slice_to (n : nat) (s : string) : string := substring 0 n s.

(** [c.isspace()] for the characters below 256: tab, line feed, vertical
    tab, form feed, carriage return, the four separators 28..31, space,
    next-line (133) and no-break space (160). *)
Definition isspace (c : ascii) : bool :=
  let n := nat_of_ascii c in
  ((9 <=? n) && (n <=? 13))%nat || ((28 <=? n) && (n <=? 32))%nat
  || (n =? 133)%nat || (n =? 160)%nat.

Fixpoint lstrip_chars (l : list ascii) : list ascii :=
  match l with
  | [] => []
  | c :: l' => if isspace c then lstrip_chars l' else l
  end.

(** [s.strip()] *)
Definition strip (s : string) : string :=
  string_of_list_ascii
    (rev (lstrip_chars (rev (lstrip_chars (list_ascii_of_string s))))).

(** Truth value of a string: [bool(s)]. *)
Definition truthy (s : string) : bool := negb (String.eqb s EmptyString).

End PyStr.

(* ===================================================================== *)
(** * Exceptions *)
(* ===================================================================== *)

(** The exception classes the program names or can meet, with the part of
    the class hierarchy of Python, Django and the [openai] package that the
    [except] clauses depend on. Interrupts and exits, which are not
    [Exception]s, are no failure of a collaborator and are left out. *)
Inductive exc_class :=
| Exception
| ValueError
| IndexError
| AttributeError
| JSONDecodeError          (* json.JSONDecodeError, a ValueError *)
| Http404                  (* django.http.Http404 *)
| DoesNotExist             (* Model.DoesNotExist *)
| MultipleObjectsReturned
| OpenAIError
| APIError                 (* openai.APIError *)
| APIConnectionError
| APIStatusError
| RateLimitError
| AuthenticationError.

Definition exc_class_eqb (a b : exc_class) : bool :=
  match a, b with
  | Exception, Exception | ValueError, ValueError | IndexError, IndexError
  | AttributeError, AttributeError | JSONDecodeError, JSONDecodeError
  | Http404, Http404 | DoesNotExist, DoesNotExist
  | MultipleObjectsReturned, MultipleObjectsReturned
  | OpenAIError, OpenAIError | APIError, APIError
  | APIConnectionError, APIConnectionError | APIStatusError, APIStatusError
  | RateLimitError, RateLimitError
  | AuthenticationError, AuthenticationError => true
  | _, _ => false
  end.

(** Method resolution order: the class itself, then its bases. *)
Definition mro (c : exc_class) : list exc_class :=
  match c with
  | Exception => [Exception]
  | ValueError => [ValueError; Exception]
  | IndexError => [IndexError; Exception]
  | AttributeError => [AttributeError; Exception]
  | JSONDecodeError => [JSONDecodeError; ValueError; Exception]
  | Http404 => [Http404; Exception]
  | DoesNotExist => [DoesNotExist; Exception]
  | MultipleObjectsReturned => [MultipleObjectsReturned; Exception]
  | OpenAIError => [OpenAIError; Exception]
  | APIError => [APIError; OpenAIError; Exception]
  | APIConnectionError => [APIConnectionError; APIError; OpenAIError; Exception]
  | APIStatusError => [APIStatusError; APIError; OpenAIError; Exception]
  | RateLimitError =>
      [RateLimitError; APIStatusError; APIError; OpenAIError; Exception]
  | AuthenticationError =>
      [AuthenticationError; APIStatusError; APIError; OpenAIError; Exception]
  end.

(** A raised exception: its class and its message, [str(e)]. *)
Record exception := mk_exception { exc_cls : exc_class; exc_msg : string }.

(** [isinstance(e, c)], the test an [except c] clause performs. *)
Definition isinstance (e : exception) (c : exc_class) : bool :=
  existsb (exc_class_eqb c) (mro (exc_cls e)).

(* ===================================================================== *)
(** * State and exceptions *)
(* ===================================================================== *)

Inductive Result (A : Type) : Type :=
| Ok (a : A)
| Raise (e : exception).
Arguments Ok {A} a.
Arguments Raise {A} e.

(** A computation over a state [S] that returns an [A] or raises. The state
    reached when an exception is raised is kept: Python does not undo the
    assignments made before a [raise]. *)
Definition M (S A : Type) : Type := S -> Result A * S.

Definition ret {S A} (a : A) : M S A := fun s => (Ok a, s).

Definition bind {S A B} (m : M S A) (k : A -> M S B) : M S B :=
  fun s =>
    match m s with
    | (Ok a, s') => k a s'
    | (Raise e, s') => (Raise e, s')
    end.

Definition raise {S A} (e : exception) : M S A := fun s => (Raise e, s).

Definition get {S} : M S S := fun s => (Ok s, s).
Definition put {S} (s : S) : M S unit := fun _ => (Ok tt, s).
Definition modify {S} (f : S -> S) : M S unit := fun s => (Ok tt, f s).

(** [try: body  except ... : handler]. The handler sees the state the body
    left behind. *)
Definition try_except {S A} (body : M S A) (handler : exception -> M S A)
  : M S A :=
  fun s =>
    match body s with
    | (Ok a, s') => (Ok a, s')
    | (Raise e, s') => handler e s'
    end.

(** Runs a computation on the second component of a pair state: a method
    body calling into the world while [self] stays as it is. *)
Definition on_world {O W A} (m : M W A) : M (O * W) A :=
  fun s =>
    match m (snd s) with
    | (r, w') => (r, (fst s, w'))
    end.

(** Runs a method on an object [o]; yields the result together with the
    object as the method left it. *)
Definition call_on {O W A} (o : O) (m : M (O * W) A) : M W (A * O) :=
  fun w =>
    match m (o, w) with
    | (Ok a, (o', w')) => (Ok (a, o'), w')
    | (Raise e, (_, w')) => (Raise e, w')
    end.

Declare Scope py_scope.
Delimit Scope py_scope with py.
Notation "x <- c ;; k" := (bind c (fun x => k))
  (at level 61, c at next level, right associativity) : py_scope.
Notation "c ;; k" := (bind c (fun _ => k))
  (at level 61, right associativity) : py_scope.
Local Open Scope py_scope.

(* ===================================================================== *)
(** * The data model ([chat/models.py]) *)
(* ===================================================================== *)

(** A row of [Conversation]. [user] is the primary key of the owner. *)
Record Conversation := mk_Conversation {
  conv_id : Z;
  user : Z;
  title : string;
  conv_created_at : Z;
  updated_at : Z
}.

(** A row of [Message]. The three foreign keys hold primary keys;
    [role] is a [CharField], a string. *)
Record Message := mk_Message {
  id : Z;
  conversation : Z;
  role : string;
  content : string;
  created_at : Z;
  edited : bool;
  edited_at : option Z;
  previous_content : string;
  superseded : bool;
  replaced_by : option Z;
  parent_user_message : option Z
}.

(** [Message.ROLE_CHOICES], the values of the choices. *)
Definition ROLE_CHOICES : list string := ["user"; "assistant"; "system"].

(** Default of [Conversation.title]. *)
Definition default_title : string := "New Conversation".

(** Attribute assignments, [self.x = v]. *)
Definition set_title (v : string) (c : Conversation) : Conversation :=
  {| conv_id := conv_id c; user := user c; title := v;
     conv_created_at := conv_created_at c; updated_at := updated_at c |}.

Definition set_updated_at (v : Z) (c : Conversation) : Conversation :=
  {| conv_id := conv_id c; user := user c; title := title c;
     conv_created_at := conv_created_at c; updated_at := v |}.

Definition set_content (v : string) (m : Message) : Message :=
  {| id := id m; conversation := conversation m; role := role m;
     content := v; created_at := created_at m; edited := edited m;
     edited_at := edited_at m; previous_content := previous_content m;
     superseded := superseded m; replaced_by := replaced_by m;
     parent_user_message := parent_user_message m |}.

Definition set_previous_content (v : string) (m : Message) : Message :=
  {| id := id m; conversation := conversation m; role := role m;
     content := content m; created_at := created_at m; edited := edited m;
     edited_at := edited_at m; previous_content := v;
     superseded := superseded m; replaced_by := replaced_by m;
     parent_user_message := parent_user_message m |}.

Definition set_edited (v : bool) (m : Message) : Message :=
  {| id := id m; conversation := conversation m; role := role m;
     content := content m; created_at := created_at m; edited := v;
     edited_at := edited_at m; previous_content := previous_content m;
     superseded := superseded m; replaced_by := replaced_by m;
     parent_user_message := parent_user_message m |}.

Definition set_edited_at (v : option Z) (m : Message) : Message :=
  {| id := id m; conversation := conversation m; role := role m;
     content := content m; created_at := created_at m; edited := edited m;
     edited_at := v; previous_content := previous_content m;
     superseded := superseded m; replaced_by := replaced_by m;
     parent_user_message := parent_user_message m |}.

Definition set_superseded (v : bool) (m : Message) : Message :=
  {| id := id m; conversation := conversation m; role := role m;
     content := content m; created_at := created_at m; edited := edited m;
     edited_at := edited_at m; previous_content := previous_content m;
     superseded := v; replaced_by := replaced_by m;
     parent_user_message := parent_user_message m |}.

Definition set_replaced_by (v : option Z) (m : Message) : Message :=
  {| id := id m; conversation := conversation m; role := role m;
     content := content m; created_at := created_at m; edited := edited m;
     edited_at := edited_at m; previous_content := previous_content m;
     superseded := superseded m; replaced_by := v;
     parent_user_message := parent_user_message m |}.

(** ** The database *)

(** The two tables, rows in insertion order, and the next value of each
    auto-increment primary key. *)
Record Database := mk_Database {
  conversations : list Conversation;
  messages : list Message;
  next_conversation_id : Z;
  next_message_id : Z
}.

Definition set_conversations (v : list Conversation) (d : Database) :=
  {| conversations := v; messages := messages d;
     next_conversation_id := next_conversation_id d;
     next_message_id := next_message_id d |}.

Definition set_messages (v : list Message) (d : Database) :=
  {| conversations := conversations d; messages := v;
     next_conversation_id := next_conversation_id d;
     next_message_id := next_message_id d |}.

(** Django compares model instances by primary key: [Model.__eq__]. *)
Definition message_eq (a b : Message) : bool := id a =? id b.

Definition opt_Z_eqb (a b : option Z) : bool :=
  match a, b with
  | Some x, Some y => x =? y
  | None, None => true
  | _, _ => false
  end.

(** [.order_by('created_at')], also the default ordering of [Message]
    ([Meta.ordering]). Rows with equal timestamps keep their insertion
    order. *)
Fixpoint insert_by_created_at (m : Message) (l : list Message)
  : list Message :=
  match l with
  | [] => [m]
  | x :: l' =>
      if created_at m <=? created_at x then m :: l
      else x :: insert_by_created_at m l'
  end.

Definition order_by_created_at (l : list Message) : list Message :=
  fold_right insert_by_created_at [] l.

(** [QuerySet.first()] *)
Definition first {A} (l : list A) : option A := hd_error l.

(** [INSERT] of a row, or [UPDATE] of the row with the same primary key:
    what [Model.save()] does for an instance whose primary key is set. *)
Definition save_message_row (m : Message) (rows : list Message)
  : list Message :=
  if existsb (message_eq m) rows
  then map (fun x => if message_eq m x then m else x) rows
  else rows ++ [m].

Definition save_conversation_row (c : Conversation) (rows : list Conversation)
  : list Conversation :=
  if existsb (fun x => conv_id c =? conv_id x) rows
  then map (fun x => if conv_id c =? conv_id x then c else x) rows
  else rows ++ [c].

(** [self.messages], the related manager of a conversation:
    the messages whose foreign key is the conversation. *)
Definition related_messages (c : Conversation) (d : Database)
  : list Message :=
  filter (fun m => conversation m =? conv_id c) (messages d).

(* ===================================================================== *)
(** * What lies outside the process *)
(* ===================================================================== *)

(** One entry of [response.results] of the moderation endpoint; the same two
    keys make up the dict [check_moderation] returns. [categories] is the
    dict of [model_dump()], as its items. *)
Record Moderation := mk_Moderation {
  flagged : bool;
  categories : list (string * bool)
}.

Record ModerationResponse := mk_ModerationResponse {
  results : list Moderation
}.

(** A message in the format of the completion endpoint:
    the dict [{"role": ..., "content": ...}]. *)
Record ChatMessage := mk_ChatMessage {
  msg_role : string;
  msg_content : string
}.

(** [response.choices[i].message.content]; the endpoint may send no text. *)
Record Choice := mk_Choice { message_content : option string }.

Record ChatCompletion := mk_ChatCompletion { choices : list Choice }.

(** The arguments of [chat.completions.create] that vary; the sampling
    arguments are the constants of the source. *)
Record CompletionRequest := mk_CompletionRequest {
  req_model : string;
  req_messages : list ChatMessage;
  req_max_tokens : Z
}.

(** The clock and the two OpenAI endpoints. [Ext] is their state, of which
    nothing is known: an endpoint may answer the same call differently each
    time, and may raise. *)
Record Externals := mk_Externals {
  Ext : Type;
  clock : Ext -> Z * Ext;
  moderations : string -> Ext -> Result ModerationResponse * Ext;
  completions : CompletionRequest -> Ext -> Result ChatCompletion * Ext
}.

(** [django.conf.settings], the three values the program reads. *)
Record Settings := mk_Settings {
  OPENAI_API_KEY : string;
  OPENAI_MODEL : string;
  MESSAGE_HISTORY_LIMIT : Z
}.

Inductive log_level := ERROR | WARNING.

Record log_record := mk_log_record {
  level : log_level;
  text : string
}.

(** ** Requests and responses *)

(** The bodies of a request that are represented: a text on which
    [json.loads] raises [JSONDecodeError], or a JSON object of which the
    view reads one key, [data], absent or present with a value of the
    expected type ([content] and [title] a JSON string; [message_id] an
    integer, null counting as absent). Bytes that are not UTF-8, JSON that
    is not an object and values of another type are not represented. *)
Inductive request_body (A : Type) : Type :=
| Malformed
| JsonObject (data : option A).
Arguments Malformed {A}.
Arguments JsonObject {A} data.

(** An authenticated request ([login_required]) with its method already
    checked. *)
Record Request (A : Type) := mk_Request {
  request_user : Z;
  request_body_ : request_body A
}.
Arguments mk_Request {A} request_user request_body_.
Arguments request_user {A} r.
Arguments request_body_ {A} r.

(** The dict given to [JsonResponse]. The message dicts of the source
    list fields of the messages held here. *)
Inductive response_data :=
| ErrorData (error : string)
| SentData (user_message assistant_message : Message)
| RegeneratedData (assistant_message : Message).

Record JsonResponse := mk_JsonResponse {
  data_ : response_data;
  status : Z
}.

Section Program.

Variable E : Externals.
Variable settings : Settings.

(** Everything a request can read or change. *)
Record World := mk_World {
  db : Database;
  ext : Ext E;
  log : list log_record
}.

Definition set_db (d : Database) (w : World) : World :=
  {| db := d; ext := ext w; log := log w |}.

Definition set_ext (x : Ext E) (w : World) : World :=
  {| db := db w; ext := x; log := log w |}.

(** [timezone.now()] *)
Definition timezone_now : M World Z :=
  fun w => let (t, x) := clock E (ext w) in (Ok t, set_ext x w).

Definition logger (lv : log_level) (s : string) : M World unit :=
  modify (fun w =>
    {| db := db w; ext := ext w;
       log := log w ++ [ {| level := lv; text := s |} ] |}).

(** [l[0]] *)
Definition index0 {St A} (l : list A) : M St A :=
  match l with
  | x :: _ => ret x
  | [] => raise (mk_exception IndexError "list index out of range")
  end.

(** Access to [self] inside a method. *)
Definition self_ {O} : M (O * World) O := fun s => (Ok (fst s), s).

Definition assign {O} (f : O -> O) : M (O * World) unit :=
  modify (fun s => (f (fst s), snd s)).

(* =================================================================== *)
(** ** [chat/services.py] *)
(* =================================================================== *)

Record OpenAIService := mk_OpenAIService { model : string }.

(** [OpenAIService.__init__] *)
Definition OpenAIService_init : OpenAIService :=
  {| model := OPENAI_MODEL settings |}.

Definition client_moderations_create (input : string)
  : M World ModerationResponse :=
  fun w => let (r, x) := moderations E input (ext w) in (r, set_ext x w).

Definition client_chat_completions_create (rq : CompletionRequest)
  : M World ChatCompletion :=
  fun w => let (r, x) := completions E rq (ext w) in (r, set_ext x w).

Definition check_moderation (text : string) : M World Moderation :=
  try_except
    (response <- client_moderations_create text ;;
     r0 <- index0 (results response) ;;
     ret {| flagged := flagged r0;
            categories := if flagged r0 then categories r0 else [] |})
    (fun e =>
       if isinstance e Exception then
         logger ERROR ("Moderation check failed: " ++ exc_msg e)%string ;;
         ret {| flagged := false; categories := [] |}
       else raise e).

(** [repr] of the categories dict, for the warning. *)
Definition repr_item (kv : string * bool) : string :=
  ("'" ++ fst kv ++ "': " ++ (if snd kv then "True" else "False"))%string.

Definition repr_dict (d : list (string * bool)) : string :=
  ("{" ++ String.concat ", " (map repr_item d) ++ "}")%string.

Definition policy_violation_message : string :=
  "I'm sorry, but I can't respond to that message as it violates our usage policies. Please rephrase your message.".

Definition high_demand_message : string :=
  "I'm currently experiencing high demand. Please try again in a moment.".

Definition misconfigured_message : string :=
  "There's an issue with the AI service configuration. Please contact support.".

Definition technical_difficulties_message : string :=
  "I'm experiencing technical difficulties. Please try again later.".

Definition unexpected_error_message : string :=
  "An unexpected error occurred. Please try again.".

(** The [for message in messages] loop of [generate_chat_completion].
    [Some r] is the [return r] inside the loop, [None] its normal end. *)
Fixpoint moderation_loop (msgs : list ChatMessage)
  : M World (option (option string)) :=
  match msgs with
  | [] => ret None
  | message :: rest =>
      if String.eqb (msg_role message) "user" then
        moderation <- check_moderation (msg_content message) ;;
        if flagged moderation then
          logger WARNING
            ("Message flagged by moderation: "
             ++ repr_dict (categories moderation))%string ;;
          ret (Some (Some policy_violation_message))
        else moderation_loop rest
      else moderation_loop rest
  end.

(** The statements after the loop: the call and its result. *)
Definition call_backend (self : OpenAIService) (msgs : list ChatMessage)
  : M World (option string) :=
  response <- client_chat_completions_create
                {| req_model := model self; req_messages := msgs;
                   req_max_tokens := 1000 |} ;;
  c0 <- index0 (choices response) ;;
  ret (message_content c0).

(** The four [except] clauses, tried in the order of the source. *)
Definition completion_handlers (e : exception) : M World (option string) :=
  if isinstance e RateLimitError then
    logger ERROR "OpenAI rate limit exceeded" ;;
    ret (Some high_demand_message)
  else if isinstance e AuthenticationError then
    logger ERROR "OpenAI authentication failed" ;;
    ret (Some misconfigured_message)
  else if isinstance e APIError then
    logger ERROR ("OpenAI API error: " ++ exc_msg e)%string ;;
    ret (Some technical_difficulties_message)
  else if isinstance e Exception then
    logger ERROR ("Unexpected error in OpenAI service: " ++ exc_msg e)%string ;;
    ret (Some unexpected_error_message)
  else raise e.

Definition generate_chat_completion (self : OpenAIService)
  (msgs : list ChatMessage) : M World (option string) :=
  try_except
    (returned <- moderation_loop msgs ;;
     match returned with
     | Some r => ret r
     | None => call_backend self msgs
     end)
    completion_handlers.

Definition estimate_tokens (text : string) : Z := PyStr.len text / 4.

(** The loop of [trim_messages_by_token_limit] over [reversed(messages)]:
    [total_tokens] and [trimmed_messages] are the loop state, leaving the
    recursion is the [break]. *)
Fixpoint trim_loop (reversed : list ChatMessage) (max_tokens : Z)
  (total_tokens : Z) (trimmed_messages : list ChatMessage)
  : list ChatMessage :=
  match reversed with
  | [] => trimmed_messages
  | message :: rest =>
      let message_tokens := estimate_tokens (msg_content message) in
      if total_tokens + message_tokens <=? max_tokens then
        trim_loop rest max_tokens (total_tokens + message_tokens)
          (message :: trimmed_messages)
      else trimmed_messages
  end.

Definition trim_messages_by_token_limit (msgs : list ChatMessage)
  (max_tokens : Z) : list ChatMessage :=
  trim_loop (rev msgs) max_tokens 0 [].

(* =================================================================== *)
(** ** [chat/models.py]: the methods *)
(* =================================================================== *)

(** [Conversation.get_active_messages] *)
Definition get_active_messages (self : Conversation) (d : Database)
  : list Message :=
  order_by_created_at
    (filter (fun m => negb (superseded m)) (related_messages self d)).

(** [Conversation.get_recent_messages_for_api] *)
Definition get_recent_messages_for_api (self : Conversation) (limit : Z)
  (d : Database) : list Message :=
  let msgs := get_active_messages self d in
  let count := Z.of_nat (List.length msgs) in
  if limit <? count then skipn (Z.to_nat (count - limit)) msgs else msgs.

(** [Model.save()] of a conversation: [updated_at] is [auto_now]. *)
Definition Conversation_save : M (Conversation * World) unit :=
  t <- on_world timezone_now ;;
  assign (set_updated_at t) ;;
  self <- self_ ;;
  on_world (modify (fun w =>
    set_db (set_conversations
              (save_conversation_row self (conversations (db w))) (db w)) w)).

(** [Model.save()] of a message that has a primary key. *)
Definition Message_save : M (Message * World) unit :=
  self <- self_ ;;
  on_world (modify (fun w =>
    set_db (set_messages (save_message_row self (messages (db w))) (db w)) w)).

(** The query of [update_title_from_first_message]:
    [self.messages.filter(role='user', superseded=False)]. *)
Definition active_user_messages (self : Conversation) (d : Database)
  : list Message :=
  order_by_created_at
    (filter (fun m => String.eqb (role m) "user" && negb (superseded m))
            (related_messages self d)).

(** The title derived from a message: [content[:50]], with ['...']
    appended when [len(content) > 50]. *)
Definition title_from (c : string) : string :=
  let t := PyStr.slice_to 50 c in
  if 50 <? PyStr.len c then (t ++ "...")%string else t.

(** [Conversation.update_title_from_first_message] *)
Definition update_title_from_first_message : M (Conversation * World) unit :=
  self <- self_ ;;
  w <- on_world get ;;
  match first (active_user_messages self (db w)) with
  | Some first_message =>
      if String.eqb (title self) default_title then
        assign (set_title (title_from (content first_message))) ;;
        Conversation_save
      else ret tt
  | None => ret tt
  end.

(** [Message.objects.create(conversation=, role=, content=,
    parent_user_message=)]: the other fields take their defaults,
    [created_at] is [auto_now_add]. Nothing is validated. *)
Definition Message_objects_create (conv : Conversation) (r c : string)
  (parent : option Message) : M World Message :=
  t <- timezone_now ;;
  w <- get ;;
  let m := {| id := next_message_id (db w);
              conversation := conv_id conv;
              role := r;
              content := c;
              created_at := t;
              edited := false;
              edited_at := None;
              previous_content := EmptyString;
              superseded := false;
              replaced_by := None;
              parent_user_message := option_map id parent |} in
  put (set_db {| conversations := conversations (db w);
                 messages := messages (db w) ++ [m];
                 next_conversation_id := next_conversation_id (db w);
                 next_message_id := next_message_id (db w) + 1 |} w) ;;
  ret m.

(** Following a foreign key to a conversation:
    [Conversation.objects.get(pk=...)]. *)
Definition get_conversation (pk : Z) : M World Conversation :=
  w <- get ;;
  match find (fun c => conv_id c =? pk) (conversations (db w)) with
  | Some c => ret c
  | None =>
      raise (mk_exception DoesNotExist
               "Conversation matching query does not exist.")
  end.

(** [Message.edit_content]. [self.conversation] is followed in the table:
    the instance is taken to hold no [Conversation] object of its own, or
    the stored one, as in [edit_message], which loads it in the same
    request. *)
Definition edit_content (new_content : string) : M (Message * World) unit :=
  self <- self_ ;;
  if negb (String.eqb (role self) "user") then
    raise (mk_exception ValueError "Only user messages can be edited")
  else
    assign (fun m => set_previous_content (content m) m) ;;
    assign (set_content new_content) ;;
    assign (set_edited true) ;;
    t <- on_world timezone_now ;;
    assign (set_edited_at (Some t)) ;;
    Message_save ;;
    (* self.conversation.updated_at = timezone.now() *)
    t' <- on_world timezone_now ;;
    self <- self_ ;;
    conv <- on_world (get_conversation (conversation self)) ;;
    (* self.conversation.save() *)
    _ <- on_world (call_on (set_updated_at t' conv) Conversation_save) ;;
    ret tt.

(** [Message.supersede_with_new_reply] *)
Definition supersede_with_new_reply (new_reply : Message)
  : M (Message * World) unit :=
  self <- self_ ;;
  if negb (String.eqb (role self) "assistant") then
    raise (mk_exception ValueError "Only assistant messages can be superseded")
  else
    assign (set_superseded true) ;;
    assign (set_replaced_by (Some (id new_reply))) ;;
    Message_save.

(** [l.index(x)], with the equality of model instances. *)
Fixpoint list_index {St} (x : Message) (l : list Message) : M St nat :=
  match l with
  | [] => raise (mk_exception ValueError "x is not in list")
  | y :: l' =>
      if message_eq x y then ret O
      else (i <- list_index x l' ;; ret (S i))
  end.

(** [Message.get_conversation_history_for_api] *)
Definition get_conversation_history_for_api
  : M (Message * World) (list Message) :=
  self <- self_ ;;
  conv <- on_world (get_conversation (conversation self)) ;;
  w <- on_world get ;;
  let message_list := get_active_messages conv (db w) in
  try_except
    (current_index <- list_index self message_list ;;
     ret (firstn (current_index + 1)%nat message_list))
    (fun e =>
       if isinstance e ValueError then ret message_list else raise e).

(** [Message.to_openai_format] *)
Definition to_openai_format (self : Message) : ChatMessage :=
  {| msg_role := role self; msg_content := content self |}.

(* =================================================================== *)
(** ** [chat/views.py]: the message views *)
(* =================================================================== *)

(** [json.loads(request.body)] *)
Definition json_loads {A} (b : request_body A) : M World (option A) :=
  match b with
  | Malformed => raise (mk_exception JSONDecodeError "Expecting value")
  | JsonObject d => ret d
  end.

(** How [QuerySet.get] names the number of rows it found: it fetches no
    more than [MAX_GET_RESULTS = 21] of them. *)
Definition returned (n : nat) : string :=
  if (n <? 21)%nat then NilZero.string_of_uint (Nat.to_uint n)
  else "more than 20".

(** [get_object_or_404(Model, ...)], given the name of the model and the
    rows that match the filters. *)
Definition get_object_or_404 (model_name : string) {A} (matching : list A)
  : M World A :=
  match matching with
  | [] =>
      raise (mk_exception Http404
               ("No " ++ model_name ++ " matches the given query."))
  | [x] => ret x
  | _ =>
      raise (mk_exception MultipleObjectsReturned
               ("get() returned more than one " ++ model_name
                ++ " -- it returned " ++ returned (List.length matching)
                ++ "!"))
  end.

(** [with transaction.atomic():]. An exception leaving the block undoes
    the writes to the database, and nothing else. *)
Definition atomic {A} (body : M World A) : M World A :=
  fun w =>
    match body w with
    | (Ok a, w') => (Ok a, w')
    | (Raise e, w') => (Raise e, set_db (db w) w')
    end.

(** Truth value of an [Optional[str]]. *)
Definition truthy_opt (o : option string) : bool :=
  match o with
  | Some s => PyStr.truthy s
  | None => false
  end.

Definition text_of (o : option string) : string :=
  match o with
  | Some s => s
  | None => EmptyString
  end.

(** The global instance [openai_service]. *)
Definition openai_service : OpenAIService := OpenAIService_init.

Definition key_not_configured : string :=
  "OpenAI API key not configured. Please set OPENAI_API_KEY environment variable.".

(** [send_message] *)
Definition send_message (request : Request string) (conversation_id : Z)
  : M World JsonResponse :=
  w0 <- get ;;
  conv <- get_object_or_404 "Conversation"
            (filter (fun c => (conv_id c =? conversation_id)
                              && (user c =? request_user request))
                    (conversations (db w0))) ;;
  try_except
    (data <- json_loads (request_body_ request) ;;
     let content := PyStr.strip (text_of data) in
     if negb (PyStr.truthy content) then
       ret (mk_JsonResponse (ErrorData "Message content cannot be empty") 400)
     else if negb (PyStr.truthy (OPENAI_API_KEY settings)) then
       ret (mk_JsonResponse (ErrorData key_not_configured) 500)
     else
       atomic
         (user_message <- Message_objects_create conv "user" content None ;;
          r <- call_on conv update_title_from_first_message ;;
          let conv := snd r in
          w <- get ;;
          let recent_messages :=
            get_recent_messages_for_api conv
              (MESSAGE_HISTORY_LIMIT settings) (db w) in
          let openai_messages := map to_openai_format recent_messages in
          ai_response <-
            generate_chat_completion openai_service openai_messages ;;
          if truthy_opt ai_response then
            assistant_message <-
              Message_objects_create conv "assistant" (text_of ai_response)
                (Some user_message) ;;
            ret (mk_JsonResponse
                   (SentData user_message assistant_message) 200)
          else
            ret (mk_JsonResponse
                   (ErrorData "Failed to generate AI response") 500)))
    (fun e =>
       if isinstance e JSONDecodeError then
         ret (mk_JsonResponse (ErrorData "Invalid JSON") 400)
       else if isinstance e Exception then
         logger ERROR ("Error sending message: " ++ exc_msg e)%string ;;
         ret (mk_JsonResponse (ErrorData "Failed to send message") 500)
       else raise e).

(** The query of [regenerate_reply] for the reply in force:
    [Message.objects.filter(parent_user_message=user_message,
    role='assistant', superseded=False)]. *)
Definition active_replies_to (user_message : Message) (d : Database)
  : list Message :=
  order_by_created_at
    (filter (fun m => opt_Z_eqb (parent_user_message m)
                                (Some (id user_message))
                      && String.eqb (role m) "assistant"
                      && negb (superseded m))
            (messages d)).

(** Truth value of the [message_id] read from the body: [None] and [0] are
    false. *)
Definition truthy_id (o : option Z) : bool :=
  match o with
  | Some k => negb (k =? 0)
  | None => false
  end.

Definition id_of (o : option Z) : Z :=
  match o with
  | Some k => k
  | None => 0
  end.

(** [regenerate_reply] *)
Definition regenerate_reply (request : Request Z) (conversation_id : Z)
  : M World JsonResponse :=
  w0 <- get ;;
  conv <- get_object_or_404 "Conversation"
            (filter (fun c => (conv_id c =? conversation_id)
                              && (user c =? request_user request))
                    (conversations (db w0))) ;;
  try_except
    (data <- json_loads (request_body_ request) ;;
     let user_message_id := data in
     if negb (truthy_id user_message_id) then
       ret (mk_JsonResponse (ErrorData "message_id is required") 400)
     else
         let user_message_id := id_of user_message_id in
         w1 <- get ;;
         user_message <-
           get_object_or_404 "Message"
             (filter (fun m => (id m =? user_message_id)
                               && (conversation m =? conv_id conv)
                               && String.eqb (role m) "user")
                     (messages (db w1))) ;;
         if negb (PyStr.truthy (OPENAI_API_KEY settings)) then
           ret (mk_JsonResponse (ErrorData key_not_configured) 500)
         else
           atomic
             (w2 <- get ;;
              let current_assistant_reply :=
                first (active_replies_to user_message (db w2)) in
              r <- call_on user_message get_conversation_history_for_api ;;
              let messages_for_api := fst r in
              let openai_messages := map to_openai_format messages_for_api in
              ai_response <-
                generate_chat_completion openai_service openai_messages ;;
              if truthy_opt ai_response then
                new_assistant_message <-
                  Message_objects_create conv "assistant"
                    (text_of ai_response) (Some user_message) ;;
                match current_assistant_reply with
                | Some reply =>
                    _ <- call_on reply
                           (supersede_with_new_reply new_assistant_message) ;;
                    ret tt
                | None => ret tt
                end ;;
                ret (mk_JsonResponse
                       (RegeneratedData new_assistant_message) 200)
              else
                ret (mk_JsonResponse
                       (ErrorData "Failed to generate AI response") 500)))
    (fun e =>
       if isinstance e JSONDecodeError then
         ret (mk_JsonResponse (ErrorData "Invalid JSON") 400)
       else if isinstance e Exception then
         logger ERROR ("Error regenerating reply: " ++ exc_msg e)%string ;;
         ret (mk_JsonResponse (ErrorData "Failed to regenerate reply") 500)
       else raise e).

(* =================================================================== *)
(** ** [chat/views.py]: the conversation views and [edit_message] *)
(* =================================================================== *)

(** The dicts these views give to [JsonResponse]. *)
Inductive json_body :=
| JsonError (error : string)
| JsonCreated (pk : Z) (title_ : string) (created_at_ : Z)
| JsonSuccess
| JsonRenamed (title_ : string)
| JsonEdited (pk : Z) (content_ : string) (edited_ : bool)
    (edited_at_ : option Z).

(** The context handed to a template. *)
Inductive render_context :=
| ListContext (conversations_ : list Conversation)
| DetailContext (conversation_ : Conversation) (messages_ : list Message).

(** What a view returns: a [JsonResponse] with its status, a [redirect] to
    a named URL with its argument and the flash message queued before it
    ([messages.success]), or a rendered template. *)
Inductive HttpResponse :=
| Json (body : json_body) (code : Z)
| Redirect (to : string) (arg : option Z) (flash : option string)
| Render (template : string) (context : render_context).

(** The default ordering of [Conversation], [Meta.ordering =
    ['-updated_at']]: latest activity first; rows with equal timestamps
    keep their insertion order. *)
Fixpoint insert_by_updated_at_desc (c : Conversation) (l : list Conversation)
  : list Conversation :=
  match l with
  | [] => [c]
  | x :: l' =>
      if updated_at x <=? updated_at c then c :: l
      else x :: insert_by_updated_at_desc c l'
  end.

Definition order_by_updated_at_desc (l : list Conversation)
  : list Conversation :=
  fold_right insert_by_updated_at_desc [] l.

(** [Conversation.objects.create(user=, title=)]: [created_at] is
    [auto_now_add] and [updated_at] is [auto_now], each field reads the
    clock for itself. *)
Definition Conversation_objects_create (owner : Z) (t : string)
  : M World Conversation :=
  t1 <- timezone_now ;;
  t2 <- timezone_now ;;
  w <- get ;;
  let c := {| conv_id := next_conversation_id (db w); user := owner;
              title := t; conv_created_at := t1; updated_at := t2 |} in
  put (set_db {| conversations := conversations (db w) ++ [c];
                 messages := messages (db w);
                 next_conversation_id := next_conversation_id (db w) + 1;
                 next_message_id := next_message_id (db w) |} w) ;;
  ret c.

(** [request.headers.get('Content-Type') == 'application/json'] *)
Definition wants_json (content_type : option string) : bool :=
  match content_type with
  | Some s => String.eqb s "application/json"
  | None => false
  end.

(** [conversation_list] *)
Definition conversation_list (request_user_ : Z) : M World HttpResponse :=
  w <- get ;;
  let conversations_ :=
    order_by_updated_at_desc
      (filter (fun c => user c =? request_user_) (conversations (db w))) in
  ret (Render "chat/conversation_list.html" (ListContext conversations_)).

(** [create_conversation] *)
Definition create_conversation (request_user_ : Z)
  (content_type : option string) : M World HttpResponse :=
  conv <- Conversation_objects_create request_user_ "New Conversation" ;;
  if wants_json content_type then
    ret (Json (JsonCreated (conv_id conv) (title conv) (conv_created_at conv))
           200)
  else
    ret (Redirect "chat:conversation_detail" (Some (conv_id conv)) None).

(** [conversation_detail] *)
Definition conversation_detail (request_user_ : Z) (conversation_id : Z)
  : M World HttpResponse :=
  w0 <- get ;;
  conv <- get_object_or_404 "Conversation"
            (filter (fun c => (conv_id c =? conversation_id)
                              && (user c =? request_user_))
                    (conversations (db w0))) ;;
  w <- get ;;
  let messages_list := get_active_messages conv (db w) in
  ret (Render "chat/conversation_detail.html"
         (DetailContext conv messages_list)).

(** ** Deletion *)

Definition mem_id (k : Z) (ids : list Z) : bool := existsb (Z.eqb k) ids.

(** A foreign key that points into a set of primary keys. *)
Definition refers_to (ids : list Z) (fk : option Z) : bool :=
  match fk with
  | Some k => mem_id k ids
  | None => false
  end.

(** The cascade over [parent_user_message] ([on_delete=CASCADE]): the
    messages answering a message that goes, go as well, round after round
    until none is added. No round adds a message twice, so as many rounds as
    there are rows are enough. *)
Fixpoint cascade (rounds : nat) (doomed : list Z) (rows : list Message)
  : list Z :=
  match rounds with
  | O => doomed
  | S rounds' =>
      match filter (fun m => refers_to doomed (parent_user_message m)
                             && negb (mem_id (id m) doomed)) rows with
      | [] => doomed
      | more => cascade rounds' (doomed ++ map id more) rows
      end
  end.

(** The primary keys of the messages that [conversation.delete()]
    collects: the messages of the conversation ([conversation] is
    [on_delete=CASCADE]) and what the cascade adds. *)
Definition collected_messages (self : Conversation) (d : Database) : list Z :=
  cascade (List.length (messages d)) (map id (related_messages self d))
    (messages d).

(** [Model.delete()] of a conversation: the row and the collected messages
    are deleted; a [replaced_by] that points to a deleted message is set to
    [NULL] ([on_delete=SET_NULL]). *)
Definition Conversation_delete (self : Conversation) : M World unit :=
  modify (fun w =>
    let doomed := collected_messages self (db w) in
    set_db
      {| conversations :=
           filter (fun c => negb (conv_id c =? conv_id self))
                  (conversations (db w));
         messages :=
           map (fun m => if refers_to doomed (replaced_by m)
                         then set_replaced_by None m else m)
               (filter (fun m => negb (mem_id (id m) doomed))
                       (messages (db w)));
         next_conversation_id := next_conversation_id (db w);
         next_message_id := next_message_id (db w) |} w).

(** [delete_conversation] *)
Definition delete_conversation (request_user_ : Z) (conversation_id : Z)
  (content_type : option string) : M World HttpResponse :=
  w0 <- get ;;
  conv <- get_object_or_404 "Conversation"
            (filter (fun c => (conv_id c =? conversation_id)
                              && (user c =? request_user_))
                    (conversations (db w0))) ;;
  Conversation_delete conv ;;
  if wants_json content_type then ret (Json JsonSuccess 200)
  else
    ret (Redirect "chat:conversation_list" None
           (Some "Conversation deleted successfully.")).

(** [rename_conversation]; the key read from the body is ['title']. *)
Definition rename_conversation (request : Request string)
  (conversation_id : Z) : M World HttpResponse :=
  w0 <- get ;;
  conv <- get_object_or_404 "Conversation"
            (filter (fun c => (conv_id c =? conversation_id)
                              && (user c =? request_user request))
                    (conversations (db w0))) ;;
  try_except
    (data <- json_loads (request_body_ request) ;;
     let new_title := PyStr.strip (text_of data) in
     if negb (PyStr.truthy new_title) then
       ret (Json (JsonError "Title cannot be empty") 400)
     else
       r <- call_on (set_title new_title conv) Conversation_save ;;
       let conv := snd r in
       ret (Json (JsonRenamed (title conv)) 200))
    (fun e =>
       if isinstance e JSONDecodeError then
         ret (Json (JsonError "Invalid JSON") 400)
       else if isinstance e Exception then
         logger ERROR ("Error renaming conversation: " ++ exc_msg e)%string ;;
         ret (Json (JsonError "Failed to rename conversation") 500)
       else raise e).

(** [edit_message]; the key read from the body is ['content']. *)
Definition edit_message (request : Request string) (message_id : Z)
  : M World HttpResponse :=
  w0 <- get ;;
  message <- get_object_or_404 "Message"
               (filter (fun m => id m =? message_id) (messages (db w0))) ;;
  (* message.conversation.user *)
  conv <- get_conversation (conversation message) ;;
  if negb (user conv =? request_user request) then
    ret (Json (JsonError "Permission denied") 403)
  else if negb (String.eqb (role message) "user") then
    ret (Json (JsonError "Only user messages can be edited") 400)
  else
    try_except
      (data <- json_loads (request_body_ request) ;;
       let new_content := PyStr.strip (text_of data) in
       if negb (PyStr.truthy new_content) then
         ret (Json (JsonError "Message content cannot be empty") 400)
       else
         r <- call_on message (edit_content new_content) ;;
         let message := snd r in
         ret (Json (JsonEdited (id message) (content message)
                      (edited message) (edited_at message)) 200))
      (fun e =>
         if isinstance e JSONDecodeError then
           ret (Json (JsonError "Invalid JSON") 400)
         else if isinstance e Exception then
           logger ERROR ("Error editing message: " ++ exc_msg e)%string ;;
           ret (Json (JsonError "Failed to edit message") 500)
         else raise e).

(** ** Previews ([Message.__str__], [MessageAdmin.content_preview]) *)

(** [Message.__str__] *)
Definition Message_str (self : Message) : string :=
  (role self ++ ": " ++ PyStr.slice_to 50 (content self) ++ "...")%string.

(* =================================================================== *)
(** ** [chat/admin.py] *)
(* =================================================================== *)

(** [MessageAdmin.content_preview]: the conditional expression binds
    weaker than [+], the marker belongs to the first branch. *)
Definition content_preview (obj : Message) : string :=
  if 100 <? PyStr.len (content obj)
  then (PyStr.slice_to 100 (content obj) ++ "...")%string
  else content obj.

End Program.

Arguments db {E} w.
Arguments ext {E} w.
Arguments log {E} w.

(* ===================================================================== *)
(** * Vocabulary of the statements *)
(* ===================================================================== *)

(** Sum of the estimated sizes of a sequence of entries. *)
Fixpoint total_tokens (l : list ChatMessage) : Z :=
  match l with
  | [] => 0
  | m :: l' => estimate_tokens (msg_content m) + total_tokens l'
  end.

(** The primary key constraint of the message table: keys are positive,
    distinct, and below the next key to be handed out. *)
Definition db_wf (d : Database) : Prop :=
  NoDup (map id (messages d))
  /\ (forall m, In m (messages d) -> 0 < id m < next_message_id d).

(** A user message after [edit_content] at time [t]. *)
Definition edited_with (c : string) (t : Z) (m : Message) : Message :=
  set_edited_at (Some t)
    (set_edited true (set_content c (set_previous_content (content m) m))).

(** The row [Message.objects.create] inserts. *)
Definition created_message (pk : Z) (conv : Conversation) (r c : string)
  (t : Z) (parent : option Message) : Message :=
  {| id := pk; conversation := conv_id conv; role := r; content := c;
     created_at := t; edited := false; edited_at := None;
     previous_content := EmptyString; superseded := false;
     replaced_by := None; parent_user_message := option_map id parent |}.

(** The row that replaces a superseded reply. *)
Definition superseded_by (new_reply : Message) (m : Message) : Message :=
  set_replaced_by (Some (id new_reply)) (set_superseded true m).

(** The message table after a reply to [user_message] was regenerated. *)
Definition regenerated_messages (d : Database) (user_message new_reply : Message)
  : list Message :=
  match first (active_replies_to user_message d) with
  | Some reply =>
      save_message_row (superseded_by new_reply reply) (messages d ++ [new_reply])
  | None => messages d ++ [new_reply]
  end.

(** The test of the filter [parent_user_message=m, role='assistant',
    superseded=False]. *)
Definition is_active_reply_to (m x : Message) : bool :=
  opt_Z_eqb (parent_user_message x) (Some (id m))
  && String.eqb (role x) "assistant" && negb (superseded x).

(** The assistant replies to [m] within a sequence of messages. *)
Definition replies_to (m : Message) (l : list Message) : list Message :=
  filter (fun x => String.eqb (role x) "assistant"
                   && opt_Z_eqb (parent_user_message x) (Some (id m))) l.

(** What holds of every message a view appends. *)
Definition view_created (m : Message) : Prop :=
  (role m = "user" \/ role m = "assistant")
  /\ edited m = false /\ superseded m = false.

Definition conversation_missing : exception :=
  mk_exception DoesNotExist "Conversation matching query does not exist.".

Definition not_in_list : exception :=
  mk_exception ValueError "x is not in list".

(** The dict [check_moderation] returns when it fails open. *)
Definition not_flagged : Moderation := {| flagged := false; categories := [] |}.

(** The world after [logger.error(s)]. *)
Definition log_error {E} (s : string) (w : World E) : World E :=
  mk_World E (db w) (ext w) (log w ++ [ {| level := ERROR; text := s |} ]).

(** The request [generate_chat_completion] sends. *)
Definition completion_request (self : OpenAIService) (msgs : list ChatMessage)
  : CompletionRequest :=
  {| req_model := model self; req_messages := msgs; req_max_tokens := 1000 |}.

(** The first message of the title test in [chat/tests.py]. *)
Definition long_message : string :=
  "This is a very long message that should be truncated when used as title".

(** ** Concrete worlds *)

Module Scenario.

(** A clock that ticks once per reading, and endpoints that answer every
    call the same way. *)
Definition externals (moderate : string -> Result ModerationResponse)
  (complete : CompletionRequest -> Result ChatCompletion) : Externals :=
  {| Ext := Z;
     clock := fun t => (t, t + 1);
     moderations := fun s x => (moderate s, x);
     completions := fun r x => (complete r, x) |}.

(** Moderation finds nothing. *)
Definition clean (_ : string) : Result ModerationResponse :=
  Ok {| results := [ {| flagged := false; categories := [] |} ] |}.

(** The moderation endpoint cannot be reached. *)
Definition down (_ : string) : Result ModerationResponse :=
  Raise (mk_exception APIConnectionError "Connection error.").

(** The completion endpoint answers [s]. *)
Definition answers (s : string) (_ : CompletionRequest)
  : Result ChatCompletion :=
  Ok {| choices := [ {| message_content := Some s |} ] |}.

(** The completion endpoint answers without text. *)
Definition silent (_ : CompletionRequest) : Result ChatCompletion :=
  Ok {| choices := [ {| message_content := None |} ] |}.

(** The completion endpoint refuses for the rate limit. *)
Definition rate_limited (_ : CompletionRequest) : Result ChatCompletion :=
  Raise (mk_exception RateLimitError "Rate limit reached").

Definition cfg : Settings :=
  {| OPENAI_API_KEY := "sk-test"; OPENAI_MODEL := "gpt-3.5-turbo";
     MESSAGE_HISTORY_LIMIT := 12 |}.

Definition service : OpenAIService := openai_service cfg.

(** One conversation of user 7, still with the default title. *)
Definition conv1 : Conversation :=
  {| conv_id := 1; user := 7; title := default_title;
     conv_created_at := 100; updated_at := 100 |}.

Definition user_msg : Message :=
  {| id := 1; conversation := 1; role := "user"; content := "User message";
     created_at := 101; edited := false; edited_at := None;
     previous_content := EmptyString; superseded := false;
     replaced_by := None; parent_user_message := None |}.

Definition old_reply : Message :=
  {| id := 2; conversation := 1; role := "assistant";
     content := "Old AI response";
     created_at := 102; edited := false; edited_at := None;
     previous_content := EmptyString; superseded := false;
     replaced_by := None; parent_user_message := Some 1 |}.

Definition second_reply : Message :=
  {| id := 3; conversation := 1; role := "assistant";
     content := "Another AI response";
     created_at := 103; edited := false; edited_at := None;
     previous_content := EmptyString; superseded := false;
     replaced_by := None; parent_user_message := Some 1 |}.

Definition empty_db : Database :=
  {| conversations := [conv1]; messages := [];
     next_conversation_id := 2; next_message_id := 1 |}.

(** The state of [test_regenerate_reply_view]: a user message and its
    reply. *)
Definition one_reply_db : Database :=
  {| conversations := [conv1]; messages := [user_msg; old_reply];
     next_conversation_id := 2; next_message_id := 3 |}.

(** The state of [test_supersede_with_new_reply] before the call: two
    replies to the same user message, neither superseded. *)
Definition two_replies_db : Database :=
  {| conversations := [conv1]; messages := [user_msg; old_reply; second_reply];
     next_conversation_id := 2; next_message_id := 4 |}.

(** A conversation whose first user message reads like the default
    title. *)
Definition placeholder_msg : Message :=
  {| id := 1; conversation := 1; role := "user";
     content := "New Conversation";
     created_at := 101; edited := false; edited_at := None;
     previous_content := EmptyString; superseded := false;
     replaced_by := None; parent_user_message := None |}.

Definition placeholder_db : Database :=
  {| conversations := [conv1]; messages := [placeholder_msg];
     next_conversation_id := 2; next_message_id := 2 |}.

Definition world (E : Externals) (d : Database) (now : Ext E) : World E :=
  mk_World E d now [].

(** The body [{"message_id": 1}] sent by user 7. *)
Definition regenerate_request : Request Z :=
  mk_Request 7 (JsonObject (Some 1)).

(** The entries of [test_trim_messages_by_token_limit], the long one
    shortened to 40 characters. *)
Definition history : list ChatMessage :=
  [ {| msg_role := "user"; msg_content := "Short message" |};
    {| msg_role := "assistant"; msg_content := "Another short message" |};
    {| msg_role := "user";
       msg_content := "AAAAAAAAAAAAAAAAAAAAAAAAAAAAAAAAAAAAAAAA" |};
    {| msg_role := "assistant"; msg_content := "Final message" |} ].

End Scenario.

(* ===================================================================== *)
(** * Vocabulary of the further properties *)
(* ===================================================================== *)

(** Messages in the order of their creation times. *)
Definition chronological (l : list Message) : Prop :=
  StronglySorted (fun a b => created_at a <= created_at b) l.

(** Conversations with the latest activity first. *)
Definition latest_first (l : list Conversation) : Prop :=
  StronglySorted (fun a b => updated_at b <= updated_at a) l.

(** The primary keys of the message table are in order: the constraint
    [db_wf] holds and the next key to be handed out is positive. *)
Definition keys_ok (d : Database) : Prop :=
  db_wf d /\ 0 < next_message_id d.

(** The message table of [d'] has the keys of [d], row by row, followed by
    keys handed out since. *)
Definition keys_grow (d d' : Database) : Prop :=
  exists ks,
    map id (messages d') = map id (messages d) ++ ks
    /\ NoDup ks
    /\ (forall k, In k ks -> next_message_id d <= k < next_message_id d')
    /\ next_message_id d <= next_message_id d'.

(** [m] links to the message with primary key [k], as the message it
    answers or as its replacement. *)
Definition points_to (m : Message) (k : Z) : Prop :=
  parent_user_message m = Some k \/ replaced_by m = Some k.

(** The links between messages are in order: every link leads to a stored
    message, and to one of the same conversation. *)
Definition links_ok (rows : list Message) : Prop :=
  forall m k, In m rows -> points_to m k ->
    exists p, In p rows /\ id p = k /\ conversation p = conversation m.

(** The rows [send_message] can append when the next primary key is [n]:
    none, a user message, or a user message and the reply to it. *)
Definition sent_rows (n : Z) (new : list Message) : Prop :=
  new = []
  \/ exists um,
       id um = n /\ parent_user_message um = None /\ replaced_by um = None
       /\ (new = [um]
           \/ exists am,
                new = [um; am] /\ id am = n + 1
                /\ parent_user_message am = Some n /\ replaced_by am = None
                /\ conversation am = conversation um).

(** What [send_message] does to the message table: rows are appended,
    and the counter of primary keys advances by their number. *)
Definition sent (d d' : Database) : Prop :=
  exists new,
    messages d' = messages d ++ new
    /\ next_message_id d' = next_message_id d + Z.of_nat (List.length new)
    /\ sent_rows (next_message_id d) new.

(** What [regenerate_reply] does to the message table: nothing, or the
    regeneration of the reply to a stored message [um] of a conversation
    [conv]. *)
Definition regenerated (d d' : Database) : Prop :=
  (messages d' = messages d /\ next_message_id d' = next_message_id d)
  \/ exists um conv ai t,
       In um (messages d) /\ conversation um = conv_id conv
       /\ messages d'
          = regenerated_messages d um
              (created_message (next_message_id d) conv "assistant" ai t
                 (Some um))
       /\ next_message_id d' = next_message_id d + 1.

(** What [edit_message] does to the message table: nothing, or the edit of
    a stored message. *)
Definition edited_rows (d d' : Database) : Prop :=
  next_message_id d' = next_message_id d
  /\ (messages d' = messages d
      \/ exists m c t,
           In m (messages d)
           /\ messages d'
              = map (fun x => if id m =? id x then edited_with c t m else x)
                  (messages d)).

(** What [delete_conversation] does to the message table: nothing, or the
    deletion of what was collected for a conversation. *)
Definition deleted_rows (d d' : Database) : Prop :=
  next_message_id d' = next_message_id d
  /\ (messages d' = messages d
      \/ exists conv,
           messages d'
           = map (fun m => if refers_to (collected_messages conv d)
                                (replaced_by m)
                           then set_replaced_by None m else m)
               (filter (fun m => negb (mem_id (id m)
                                         (collected_messages conv d)))
                       (messages d))).

(** No message has two replies in force. *)
Definition single_reply (d : Database) : Prop :=
  forall u, (List.length (active_replies_to u d) <= 1)%nat.

(** One request served by a view of [chat/views.py], or a change outside
    the database (the clock, the endpoints, the log). *)
Inductive step (E : Externals) (settings : Settings)
  : World E -> World E -> Prop :=
| step_conversation_list u w :
    step E settings w (snd (conversation_list E u w))
| step_create_conversation u content_type w :
    step E settings w (snd (create_conversation E u content_type w))
| step_conversation_detail u cid w :
    step E settings w (snd (conversation_detail E u cid w))
| step_delete_conversation u cid content_type w :
    step E settings w (snd (delete_conversation E u cid content_type w))
| step_rename_conversation request cid w :
    step E settings w (snd (rename_conversation E request cid w))
| step_send_message request cid w :
    step E settings w (snd (send_message E settings request cid w))
| step_edit_message request message_id w :
    step E settings w (snd (edit_message E request message_id w))
| step_regenerate_reply request cid w :
    step E settings w (snd (regenerate_reply E settings request cid w))
| step_outside w x l :
    step E settings w (mk_World E (db w) x l).

(** The worlds that the views reach from a database without messages. *)
Inductive reachable (E : Externals) (settings : Settings)
  : World E -> Prop :=
| reachable_start w :
    messages (db w) = [] -> 0 < next_message_id (db w) ->
    reachable E settings w
| reachable_step w w' :
    reachable E settings w -> step E settings w w' ->
    reachable E settings w'.

(** ** Further concrete worlds *)

Module Cases.

(** The moderation endpoint flags every text. *)
Definition flagging (_ : string) : Result ModerationResponse :=
  Ok {| results := [ {| flagged := true;
                        categories := [("violence", true)] |} ] |}.

(** The settings of an installation without [OPENAI_API_KEY]. *)
Definition no_key : Settings :=
  {| OPENAI_API_KEY := EmptyString; OPENAI_MODEL := "gpt-3.5-turbo";
     MESSAGE_HISTORY_LIMIT := 12 |}.

(** A conversation of user 8, renamed, with one message. *)
Definition conv2 : Conversation :=
  {| conv_id := 2; user := 8; title := "Trip";
     conv_created_at := 110; updated_at := 120 |}.

Definition other_msg : Message :=
  {| id := 3; conversation := 2; role := "user"; content := "Where to?";
     created_at := 111; edited := false; edited_at := None;
     previous_content := EmptyString; superseded := false;
     replaced_by := None; parent_user_message := None |}.

Definition two_conversations_db : Database :=
  {| conversations := [Scenario.conv1; conv2];
     messages := [Scenario.user_msg; Scenario.old_reply; other_msg];
     next_conversation_id := 3; next_message_id := 4 |}.

(** A history without entries of role user. *)
Definition assistant_only : list ChatMessage :=
  [ {| msg_role := "system"; msg_content := "Be brief." |};
    {| msg_role := "assistant"; msg_content := "Hello!" |} ].

End Cases.

(* ===================================================================== *)
(** * Properties *)
(* ===================================================================== *)

Ltac run_monad :=
  unfold bind, ret, raise, get, put, modify, self_, assign, on_world,
    call_on, try_except, timezone_now; simpl.

(** Closes a case in which the view answers with another status. *)
Ltac wrong_status H :=
  solve [ inversion H; subst; simpl in *; discriminate ].

(** ** The size budget: [trim_messages_by_token_limit] *)

Lemma estimate_tokens_nonneg (s : string) : 0 <= estimate_tokens s.
Proof.
  unfold estimate_tokens, PyStr.len.
  apply Z.div_pos; lia.
Qed.

Lemma total_tokens_nonneg (l : list ChatMessage) : 0 <= total_tokens l.
Proof.
  induction l as [|m l IH]; simpl; [lia|].
  pose proof (estimate_tokens_nonneg (msg_content m)). lia.
Qed.

Lemma total_tokens_app (a b : list ChatMessage) :
  total_tokens (a ++ b) = total_tokens a + total_tokens b.
Proof. induction a as [|m a IH]; simpl; lia. Qed.

Lemma total_tokens_rev (l : list ChatMessage) :
  total_tokens (rev l) = total_tokens l.
Proof.
  induction l as [|m l IH]; simpl; [reflexivity|].
  rewrite total_tokens_app, IH. simpl. lia.
Qed.

(** The loop takes a prefix [taken] of the reversed input and leaves the
    rest: every running total along [taken] is within the budget, and the
    entry at which the loop breaks, if there is one, is not. *)
Lemma trim_loop_split (reversed : list ChatMessage) (max_tokens : Z) :
  forall total trimmed,
  exists taken left,
    reversed = taken ++ left
    /\ trim_loop reversed max_tokens total trimmed = rev taken ++ trimmed
    /\ (forall p q, taken = p ++ q -> p <> [] ->
          total + total_tokens p <= max_tokens)
    /\ (forall e left', left = e :: left' ->
          max_tokens
          < total + total_tokens taken + estimate_tokens (msg_content e)).
Proof.
  induction reversed as [|m rest IH]; intros total trimmed.
  - exists [], []. simpl. repeat split; try reflexivity.
    + intros p q H Hp. destruct p; [congruence | discriminate].
    + intros e left' H. discriminate.
  - simpl.
    destruct (Z.leb_spec (total + estimate_tokens (msg_content m)) max_tokens)
      as [Hfit | Hover].
    + destruct (IH (total + estimate_tokens (msg_content m)) (m :: trimmed))
        as (taken & left & Hsplit & Hres & Hrun & Hstop).
      exists (m :: taken), left. repeat split.
      * simpl. now rewrite Hsplit.
      * rewrite Hres. simpl. now rewrite <- app_assoc.
      * intros p q Hpq Hp. destruct p as [|x p]; [congruence|].
        simpl in Hpq. injection Hpq as -> Hpq. simpl.
        destruct p as [|y p].
        -- simpl. lia.
        -- specialize (Hrun (y :: p) q Hpq ltac:(discriminate)). lia.
      * intros e left' Hl. specialize (Hstop e left' Hl). simpl. lia.
    + exists [], (m :: rest). repeat split.
      * intros p q H Hp. destruct p; [congruence | discriminate].
      * intros e left' Hl. injection Hl as <- _. simpl. lia.
Qed.

(** C2. [trim_messages_by_token_limit] keeps a contiguous suffix of its
    input, in the order of the input. Entries are taken from the most recent
    backward, each counted as [len(content) // 4]: every running total over
    the kept entries, from the most recent one on, is within [max_tokens];
    the entry just before the kept suffix, when there is one, is the first
    that would overflow, and nothing older is kept. For a budget that is
    not negative the total of the result is within the budget (the result
    for a negative budget is empty), and when the most recent entry alone
    exceeds the budget the result is the empty list. *)
Theorem trim_messages_by_token_limit_suffix_within_budget
  (msgs : list ChatMessage) (max_tokens : Z) :
  let kept := trim_messages_by_token_limit msgs max_tokens in
  (forall m, estimate_tokens (msg_content m)
             = Z.of_nat (String.length (msg_content m)) / 4)
  /\ exists older,
       msgs = older ++ kept
       /\ (forall a b, kept = a ++ b -> b <> [] -> total_tokens b <= max_tokens)
       /\ (0 <= max_tokens -> total_tokens kept <= max_tokens)
       /\ (max_tokens < 0 -> kept = [])
       /\ (forall older' e, older = older' ++ [e] ->
             max_tokens < total_tokens kept + estimate_tokens (msg_content e))
       /\ (forall init e, msgs = init ++ [e] ->
             max_tokens < estimate_tokens (msg_content e) -> kept = []).
Proof.
  intros kept. split; [reflexivity|].
  unfold kept, trim_messages_by_token_limit.
  destruct (trim_loop_split (rev msgs) max_tokens 0 [])
    as (taken & left & Hsplit & Hres & Hrun & Hstop).
  rewrite Hres, app_nil_r.
  assert (Hmsgs : msgs = rev left ++ rev taken).
  { rewrite <- rev_app_distr, <- Hsplit. now rewrite rev_involutive. }
  assert (Hsuffix : forall a b, rev taken = a ++ b -> b <> [] ->
                      total_tokens b <= max_tokens).
  { intros a b Hab Hb.
    assert (Ht : taken = rev b ++ rev a).
    { rewrite <- rev_app_distr, <- Hab. now rewrite rev_involutive. }
    specialize (Hrun (rev b) (rev a) Ht).
    rewrite total_tokens_rev in Hrun. simpl in Hrun. apply Hrun.
    intros Hnil. apply Hb. rewrite <- (rev_involutive b), Hnil. reflexivity. }
  exists (rev left). repeat split.
  - exact Hmsgs.
  - exact Hsuffix.
  - intros Hmax. destruct taken as [|x taken]; [simpl; lia|].
    apply (Hsuffix [] (rev (x :: taken))); [reflexivity|].
    simpl. intros Hnil. now apply app_eq_nil in Hnil as [_ Hnil].
  - intros Hneg. destruct taken as [|x taken]; [reflexivity|].
    specialize (Hrun [x] taken eq_refl ltac:(discriminate)). simpl in Hrun.
    pose proof (estimate_tokens_nonneg (msg_content x)). lia.
  - intros older' e Hold. destruct left as [|e' left'].
    + simpl in Hold. now destruct older'.
    + simpl in Hold. apply app_inj_tail in Hold as [_ ->].
      specialize (Hstop e left' eq_refl). rewrite total_tokens_rev. lia.
  - intros init e Hinit Hover.
    destruct taken as [|x taken]; [reflexivity|]. exfalso.
    assert (Hr : rev msgs = e :: rev init).
    { rewrite Hinit, rev_app_distr. reflexivity. }
    rewrite Hr in Hsplit. simpl in Hsplit. injection Hsplit as <- _.
    specialize (Hrun [e] taken eq_refl ltac:(discriminate)). simpl in Hrun. lia.
Qed.

(** ** Editing: [edit_content] *)

(** [edit_content] on a user message, statement by statement. *)
Lemma edit_content_user_run (E : Externals) (c : string) (m : Message)
  (w : World E) :
  String.eqb (role m) "user" = true ->
  edit_content E c (m, w) =
    let (t, x1) := clock E (ext w) in
    let m1 := edited_with c t m in
    let (t', x2) := clock E x1 in
    let d1 := set_messages (save_message_row m1 (messages (db w))) (db w) in
    match find (fun cv => conv_id cv =? conversation m) (conversations (db w)) with
    | None => (Raise conversation_missing, (m1, mk_World E d1 x2 (log w)))
    | Some cv =>
        let (t'', x3) := clock E x2 in
        (Ok tt,
         (m1, mk_World E
                (set_conversations
                   (save_conversation_row (set_updated_at t'' (set_updated_at t' cv))
                      (conversations d1)) d1)
                x3 (log w)))
    end.
Proof.
  intros Hrole. unfold edit_content, Message_save, get_conversation, Conversation_save.
  run_monad. rewrite Hrole. simpl.
  destruct (clock E (ext w)) as [t x1]. simpl.
  destruct (clock E x1) as [t' x2]. simpl.
  destruct (find _ _) as [cv|]; simpl.
  - destruct (clock E x2) as [t'' x3]. simpl. reflexivity.
  - reflexivity.
Qed.

Lemma find_save_message_row (m : Message) (rows : list Message) :
  find (message_eq m) (save_message_row m rows) = Some m.
Proof.
  unfold save_message_row.
  destruct (existsb (message_eq m) rows) eqn:Hex.
  - induction rows as [|x rows IH]; simpl in *; [discriminate|].
    destruct (message_eq m x) eqn:Hx; simpl.
    + unfold message_eq. now rewrite Z.eqb_refl.
    + rewrite Hx. apply IH. exact Hex.
  - induction rows as [|x rows IH]; simpl in *.
    + unfold message_eq. now rewrite Z.eqb_refl.
    + apply orb_false_elim in Hex as [Hx Hex]. rewrite Hx. now apply IH.
Qed.

Lemma find_save_conversation_row (c : Conversation) (rows : list Conversation) :
  find (fun x => conv_id x =? conv_id c) (save_conversation_row c rows) = Some c.
Proof.
  unfold save_conversation_row.
  destruct (existsb _ rows) eqn:Hex.
  - induction rows as [|x rows IH]; simpl in *; [discriminate|].
    destruct (conv_id c =? conv_id x) eqn:Hx; simpl.
    + now rewrite Z.eqb_refl.
    + rewrite Z.eqb_sym, Hx. apply IH. exact Hex.
  - induction rows as [|x rows IH]; simpl in *.
    + now rewrite Z.eqb_refl.
    + apply orb_false_elim in Hex as [Hx Hex]. rewrite Z.eqb_sym, Hx. now apply IH.
Qed.

(** The message and the message table after [edit_content] on a user
    message, whether or not the conversation could be loaded afterwards. *)
Lemma edit_content_user_state (E : Externals) (c : string) (m : Message)
  (w : World E) :
  String.eqb (role m) "user" = true ->
  let s := snd (edit_content E c (m, w)) in
  fst s = edited_with c (fst (clock E (ext w))) m
  /\ messages (db (snd s))
     = save_message_row (fst s) (messages (db w)).
Proof.
  intros Hrole s. unfold s. rewrite (edit_content_user_run E c m w Hrole).
  destruct (clock E (ext w)) as [t x1]. cbv zeta.
  destruct (clock E x1) as [t' x2].
  destruct (find _ _) as [cv|].
  - destruct (clock E x2) as [t'' x3]. simpl. split; reflexivity.
  - simpl. split; reflexivity.
Qed.

(** What the second of two edits can see of the first, apart from the
    message itself, does not depend on the content of the message. *)
Lemma edit_content_user_ext (E : Externals) (c : string) (m m' : Message)
  (w : World E) :
  String.eqb (role m) "user" = true ->
  String.eqb (role m') "user" = true ->
  conversation m = conversation m' ->
  ext (snd (snd (edit_content E c (m, w))))
  = ext (snd (snd (edit_content E c (m', w)))).
Proof.
  intros Hr Hr' Hc.
  rewrite (edit_content_user_run E c m w Hr), (edit_content_user_run E c m' w Hr').
  rewrite <- Hc.
  destruct (clock E (ext w)) as [t x1]. cbv zeta.
  destruct (clock E x1) as [t' x2].
  destruct (find _ _) as [cv|].
  - destruct (clock E x2) as [t'' x3]. reflexivity.
  - reflexivity.
Qed.

Lemma find_message_eq_id (a b : Message) (l : list Message) :
  id a = id b -> find (message_eq a) l = find (message_eq b) l.
Proof.
  intros H. induction l as [|x l IH]; simpl; [reflexivity|].
  unfold message_eq at 1 3. rewrite H. now rewrite IH.
Qed.

(** [edit_content] returns normally when the conversation of the message is
    stored, and the conversation is still stored afterwards. *)
Lemma edit_content_user_ok (E : Externals) (c : string) (m : Message)
  (w : World E) :
  String.eqb (role m) "user" = true ->
  find (fun cv => conv_id cv =? conversation m) (conversations (db w)) <> None ->
  fst (edit_content E c (m, w)) = Ok tt
  /\ find (fun cv => conv_id cv =? conversation m)
       (conversations (db (snd (snd (edit_content E c (m, w)))))) <> None.
Proof.
  intros Hrole Hfind. rewrite (edit_content_user_run E c m w Hrole).
  destruct (clock E (ext w)) as [t x1]. cbv zeta.
  destruct (clock E x1) as [t' x2].
  destruct (find _ _) as [cv|] eqn:Hcv; [|congruence].
  destruct (clock E x2) as [t'' x3]. simpl. split; [reflexivity|].
  apply find_some in Hcv as [_ Hid]. apply Z.eqb_eq in Hid.
  rewrite <- Hid.
  change (conv_id cv) with (conv_id (set_updated_at t'' (set_updated_at t' cv))) at 1.
  rewrite find_save_conversation_row. discriminate.
Qed.

(** C4. Two edits of a user message, [c1] then [c2], leave [content = c2],
    [previous_content = c1] and [edited = True], on the instance and on its
    row. The message that results is the same whatever the content and the
    previous content were before the first edit: the original text is kept
    nowhere, one level of history is all there is. Both calls return
    normally when the conversation of the message is stored. *)
Theorem edit_content_twice_keeps_previous_only (E : Externals) (m : Message)
  (w : World E) (c1 c2 : string) :
  role m = "user" ->
  let s1 := snd (edit_content E c1 (m, w)) in
  let s2 := snd (edit_content E c2 s1) in
  let m2 := fst s2 in
  content m2 = c2
  /\ previous_content m2 = c1
  /\ edited m2 = true
  /\ find (message_eq m) (messages (db (snd s2))) = Some m2
  /\ (forall c0 p0,
        let m' := set_previous_content p0 (set_content c0 m) in
        fst (snd (edit_content E c2 (snd (edit_content E c1 (m', w))))) = m2)
  /\ ((exists cv, In cv (conversations (db w)) /\ conv_id cv = conversation m) ->
      fst (edit_content E c1 (m, w)) = Ok tt
      /\ fst (edit_content E c2 s1) = Ok tt).
Proof.
  intros Hrole s1 s2 m2.
  assert (Hr : String.eqb (role m) "user" = true) by (now apply String.eqb_eq).
  destruct (edit_content_user_state E c1 m w Hr) as [Hm1 Hd1].
  fold s1 in Hm1, Hd1.
  assert (Hr1 : String.eqb (role (fst s1)) "user" = true) by (now rewrite Hm1).
  assert (Hs1 : s1 = (fst s1, snd s1)) by (now destruct s1).
  destruct (edit_content_user_state E c2 (fst s1) (snd s1) Hr1) as [Hm2 Hd2].
  rewrite <- Hs1 in Hm2, Hd2. fold s2 in Hm2, Hd2. fold m2 in Hm2, Hd2.
  repeat split.
  - rewrite Hm2. reflexivity.
  - rewrite Hm2, Hm1. reflexivity.
  - rewrite Hm2. reflexivity.
  - rewrite Hd2.
    rewrite (find_message_eq_id m m2); [apply find_save_message_row|].
    rewrite Hm2, Hm1. reflexivity.
  - intros c0 p0 m'.
    assert (Hr' : String.eqb (role m') "user" = true) by exact Hr.
    destruct (edit_content_user_state E c1 m' w Hr') as [Hm1' _].
    set (s1' := snd (edit_content E c1 (m', w))) in *.
    assert (Hr1' : String.eqb (role (fst s1')) "user" = true) by (now rewrite Hm1').
    assert (Hs1' : s1' = (fst s1', snd s1')) by (now destruct s1').
    destruct (edit_content_user_state E c2 (fst s1') (snd s1') Hr1') as [Hm2' _].
    rewrite <- Hs1' in Hm2'. rewrite Hm2', Hm2, Hm1', Hm1.
    assert (Hext : ext (snd s1') = ext (snd s1)).
    { unfold s1', s1. apply edit_content_user_ext; [exact Hr' | exact Hr | reflexivity]. }
    rewrite Hext. reflexivity.
  - destruct H as (cv & Hin & Hid).
    apply (edit_content_user_ok E c1 m w Hr).
    intros Hnone. apply (find_none _ _ Hnone) in Hin. apply Z.eqb_neq in Hin. auto.
  - destruct H as (cv & Hin & Hid).
    assert (Hfind : find (fun cv => conv_id cv =? conversation m) (conversations (db w)) <> None).
    { intros Hnone. apply (find_none _ _ Hnone) in Hin. apply Z.eqb_neq in Hin. auto. }
    destruct (edit_content_user_ok E c1 m w Hr Hfind) as [_ Hstill].
    fold s1 in Hstill. rewrite Hs1.
    apply (edit_content_user_ok E c2 (fst s1) (snd s1) Hr1).
    rewrite Hm1. exact Hstill.
Qed.

(** C10. [edit_content] on a message whose role is not ['user'] raises
    [ValueError] before anything is assigned or saved: the instance and the
    world are what they were, in particular [content], [previous_content],
    [edited], [edited_at] and the [updated_at] of every conversation. *)
Theorem edit_content_rejects_non_user (E : Externals) (m : Message)
  (w : World E) (new_content : string) :
  role m <> "user" ->
  let r := edit_content E new_content (m, w) in
  r = (Raise (mk_exception ValueError "Only user messages can be edited"),
       (m, w))
  /\ content (fst (snd r)) = content m
  /\ previous_content (fst (snd r)) = previous_content m
  /\ edited (fst (snd r)) = edited m
  /\ edited_at (fst (snd r)) = edited_at m
  /\ map updated_at (conversations (db (snd (snd r))))
     = map updated_at (conversations (db w))
  /\ messages (db (snd (snd r))) = messages (db w).
Proof.
  intros Hrole r. apply String.eqb_neq in Hrole.
  assert (Hr : r = (Raise (mk_exception ValueError
                             "Only user messages can be edited"), (m, w))).
  { unfold r, edit_content. run_monad. rewrite Hrole. reflexivity. }
  rewrite Hr. repeat split.
Qed.

(** ** History: [get_conversation_history_for_api] *)

(** *** Ordering is a rearrangement *)

Lemma insert_by_created_at_perm (m : Message) (l : list Message) :
  Permutation (insert_by_created_at m l) (m :: l).
Proof.
  induction l as [|x l IH]; simpl; [reflexivity|].
  destruct (created_at m <=? created_at x); [reflexivity|].
  rewrite IH. apply perm_swap.
Qed.

Lemma order_by_created_at_perm (l : list Message) :
  Permutation (order_by_created_at l) l.
Proof.
  induction l as [|x l IH]; simpl; [reflexivity|].
  rewrite insert_by_created_at_perm. now apply perm_skip.
Qed.

Lemma in_order_by_created_at (x : Message) (l : list Message) :
  In x (order_by_created_at l) <-> In x l.
Proof.
  split; apply Permutation_in;
    [apply order_by_created_at_perm | symmetry; apply order_by_created_at_perm].
Qed.

Lemma in_get_active_messages (cv : Conversation) (d : Database) (x : Message) :
  In x (get_active_messages cv d)
  <-> In x (messages d) /\ conversation x = conv_id cv /\ superseded x = false.
Proof.
  unfold get_active_messages, related_messages.
  rewrite in_order_by_created_at, !filter_In, Z.eqb_eq, negb_true_iff.
  tauto.
Qed.

Lemma NoDup_ids_filter (keep : Message -> bool) (rows : list Message) :
  NoDup (map id rows) -> NoDup (map id (filter keep rows)).
Proof.
  induction rows as [|r rows IH]; simpl; intros Hrows; [exact Hrows|].
  apply NoDup_cons_iff in Hrows as [Hnew Hrest].
  destruct (keep r); simpl; [|now apply IH].
  apply NoDup_cons_iff. split; [|now apply IH].
  rewrite in_map_iff. intros (y & Hy & Hin). apply Hnew.
  rewrite <- Hy. apply in_map. now apply filter_In in Hin as [Hin _].
Qed.

Lemma NoDup_ids_get_active_messages (cv : Conversation) (d : Database) :
  NoDup (map id (messages d)) -> NoDup (map id (get_active_messages cv d)).
Proof.
  intros H. unfold get_active_messages, related_messages.
  eapply Permutation_NoDup.
  - apply Permutation_map. symmetry. apply order_by_created_at_perm.
  - now do 2 apply NoDup_ids_filter.
Qed.

(** *** [list.index] *)

Lemma list_index_found {St} (m : Message) (before after : list Message)
  (x : Message) (s : St) :
  id x = id m ->
  (forall y, In y before -> id y <> id m) ->
  list_index m (before ++ x :: after) s = (Ok (List.length before), s).
Proof.
  intros Hx Hbefore. induction before as [|y before IH]; simpl.
  - unfold message_eq. rewrite Hx, Z.eqb_refl. reflexivity.
  - unfold message_eq at 1.
    destruct (Z.eqb_spec (id m) (id y)) as [Heq|Hne].
    + exfalso. apply (Hbefore y); [now left | congruence].
    + unfold bind. rewrite IH; [reflexivity|].
      intros z Hz. apply Hbefore. now right.
Qed.

Lemma list_index_missing {St} (m : Message) (l : list Message) (s : St) :
  (forall y, In y l -> id y <> id m) ->
  list_index m l s = (Raise not_in_list, s).
Proof.
  intros Hl. induction l as [|y l IH]; simpl; [reflexivity|].
  unfold message_eq at 1.
  destruct (Z.eqb_spec (id m) (id y)) as [Heq|Hne].
  - exfalso. apply (Hl y); [now left | congruence].
  - unfold bind. rewrite IH; [reflexivity|].
    intros z Hz. apply Hl. now right.
Qed.

(** The first element of a list with a given primary key. *)
Lemma first_with_id (k : Z) (l : list Message) :
  (exists x, In x l /\ id x = k) ->
  exists before x after,
    l = before ++ x :: after /\ id x = k
    /\ (forall y, In y before -> id y <> k).
Proof.
  induction l as [|y l IH]; intros (x & Hin & Hx); [destruct Hin|].
  destruct (Z.eq_dec (id y) k) as [Hy|Hy].
  - exists [], y, l. repeat split; [exact Hy | intros z []].
  - destruct Hin as [->|Hin]; [congruence|].
    destruct (IH (ex_intro _ x (conj Hin Hx))) as (before & x' & after & -> & Hx' & Hb).
    exists (y :: before), x', after. repeat split; [exact Hx'|].
    intros z [<-|Hz]; auto.
Qed.

Lemma firstn_through (before after : list Message) (x : Message) :
  firstn (List.length before + 1) (before ++ x :: after) = before ++ [x].
Proof.
  induction before as [|y before IH]; simpl; [reflexivity|]. now rewrite IH.
Qed.

Lemma first_with_id_dec (k : Z) (l : list Message) :
  (exists x, In x l /\ id x = k) \/ (forall x, In x l -> id x <> k).
Proof.
  induction l as [|y l [(x & Hin & Hx)|Hno]].
  - right. intros x [].
  - left. exists x. split; [now right | exact Hx].
  - destruct (Z.eq_dec (id y) k) as [Hy|Hy].
    + left. exists y. split; [now left | exact Hy].
    + right. intros x [<-|Hin]; auto.
Qed.

Lemma NoDup_map_inj {A B} (f : A -> B) (l : list A) (x y : A) :
  NoDup (map f l) -> In x l -> In y l -> f x = f y -> x = y.
Proof.
  induction l as [|z l IH]; simpl; intros Hnd Hx Hy Hf; [destruct Hx|].
  inversion Hnd as [|? ? Hz Hl]; subst.
  destruct Hx as [->|Hx], Hy as [->|Hy]; auto.
  - exfalso. apply Hz. rewrite Hf. now apply in_map.
  - exfalso. apply Hz. rewrite <- Hf. now apply in_map.
Qed.

Lemma get_conversation_history_for_api_run (E : Externals) (m : Message)
  (w : World E) (cv : Conversation) :
  find (fun c => conv_id c =? conversation m) (conversations (db w)) = Some cv ->
  get_conversation_history_for_api E (m, w) =
    let message_list := get_active_messages cv (db w) in
    match list_index m message_list (m, w) with
    | (Ok current_index, s) =>
        (Ok (firstn (current_index + 1) message_list), s)
    | (Raise e, s) =>
        if isinstance e ValueError then (Ok message_list, s) else (Raise e, s)
    end.
Proof.
  intros Hcv. unfold get_conversation_history_for_api, get_conversation.
  run_monad. rewrite Hcv. simpl.
  destruct (list_index m (get_active_messages cv (db w)) (m, w)) as [[i|e] s];
    [reflexivity|].
  destruct (isinstance e ValueError); reflexivity.
Qed.

(** C3. [get_conversation_history_for_api], for a message [m] whose
    conversation is stored, reads and changes nothing. When the active
    messages of the conversation hold a message equal to [m] (equal as model
    instances: the same primary key), it returns the active messages up to
    and including the first such message; when they hold none, it returns
    all of them. For a stored [m] that is not superseded the result is
    therefore not empty and ends in [m] itself. *)
Theorem get_conversation_history_for_api_prefix (E : Externals) (m : Message)
  (w : World E) (cv : Conversation) :
  find (fun c => conv_id c =? conversation m) (conversations (db w)) = Some cv ->
  let active := get_active_messages cv (db w) in
  let r := get_conversation_history_for_api E (m, w) in
  snd r = (m, w)
  /\ ((exists x, In x active /\ id x = id m) ->
      exists before x after,
        active = before ++ x :: after
        /\ id x = id m
        /\ (forall y, In y before -> id y <> id m)
        /\ fst r = Ok (before ++ [x]))
  /\ ((forall x, In x active -> id x <> id m) -> fst r = Ok active)
  /\ (db_wf (db w) -> In m (messages (db w)) -> superseded m = false ->
      exists before after,
        active = before ++ m :: after /\ fst r = Ok (before ++ [m])).
Proof.
  intros Hcv active r.
  assert (Hfound : forall before x after,
            active = before ++ x :: after -> id x = id m ->
            (forall y, In y before -> id y <> id m) ->
            r = (Ok (before ++ [x]), (m, w))).
  { intros before x after Hsplit Hx Hb. unfold r.
    rewrite (get_conversation_history_for_api_run E m w cv Hcv). cbv zeta.
    fold active. rewrite Hsplit.
    rewrite (list_index_found m before after x (m, w) Hx Hb).
    now rewrite firstn_through. }
  assert (Hmissing : (forall x, In x active -> id x <> id m) ->
                     r = (Ok active, (m, w))).
  { intros Hno. unfold r.
    rewrite (get_conversation_history_for_api_run E m w cv Hcv). cbv zeta.
    fold active. rewrite (list_index_missing m active (m, w) Hno). reflexivity. }
  assert (Hpresent : (exists x, In x active /\ id x = id m) ->
            exists before x after,
              active = before ++ x :: after /\ id x = id m
              /\ (forall y, In y before -> id y <> id m)
              /\ r = (Ok (before ++ [x]), (m, w))).
  { intros Hex. destruct (first_with_id (id m) active Hex)
      as (before & x & after & Hsplit & Hx & Hb).
    exists before, x, after. repeat split; auto.
    - exact (Hfound before x after Hsplit Hx Hb). }
  repeat split.
  - destruct (first_with_id_dec (id m) active) as [Hex|Hno].
    + destruct (Hpresent Hex) as (? & ? & ? & _ & _ & _ & ->). reflexivity.
    + now rewrite (Hmissing Hno).
  - intros Hex. destruct (Hpresent Hex) as (before & x & after & H1 & H2 & H3 & H4).
    exists before, x, after. rewrite H4. auto.
  - intros Hno. now rewrite (Hmissing Hno).
  - intros [Hnodup _] Hin Hsup.
    assert (Hact : In m active).
    { apply in_get_active_messages. repeat split; auto.
      apply find_some in Hcv as [_ Hid]. apply Z.eqb_eq in Hid. auto. }
    destruct (Hpresent (ex_intro _ m (conj Hact eq_refl)))
      as (before & x & after & Hsplit & Hx & Hb & Hr).
    assert (x = m).
    { apply (NoDup_map_inj id active); auto.
      - now apply NoDup_ids_get_active_messages.
      - rewrite Hsplit. apply in_or_app. right. now left. }
    subst x. exists before, after. rewrite Hr. auto.
Qed.

(** ** The completion gateway *)

Lemma isinstance_Exception (e : exception) : isinstance e Exception = true.
Proof. destruct e as [[] msg]; reflexivity. Qed.

(** [check_moderation] returns, whatever the endpoint does, and leaves the
    database alone. *)
Lemma check_moderation_returns (E : Externals) (text : string) (w : World E) :
  exists r w', check_moderation E text w = (Ok r, w') /\ db w' = db w.
Proof.
  unfold check_moderation, client_moderations_create, index0, logger.
  run_monad.
  destruct (moderations E text (ext w)) as [[response|e] x]; simpl.
  - destruct (results response) as [|r0 rs]; simpl; eauto.
  - rewrite isinstance_Exception. simpl. eauto.
Qed.

Lemma moderation_loop_returns (E : Externals) (msgs : list ChatMessage) :
  forall w : World E,
  exists r w', moderation_loop E msgs w = (Ok r, w') /\ db w' = db w.
Proof.
  induction msgs as [|message rest IH]; intros w; simpl.
  - unfold ret. eauto.
  - destruct (String.eqb (msg_role message) "user"); [|apply IH].
    unfold bind at 1.
    destruct (check_moderation_returns E (msg_content message) w)
      as (r & w1 & -> & Hdb).
    destruct (flagged r).
    + unfold logger. run_monad. eauto.
    + destruct (IH w1) as (r' & w' & -> & Hdb'). exists r', w'.
      split; [reflexivity | congruence].
Qed.

Lemma completion_handlers_returns (E : Externals) (e : exception) (w : World E) :
  exists s w', completion_handlers E e w = (Ok (Some s), w') /\ db w' = db w
               /\ PyStr.truthy s = true.
Proof.
  unfold completion_handlers, logger. run_monad.
  destruct (isinstance e RateLimitError); [simpl; eauto|].
  destruct (isinstance e AuthenticationError); [simpl; eauto|].
  destruct (isinstance e APIError); [simpl; eauto|].
  rewrite isinstance_Exception. simpl; eauto.
Qed.

Lemma call_backend_db (E : Externals) (self : OpenAIService)
  (msgs : list ChatMessage) (w : World E) :
  db (snd (call_backend E self msgs w)) = db w.
Proof.
  unfold call_backend, client_chat_completions_create, index0. run_monad.
  destruct (completions E _ (ext w)) as [[response|e] x]; simpl; [|reflexivity].
  destruct (choices response); reflexivity.
Qed.

Lemma generate_chat_completion_run (E : Externals) (self : OpenAIService)
  (msgs : list ChatMessage) (w : World E) :
  generate_chat_completion E self msgs w =
    match moderation_loop E msgs w with
    | (Ok (Some r), w1) => (Ok r, w1)
    | (Ok None, w1) =>
        try_except (call_backend E self msgs) (completion_handlers E) w1
    | (Raise e, w1) => completion_handlers E e w1
    end.
Proof.
  unfold generate_chat_completion, try_except, bind.
  destruct (moderation_loop E msgs w) as [[[r|]|e] w1]; try reflexivity.
Qed.

Lemma generate_chat_completion_returns (E : Externals) (self : OpenAIService)
  (msgs : list ChatMessage) (w : World E) :
  exists r w',
    generate_chat_completion E self msgs w = (Ok r, w') /\ db w' = db w.
Proof.
  rewrite generate_chat_completion_run.
  destruct (moderation_loop_returns E msgs w) as (r & w1 & -> & Hdb).
  destruct r as [r|]; [eauto|].
  unfold try_except.
  pose proof (call_backend_db E self msgs w1) as Hb.
  destruct (call_backend E self msgs w1) as [[r|e] w2]; simpl in Hb.
  - exists r, w2. split; [reflexivity | congruence].
  - destruct (completion_handlers_returns E e w2) as (s & w3 & -> & Hdb3 & _).
    exists (Some s), w3. split; [reflexivity | congruence].
Qed.

(** C5. [generate_chat_completion] always returns to its caller, it never
    raises. When the loop over the user messages ends without a flag and the
    completion call raises [e], the value returned is a fixed, non-empty
    string chosen by the class of [e]: the high-demand text for a
    [RateLimitError], the misconfiguration text for an
    [AuthenticationError], the technical-difficulties text for any other
    [APIError], and the generic apology for everything else; the generic
    apology is also what a response without choices leads to. *)
Theorem generate_chat_completion_never_raises (E : Externals)
  (self : OpenAIService) (msgs : list ChatMessage) (w : World E) :
  (exists r w', generate_chat_completion E self msgs w = (Ok r, w'))
  /\ (forall w1 e x,
        moderation_loop E msgs w = (Ok None, w1) ->
        completions E (completion_request self msgs) (ext w1) = (Raise e, x) ->
        exists s,
          fst (generate_chat_completion E self msgs w) = Ok (Some s)
          /\ PyStr.truthy s = true
          /\ (isinstance e RateLimitError = true -> s = high_demand_message)
          /\ (isinstance e AuthenticationError = true ->
              s = misconfigured_message)
          /\ (isinstance e APIError = true ->
              isinstance e RateLimitError = false ->
              isinstance e AuthenticationError = false ->
              s = technical_difficulties_message)
          /\ (isinstance e APIError = false -> s = unexpected_error_message))
  /\ (forall w1 response x,
        moderation_loop E msgs w = (Ok None, w1) ->
        completions E (completion_request self msgs) (ext w1)
        = (Ok response, x) ->
        choices response = [] ->
        fst (generate_chat_completion E self msgs w)
        = Ok (Some unexpected_error_message)).
Proof.
  split; [|split].
  - destruct (generate_chat_completion_returns E self msgs w) as (r & w' & H & _).
    eauto.
  - intros w1 e x Hloop Hfail.
    rewrite generate_chat_completion_run, Hloop.
    unfold try_except, call_backend, client_chat_completions_create.
    run_monad. fold (completion_request self msgs). rewrite Hfail. simpl.
    unfold completion_handlers, logger. run_monad.
    destruct e as [cls msg]. destruct cls; simpl;
      eexists; (split; [reflexivity|]);
      repeat split; intros; try reflexivity; discriminate.
  - intros w1 response x Hloop Hanswer Hnone.
    rewrite generate_chat_completion_run, Hloop.
    unfold try_except, call_backend, client_chat_completions_create, index0.
    run_monad. fold (completion_request self msgs). rewrite Hanswer. simpl.
    rewrite Hnone. reflexivity.
Qed.

(** A raising moderation endpoint: [check_moderation] logs and reports no
    flag. *)
Lemma check_moderation_raise (E : Externals) (text : string) (w : World E)
  (e : exception) (x : Ext E) :
  moderations E text (ext w) = (Raise e, x) ->
  check_moderation E text w
  = (Ok not_flagged,
     log_error ("Moderation check failed: " ++ exc_msg e)%string
       (set_ext E x w)).
Proof.
  intros Hfail.
  unfold check_moderation, client_moderations_create, logger. run_monad.
  rewrite Hfail. simpl. rewrite isinstance_Exception. reflexivity.
Qed.

(** With the moderation endpoint down the loop runs to its end. *)
Lemma moderation_loop_down (E : Externals) (msgs : list ChatMessage) :
  (forall text x, exists e x', moderations E text x = (Raise e, x')) ->
  forall w : World E,
  exists w1, moderation_loop E msgs w = (Ok None, w1) /\ db w1 = db w.
Proof.
  intros Hdown. induction msgs as [|message rest IH]; intros w; simpl.
  - exists w. split; reflexivity.
  - destruct (String.eqb (msg_role message) "user"); [|apply IH].
    destruct (Hdown (msg_content message) (ext w)) as (e & x & Hfail).
    unfold bind at 1. rewrite (check_moderation_raise E _ _ _ _ Hfail).
    set (w' := log_error _ _). simpl.
    destruct (IH w') as (w1 & -> & Hdb).
    exists w1. split; [reflexivity | exact Hdb].
Qed.

(** With the moderation endpoint down and a completion endpoint whose first
    choice is the text [s], the generation is [s]. *)
Lemma generate_chat_completion_down_answers (E : Externals)
  (self : OpenAIService) (s : string) :
  (forall text x, exists e x', moderations E text x = (Raise e, x')) ->
  (forall rq x, exists rest x',
     completions E rq x
     = (Ok {| choices := {| message_content := Some s |} :: rest |}, x')) ->
  forall (msgs : list ChatMessage) (w : World E),
  exists w', generate_chat_completion E self msgs w = (Ok (Some s), w').
Proof.
  intros Hdown Hanswers msgs w.
  rewrite generate_chat_completion_run.
  destruct (moderation_loop_down E msgs Hdown w) as (w1 & -> & _).
  unfold try_except, call_backend, client_chat_completions_create, index0.
  run_monad.
  destruct (Hanswers (completion_request self msgs) (ext w1))
    as (rest & x' & Hans).
  fold (completion_request self msgs). rewrite Hans. simpl. eauto.
Qed.

(** ** The title *)

Lemma update_title_from_first_message_run (E : Externals) (cv : Conversation)
  (w : World E) :
  update_title_from_first_message E (cv, w) =
    match first (active_user_messages cv (db w)) with
    | Some first_message =>
        if String.eqb (title cv) default_title then
          let (t, x) := clock E (ext w) in
          let cv' :=
            set_updated_at t (set_title (title_from (content first_message)) cv) in
          (Ok tt,
           (cv', mk_World E
                   (set_conversations
                      (save_conversation_row cv' (conversations (db w))) (db w))
                   x (log w)))
        else (Ok tt, (cv, w))
    | None => (Ok tt, (cv, w))
    end.
Proof.
  unfold update_title_from_first_message, Conversation_save. run_monad.
  destruct (first _) as [fm|]; [|reflexivity].
  destruct (String.eqb (title cv) default_title); [|reflexivity].
  simpl. destruct (clock E (ext w)) as [t x]. reflexivity.
Qed.

Lemma substring_0_short (n : nat) (s : string) :
  (String.length s <= n)%nat -> substring 0 n s = s.
Proof.
  revert n. induction s as [|c s IH]; intros n H.
  - destruct n; reflexivity.
  - destruct n; simpl in *; [lia|]. rewrite IH; [reflexivity | lia].
Qed.

Lemma substring_0_length (n : nat) (s : string) :
  (n <= String.length s)%nat -> String.length (substring 0 n s) = n.
Proof.
  revert n. induction s as [|c s IH]; intros n H.
  - destruct n; simpl in *; [reflexivity | lia].
  - destruct n; simpl in *; [reflexivity|]. rewrite IH; [reflexivity | lia].
Qed.

Lemma string_length_append (a b : string) :
  String.length (a ++ b)%string = (String.length a + String.length b)%nat.
Proof. induction a as [|c a IH]; simpl; [reflexivity | now rewrite IH]. Qed.

Lemma title_from_short (c : string) :
  (String.length c <= 50)%nat -> title_from c = c.
Proof.
  intros H. unfold title_from, PyStr.slice_to, PyStr.len.
  destruct (Z.ltb_spec 50 (Z.of_nat (String.length c))); [lia|].
  now apply substring_0_short.
Qed.

Lemma title_from_long (c : string) :
  (50 < String.length c)%nat ->
  title_from c = (substring 0 50 c ++ "...")%string
  /\ String.length (title_from c) = 53%nat.
Proof.
  intros H. unfold title_from, PyStr.slice_to, PyStr.len.
  destruct (Z.ltb_spec 50 (Z.of_nat (String.length c))); [|lia].
  split; [reflexivity|].
  rewrite string_length_append, substring_0_length; [reflexivity | lia].
Qed.

Lemma in_save_conversation_row (c y : Conversation) (rows : list Conversation) :
  In y (save_conversation_row c rows) -> conv_id y = conv_id c -> y = c.
Proof.
  unfold save_conversation_row. intros Hin Hid.
  destruct (existsb _ rows) eqn:Hex.
  - apply in_map_iff in Hin as (x & Hx & _).
    destruct (Z.eqb_spec (conv_id c) (conv_id x)); congruence.
  - apply in_app_or in Hin as [Hin|[<-|[]]]; [|reflexivity].
    exfalso. assert (Ht : existsb (fun x => conv_id c =? conv_id x) rows = true).
    { apply existsb_exists. exists y. split; [exact Hin|]. now apply Z.eqb_eq. }
    congruence.
Qed.

Lemma existsb_save_conversation_row (c c' : Conversation)
  (rows : list Conversation) :
  conv_id c' = conv_id c ->
  existsb (fun x => conv_id c' =? conv_id x) (save_conversation_row c rows) = true.
Proof.
  intros Hid. apply existsb_exists. exists c. split; [|now apply Z.eqb_eq].
  pose proof (find_save_conversation_row c rows) as H.
  now apply find_some in H as [H _].
Qed.

Lemma save_conversation_row_titles (c c' : Conversation)
  (rows : list Conversation) :
  conv_id c' = conv_id c -> title c' = title c ->
  map title (save_conversation_row c' (save_conversation_row c rows))
  = map title (save_conversation_row c rows).
Proof.
  intros Hid Ht.
  unfold save_conversation_row at 1.
  rewrite (existsb_save_conversation_row c c' rows Hid), map_map.
  apply map_ext_in. intros y Hy.
  destruct (Z.eqb_spec (conv_id c') (conv_id y)) as [Heq|]; [|reflexivity].
  rewrite (in_save_conversation_row c y rows Hy); congruence.
Qed.

(** The query of [update_title_from_first_message] returns the messages of
    the conversation that have role user and are not superseded, and its
    first row is one created no later than any other of them. *)
Lemma in_active_user_messages (cv : Conversation) (d : Database)
  (x : Message) :
  In x (active_user_messages cv d)
  <-> In x (messages d) /\ conversation x = conv_id cv
      /\ role x = "user" /\ superseded x = false.
Proof.
  unfold active_user_messages, related_messages.
  rewrite in_order_by_created_at, !filter_In, andb_true_iff, String.eqb_eq,
    negb_true_iff, Z.eqb_eq.
  tauto.
Qed.

Lemma first_order_by_created_at (l : list Message) (f : Message) :
  first (order_by_created_at l) = Some f ->
  In f l /\ forall x, In x l -> created_at f <= created_at x.
Proof.
  revert f. induction l as [|a l IH]; intros f; simpl; [discriminate|].
  destruct (order_by_created_at l) as [|x s] eqn:Hs; simpl.
  - intros [= <-].
    assert (Hl : l = []).
    { apply Permutation_nil. rewrite <- Hs.
      apply order_by_created_at_perm. }
    subst l. split; [now left|]. intros y [<-|[]]. lia.
  - destruct (IH x eq_refl) as [Hx Hmin].
    destruct (Z.leb_spec (created_at a) (created_at x)); intros [= <-].
    + split; [now left|]. intros y [<-|Hy]; [lia|].
      specialize (Hmin y Hy). lia.
    + split; [now right|]. intros y [<-|Hy]; [lia|now apply Hmin].
Qed.

(** C8. [update_title_from_first_message] returns normally. It is a no-op,
    on the instance and on the world, when the title is not the default
    placeholder or when the conversation has no message that has role user
    and is not superseded. From the placeholder, with such a message, it
    sets the title to the text derived from one of them created no later
    than the others, stamps [updated_at] and stores the row; so the title
    changes only in this case. A second call in succession changes no
    title, neither on the instance nor in the table, and no message. It is
    a no-op altogether whenever the title after the first call is not the
    placeholder; when the derived title is itself the placeholder text, the
    second call saves the conversation again, with the next reading of the
    clock as [updated_at]. *)
Theorem update_title_from_first_message_idempotent (E : Externals)
  (cv : Conversation) (w : World E) :
  let active_user := fun m =>
    In m (messages (db w)) /\ conversation m = conv_id cv
    /\ role m = "user" /\ superseded m = false in
  let r1 := update_title_from_first_message E (cv, w) in
  let s1 := snd r1 in
  let r2 := update_title_from_first_message E s1 in
  let s2 := snd r2 in
  fst r1 = Ok tt
  /\ fst r2 = Ok tt
  /\ (title cv <> default_title \/ (forall m, ~ active_user m) ->
      r1 = (Ok tt, (cv, w)))
  /\ (title cv = default_title -> (exists m, active_user m) ->
      exists first_message,
        active_user first_message
        /\ (forall m, active_user m ->
              created_at first_message <= created_at m)
        /\ fst s1
           = set_updated_at (fst (clock E (ext w)))
               (set_title (title_from (content first_message)) cv)
        /\ In (fst s1) (conversations (db (snd s1)))
        /\ messages (db (snd s1)) = messages (db w))
  /\ (title (fst s1) <> title cv ->
      title cv = default_title
      /\ exists first_message,
           active_user first_message
           /\ (forall m, active_user m ->
                 created_at first_message <= created_at m)
           /\ title (fst s1) = title_from (content first_message))
  /\ title (fst s2) = title (fst s1)
  /\ map title (conversations (db (snd s2)))
     = map title (conversations (db (snd s1)))
  /\ messages (db (snd s2)) = messages (db (snd s1))
  /\ (title (fst s1) <> default_title -> r2 = (Ok tt, s1))
  /\ (title (fst s1) = default_title -> (exists m, active_user m) ->
      let again :=
        set_updated_at (fst (clock E (ext (snd s1)))) (fst s1) in
      fst s2 = again
      /\ conversations (db (snd s2))
         = save_conversation_row again (conversations (db (snd s1)))
      /\ ext (snd s2) = snd (clock E (ext (snd s1)))).
Proof.
  intros active_user r1 s1 r2 s2.
  assert (Hquery : forall x,
            In x (active_user_messages cv (db w)) <-> active_user x)
    by (intros x; apply in_active_user_messages).
  unfold s2, r2, s1, r1.
  rewrite (update_title_from_first_message_run E cv w).
  destruct (first (active_user_messages cv (db w))) as [fm|] eqn:Hfirst.
  - assert (Hfm : active_user fm
                  /\ forall m, active_user m ->
                       created_at fm <= created_at m).
    { pose proof Hfirst as H. unfold active_user_messages in H.
      apply first_order_by_created_at in H as [Hin Hmin]. split.
      - apply Hquery. unfold active_user_messages.
        exact (proj2 (in_order_by_created_at _ _) Hin).
      - intros m Hm. apply Hmin. apply Hquery in Hm.
        unfold active_user_messages in Hm.
        exact (proj1 (in_order_by_created_at _ _) Hm). }
    destruct (String.eqb_spec (title cv) default_title) as [Hdef|Hcustom].
    + destruct (clock E (ext w)) as [t x]. cbv zeta. cbn [fst snd].
      set (cv' := set_updated_at t (set_title (title_from (content fm)) cv)).
      set (w' := mk_World E _ x (log w)).
      assert (Hsame : first (active_user_messages cv' (db w')) = Some fm)
        by exact Hfirst.
      rewrite (update_title_from_first_message_run E cv' w'), Hsame.
      split; [reflexivity|].
      split.
      { destruct (String.eqb (title cv') default_title); [|reflexivity].
        destruct (clock E (ext w')). reflexivity. }
      split.
      { intros [H|H]; [contradiction|]. now elim (H fm). }
      split.
      { intros _ _. exists fm. destruct Hfm as [Hactive Hmin].
        split; [exact Hactive|]. split; [exact Hmin|].
        split; [reflexivity|]. split; [|reflexivity].
        unfold w'. cbn [db conversations set_conversations].
        exact (proj1 (find_some _ _ (find_save_conversation_row cv' _))). }
      split.
      { intros _. split; [exact Hdef|]. exists fm.
        destruct Hfm as [Hactive Hmin].
        split; [exact Hactive|]. split; [exact Hmin|reflexivity]. }
      split.
      { destruct (String.eqb (title cv') default_title); [|reflexivity].
        destruct (clock E (ext w')). reflexivity. }
      split.
      { destruct (String.eqb (title cv') default_title); [|reflexivity].
        destruct (clock E (ext w')) as [t2 x2].
        unfold w'. cbn [fst snd db conversations set_conversations].
        apply save_conversation_row_titles; reflexivity. }
      split.
      { destruct (String.eqb (title cv') default_title); [|reflexivity].
        destruct (clock E (ext w')). reflexivity. }
      split.
      { intros Hne. apply String.eqb_neq in Hne. now rewrite Hne. }
      intros Heq _. apply String.eqb_eq in Heq. rewrite Heq.
      destruct (clock E (ext w')) as [t2 x2]. cbv zeta.
      repeat split.
    + cbn [fst snd].
      rewrite (update_title_from_first_message_run E cv w), Hfirst.
      pose proof Hcustom as Hneq. apply String.eqb_neq in Hneq. rewrite Hneq.
      cbn [fst snd].
      split; [reflexivity|]. split; [reflexivity|]. split; [reflexivity|].
      split; [intros Heq; now elim Hcustom|].
      split; [intros H; now elim H|].
      split; [reflexivity|]. split; [reflexivity|]. split; [reflexivity|].
      split; [reflexivity|].
      intros Heq. now elim Hcustom.
  - assert (Hnone : forall m, ~ active_user m).
    { intros m Hm. apply Hquery in Hm.
      destruct (active_user_messages cv (db w)); [exact Hm|discriminate]. }
    cbn [fst snd].
    rewrite (update_title_from_first_message_run E cv w), Hfirst.
    cbn [fst snd].
    split; [reflexivity|]. split; [reflexivity|]. split; [reflexivity|].
    split; [intros _ [m Hm]; now elim (Hnone m)|].
    split; [intros H; now elim H|].
    split; [reflexivity|]. split; [reflexivity|]. split; [reflexivity|].
    split; [reflexivity|].
    intros _ [m Hm]. now elim (Hnone m).
Qed.

(** ** Creating messages *)

Lemma Message_objects_create_run (E : Externals) (conv : Conversation)
  (r c : string) (parent : option Message) (w : World E) :
  Message_objects_create E conv r c parent w =
    let (t, x) := clock E (ext w) in
    let m := created_message (next_message_id (db w)) conv r c t parent in
    (Ok m,
     mk_World E
       {| conversations := conversations (db w);
          messages := messages (db w) ++ [m];
          next_conversation_id := next_conversation_id (db w);
          next_message_id := next_message_id (db w) + 1 |}
       x (log w)).
Proof.
  unfold Message_objects_create. run_monad.
  destruct (clock E (ext w)) as [t x]. reflexivity.
Qed.

Lemma order_by_created_at_nil (l : list Message) :
  order_by_created_at l = [] -> l = [].
Proof.
  intros H. pose proof (order_by_created_at_perm l) as Hp. rewrite H in Hp.
  now apply Permutation_nil in Hp.
Qed.

(** C7, as amended. The message of the scenario has 71 characters. In a
    conversation with the default title and no active user message yet,
    after this message is appended [update_title_from_first_message] sets
    the title to its first 50 characters followed by ['...']: 53 characters
    in all. In general, with the default title, a first active user message
    of at most 50 characters becomes the title unchanged, and a longer one
    is cut to 50 characters plus ['...']; the title is saved. *)
Theorem update_title_from_first_message_truncates (E : Externals) :
  String.length long_message = 71%nat
  /\ (forall (w : World E) (cv : Conversation),
        title cv = default_title ->
        active_user_messages cv (db w) = [] ->
        let w1 := snd (Message_objects_create E cv "user" long_message None w) in
        let s := snd (update_title_from_first_message E (cv, w1)) in
        title (fst s) = "This is a very long message that should be truncat..."
        /\ title (fst s) = (substring 0 50 long_message ++ "...")%string
        /\ String.length (title (fst s)) = 53%nat
        /\ find (fun c => conv_id c =? conv_id cv) (conversations (db (snd s)))
           = Some (fst s))
  /\ (forall (w : World E) (cv : Conversation) (first_message : Message),
        title cv = default_title ->
        first (active_user_messages cv (db w)) = Some first_message ->
        let s := snd (update_title_from_first_message E (cv, w)) in
        ((String.length (content first_message) <= 50)%nat ->
         title (fst s) = content first_message)
        /\ ((50 < String.length (content first_message))%nat ->
            title (fst s)
            = (substring 0 50 (content first_message) ++ "...")%string
            /\ String.length (title (fst s)) = 53%nat)
        /\ find (fun c => conv_id c =? conv_id cv) (conversations (db (snd s)))
           = Some (fst s)).
Proof.
  assert (Hgen : forall (w : World E) (cv : Conversation) (fm : Message),
            title cv = default_title ->
            first (active_user_messages cv (db w)) = Some fm ->
            let s := snd (update_title_from_first_message E (cv, w)) in
            title (fst s) = title_from (content fm)
            /\ find (fun c => conv_id c =? conv_id cv)
                 (conversations (db (snd s))) = Some (fst s)).
  { intros w cv fm Hdef Hfirst s. unfold s.
    rewrite (update_title_from_first_message_run E cv w), Hfirst, Hdef.
    change (String.eqb default_title default_title) with true. cbv iota.
    destruct (clock E (ext w)) as [t x]. cbv zeta. cbn [fst snd].
    split; [reflexivity|].
    cbn [db conversations set_conversations].
    apply (find_save_conversation_row
             (set_updated_at t (set_title (title_from (content fm)) cv))). }
  split; [reflexivity|]. split.
  - intros w cv Hdef Hnone w1 s.
    assert (Hfirst : first (active_user_messages cv (db w1))
                     = Some (created_message (next_message_id (db w)) cv "user"
                               long_message (fst (clock E (ext w))) None)).
    { unfold w1. rewrite Message_objects_create_run.
      destruct (clock E (ext w)) as [t x]. cbv zeta. cbn [fst snd db].
      unfold active_user_messages, related_messages in *.
      cbn [messages]. rewrite !filter_app.
      apply order_by_created_at_nil in Hnone. rewrite Hnone.
      cbn [filter created_message conversation role superseded app].
      rewrite Z.eqb_refl. reflexivity. }
    destruct (Hgen w1 cv _ Hdef Hfirst) as [Ht Hrow]. fold s in Ht, Hrow.
    rewrite Ht. repeat split; try reflexivity. exact Hrow.
  - intros w cv fm Hdef Hfirst s.
    destruct (Hgen w cv fm Hdef Hfirst) as [Ht Hrow]. fold s in Ht, Hrow.
    rewrite Ht. split; [|split].
    + apply title_from_short.
    + apply title_from_long.
    + exact Hrow.
Qed.

(** ** [send_message] *)

Lemma update_title_from_first_message_messages (E : Externals)
  (cv : Conversation) (w : World E) :
  exists cv' w',
    update_title_from_first_message E (cv, w) = (Ok tt, (cv', w'))
    /\ messages (db w') = messages (db w)
    /\ next_message_id (db w') = next_message_id (db w)
    /\ conv_id cv' = conv_id cv.
Proof.
  rewrite update_title_from_first_message_run.
  destruct (first _) as [fm|]; [|eauto 7].
  destruct (String.eqb (title cv) default_title); [|eauto 7].
  destruct (clock E (ext w)) as [t x]. cbv zeta. eauto 7.
Qed.

Lemma send_message_appends (E : Externals) (settings : Settings)
  (request : Request string) (conversation_id : Z) (w : World E) :
  exists new,
    messages (db (snd (send_message E settings request conversation_id w)))
    = messages (db w) ++ new
    /\ Forall view_created new.
Proof.
  assert (Hnil : forall w' : World E, messages (db w') = messages (db w) ->
            exists new, messages (db w') = messages (db w) ++ new
                        /\ Forall view_created new).
  { intros w' H. exists []. rewrite app_nil_r. auto. }
  unfold send_message. unfold bind at 1. unfold get at 1.
  unfold bind at 1.
  destruct (get_object_or_404 E _ _ w) as [[conv|e] w0] eqn:Hconv.
  2:{ unfold get_object_or_404 in Hconv.
      destruct (filter _ _) as [|c [|c' l]]; inversion Hconv; subst; now apply Hnil. }
  assert (w0 = w) as ->.
  { unfold get_object_or_404 in Hconv.
    destruct (filter _ _) as [|c [|c' l]]; inversion Hconv; reflexivity. }
  unfold try_except, bind at 1.
  destruct (request_body_ request) as [|data]; simpl.
  { now apply Hnil. }
  unfold ret at 1.
  destruct (PyStr.truthy (PyStr.strip (text_of data))) eqn:Hcontent; simpl.
  2:{ now apply Hnil. }
  destruct (PyStr.truthy (OPENAI_API_KEY settings)); simpl.
  2:{ now apply Hnil. }
  unfold atomic, bind at 1.
  rewrite Message_objects_create_run.
  destruct (clock E (ext w)) as [t x]. cbv zeta.
  set (um := created_message _ conv "user" _ t None).
  set (w1 := mk_World E _ x (log w)).
  unfold bind at 1, call_on.
  destruct (update_title_from_first_message_messages E conv w1)
    as (cv' & w2 & -> & Hm2 & Hn2 & Hid).
  cbn [snd]. unfold bind at 1, get at 1. unfold bind at 1.
  destruct (generate_chat_completion_returns E (openai_service settings)
              (map to_openai_format
                 (get_recent_messages_for_api cv'
                    (MESSAGE_HISTORY_LIMIT settings) (db w2))) w2)
    as (ai & w3 & -> & Hdb3).
  destruct (truthy_opt ai).
  - unfold bind at 1. rewrite Message_objects_create_run.
    destruct (clock E (ext w3)) as [t3 x3]. cbv zeta. simpl.
    rewrite Hdb3, Hm2. unfold w1. simpl.
    eexists [um; _]. rewrite <- app_assoc. split; [reflexivity|].
    repeat (apply Forall_cons || apply Forall_nil);
      unfold view_created; simpl; auto.
  - simpl. rewrite Hdb3, Hm2. unfold w1. simpl.
    exists [um]. split; [reflexivity|].
    repeat (apply Forall_cons || apply Forall_nil);
      unfold view_created; simpl; auto.
Qed.

(** [send_message] on a request it accepts, up to the generation: the user
    message is stored, and a generation that is not empty is stored as its
    answer and reported with status 200. *)
Lemma send_message_answers (E : Externals) (settings : Settings)
  (request : Request string) (conversation_id : Z) (w : World E)
  (conv : Conversation) (data : option string) :
  filter (fun c => (conv_id c =? conversation_id)
                   && (user c =? request_user request))
         (conversations (db w)) = [conv] ->
  request_body_ request = JsonObject data ->
  PyStr.truthy (PyStr.strip (text_of data)) = true ->
  PyStr.truthy (OPENAI_API_KEY settings) = true ->
  exists um cv' w2,
    role um = "user"
    /\ content um = PyStr.strip (text_of data)
    /\ messages (db w2) = messages (db w) ++ [um]
    /\ forall ai w3,
         generate_chat_completion E (openai_service settings)
           (map to_openai_format
              (get_recent_messages_for_api cv'
                 (MESSAGE_HISTORY_LIMIT settings) (db w2))) w2
         = (Ok ai, w3) ->
         truthy_opt ai = true ->
         exists am w',
           send_message E settings request conversation_id w
           = (Ok (mk_JsonResponse (SentData um am) 200), w')
           /\ role am = "assistant"
           /\ content am = text_of ai
           /\ parent_user_message am = Some (id um)
           /\ messages (db w') = messages (db w) ++ [um; am].
Proof.
  intros Hconv Hbody Hcontent Hkey.
  unfold send_message. unfold bind at 1, get at 1. unfold bind at 1.
  rewrite Hconv. unfold get_object_or_404 at 1, ret at 1.
  unfold try_except, bind at 1. rewrite Hbody. simpl.
  rewrite Hcontent, Hkey. simpl.
  unfold atomic, bind at 1.
  rewrite Message_objects_create_run.
  destruct (clock E (ext w)) as [t x]. cbv zeta.
  set (um := created_message _ conv "user" _ t None).
  set (w1 := mk_World E _ x (log w)).
  unfold bind at 1, call_on.
  destruct (update_title_from_first_message_messages E conv w1)
    as (cv' & w2 & -> & Hm2 & Hn2 & Hid).
  cbn [snd]. unfold bind at 1, get at 1. unfold bind at 1.
  exists um, cv', w2.
  split; [reflexivity|]. split; [reflexivity|]. split; [exact Hm2|].
  intros ai w3 Hgen Hai. rewrite Hgen, Hai.
  assert (Hdb3 : db w3 = db w2).
  { destruct (generate_chat_completion_returns E (openai_service settings)
                (map to_openai_format
                   (get_recent_messages_for_api cv'
                      (MESSAGE_HISTORY_LIMIT settings) (db w2))) w2)
      as (ai' & w3' & Hgen' & Hdb'). congruence. }
  unfold bind at 1. rewrite Message_objects_create_run.
  destruct (clock E (ext w3)) as [t3 x3]. cbv zeta. simpl.
  eexists _, _. split; [reflexivity|]. simpl.
  rewrite Hdb3, Hm2. unfold w1. simpl. rewrite <- app_assoc.
  repeat split.
Qed.

(** C9. When the moderation endpoint raises, [check_moderation] logs the
    error and returns [flagged = False] with no categories; no exception
    leaves it. With the endpoint down for every text, the loop of
    [generate_chat_completion] ends without a flag, so the generation is
    what the completion call and its handlers make of the whole history,
    and it returns. [send_message] then goes on as if nothing had been
    checked: with a completion endpoint that answers [s], a request with
    content is answered with status 200, the user message stored and [s]
    stored as the reply to it. *)
Theorem check_moderation_fails_open (E : Externals) (settings : Settings) :
  (forall text : string, forall (w : World E) e x,
     moderations E text (ext w) = (Raise e, x) ->
     check_moderation E text w
     = (Ok not_flagged,
        log_error ("Moderation check failed: " ++ exc_msg e)%string
          (set_ext E x w)))
  /\ (forall (self : OpenAIService) (msgs : list ChatMessage) (w : World E),
        (forall text x, exists e x', moderations E text x = (Raise e, x')) ->
        exists w1,
          moderation_loop E msgs w = (Ok None, w1)
          /\ db w1 = db w
          /\ generate_chat_completion E self msgs w
             = try_except (call_backend E self msgs) (completion_handlers E) w1
          /\ exists r w2,
               generate_chat_completion E self msgs w = (Ok r, w2))
  /\ (forall (request : Request string) (conversation_id : Z) (w : World E)
             (conv : Conversation) (data : option string) (s : string),
        (forall text x, exists e x', moderations E text x = (Raise e, x')) ->
        (forall rq x, exists rest x',
           completions E rq x
           = (Ok {| choices := {| message_content := Some s |} :: rest |}, x')) ->
        PyStr.truthy s = true ->
        filter (fun c => (conv_id c =? conversation_id)
                         && (user c =? request_user request))
               (conversations (db w)) = [conv] ->
        request_body_ request = JsonObject data ->
        PyStr.truthy (PyStr.strip (text_of data)) = true ->
        PyStr.truthy (OPENAI_API_KEY settings) = true ->
        exists um am w',
          send_message E settings request conversation_id w
          = (Ok (mk_JsonResponse (SentData um am) 200), w')
          /\ role um = "user"
          /\ content um = PyStr.strip (text_of data)
          /\ role am = "assistant"
          /\ content am = s
          /\ parent_user_message am = Some (id um)
          /\ messages (db w') = messages (db w) ++ [um; am]).
Proof.
  split; [|split].
  - intros text w e x. apply check_moderation_raise.
  - intros self msgs w Hdown.
    destruct (moderation_loop_down E msgs Hdown w) as (w1 & Hw1 & Hdb).
    exists w1. repeat split; auto.
    + rewrite generate_chat_completion_run, Hw1. reflexivity.
    + destruct (generate_chat_completion_returns E self msgs w)
        as (r & w2 & H & _).
      eauto.
  - intros request conversation_id w conv data s Hdown Hanswers Hs Hconv Hbody
      Hcontent Hkey.
    destruct (send_message_answers E settings request conversation_id w conv
                data Hconv Hbody Hcontent Hkey)
      as (um & cv' & w2 & Hrole & Hum & _ & Hrest).
    destruct (generate_chat_completion_down_answers E (openai_service settings)
                s Hdown Hanswers
                (map to_openai_format
                   (get_recent_messages_for_api cv'
                      (MESSAGE_HISTORY_LIMIT settings) (db w2))) w2)
      as (w3 & Hgen).
    destruct (Hrest (Some s) w3 Hgen Hs) as (am & w' & Hrun & Ham).
    exists um, am, w'. tauto.
Qed.

(** ** [regenerate_reply] *)

Lemma list_index_state {St} (m : Message) (l : list Message) (s : St) :
  snd (list_index m l s) = s.
Proof.
  induction l as [|y l IH]; simpl; [reflexivity|].
  destruct (message_eq m y); [reflexivity|].
  unfold bind. specialize IH.
  destruct (list_index m l s) as [[i|e] s']; simpl in *; exact IH.
Qed.

(** Reading the history changes nothing. *)
Lemma get_conversation_history_for_api_state (E : Externals) (m : Message)
  (w : World E) :
  snd (get_conversation_history_for_api E (m, w)) = (m, w).
Proof.
  unfold get_conversation_history_for_api, get_conversation. run_monad.
  destruct (find _ _) as [cv|]; simpl; [|reflexivity].
  pose proof (list_index_state m (get_active_messages cv (db w)) (m, w)) as Hs.
  destruct (list_index m _ (m, w)) as [[i|e] s]; simpl in *; [exact Hs|].
  destruct (isinstance e ValueError); exact Hs.
Qed.

Lemma supersede_with_new_reply_run (E : Externals) (new_reply m : Message)
  (w : World E) :
  supersede_with_new_reply E new_reply (m, w) =
    if String.eqb (role m) "assistant" then
      (Ok tt,
       (superseded_by new_reply m,
        set_db E (set_messages
                    (save_message_row (superseded_by new_reply m)
                       (messages (db w))) (db w)) w))
    else
      (Raise (mk_exception ValueError "Only assistant messages can be superseded"),
       (m, w)).
Proof.
  unfold supersede_with_new_reply, Message_save. run_monad.
  destruct (String.eqb (role m) "assistant"); reflexivity.
Qed.

Lemma get_object_or_404_ok (E : Externals) (name : string) {A} (l : list A)
  (a : A) (w w' : World E) :
  get_object_or_404 E name l w = (Ok a, w') -> l = [a] /\ w' = w.
Proof.
  unfold get_object_or_404, ret, raise.
  destruct l as [|x [|y l]]; intros H; inversion H; auto.
Qed.

Lemma get_object_or_404_state (E : Externals) (name : string) {A}
  (l : list A) (w : World E) :
  snd (get_object_or_404 E name l w) = w.
Proof. unfold get_object_or_404. destruct l as [|x [|y l]]; reflexivity. Qed.

Lemma regenerate_reply_success (E : Externals) (settings : Settings)
  (request : Request Z) (conversation_id : Z) (w w' : World E)
  (resp : JsonResponse) :
  regenerate_reply E settings request conversation_id w = (Ok resp, w') ->
  status resp = 200 ->
  exists conv k um history ai w1 t x,
    filter (fun c => (conv_id c =? conversation_id)
                     && (user c =? request_user request))
           (conversations (db w)) = [conv]
    /\ request_body_ request = JsonObject (Some k)
    /\ k <> 0
    /\ filter (fun m => (id m =? k) && (conversation m =? conv_id conv)
                        && String.eqb (role m) "user")
              (messages (db w)) = [um]
    /\ PyStr.truthy (OPENAI_API_KEY settings) = true
    /\ get_conversation_history_for_api E (um, w) = (Ok history, (um, w))
    /\ generate_chat_completion E (openai_service settings)
         (map to_openai_format history) w = (Ok ai, w1)
    /\ db w1 = db w
    /\ truthy_opt ai = true
    /\ clock E (ext w1) = (t, x)
    /\ let new_reply :=
         created_message (next_message_id (db w)) conv "assistant"
           (text_of ai) t (Some um) in
       resp = mk_JsonResponse (RegeneratedData new_reply) 200
       /\ messages (db w') = regenerated_messages (db w) um new_reply
       /\ conversations (db w') = conversations (db w)
       /\ next_message_id (db w') = next_message_id (db w) + 1.
Proof.
  intros H Hstatus. unfold regenerate_reply in H.
  unfold bind at 1, get at 1 in H. unfold bind at 1 in H.
  destruct (get_object_or_404 E _ _ w) as [[conv|e] w0] eqn:Hconv;
    [|discriminate].
  apply get_object_or_404_ok in Hconv as [Hconv ->].
  unfold try_except, bind at 1 in H.
  destruct (request_body_ request) as [|data] eqn:Hbody; simpl in H;
    [wrong_status H|].
  destruct data as [k|]; simpl in H; [|wrong_status H].
  destruct (Z.eqb_spec k 0) as [|Hk]; simpl in H; [wrong_status H|].
  unfold bind at 1, get at 1 in H. unfold bind at 1 in H.
  destruct (get_object_or_404 E _ _ w) as [[um|e] w0] eqn:Hum.
  2:{ revert H. unfold logger. run_monad.
      destruct (isinstance e JSONDecodeError); intros H; [wrong_status H|].
      rewrite isinstance_Exception in H. wrong_status H. }
  apply get_object_or_404_ok in Hum as [Hum ->].
  destruct (PyStr.truthy (OPENAI_API_KEY settings)) eqn:Hkey; simpl in H;
    [|wrong_status H].
  unfold atomic in H. unfold bind at 1, get at 1 in H.
  unfold bind at 1 in H. unfold call_on at 1 in H.
  pose proof (get_conversation_history_for_api_state E um w) as Hhs.
  destruct (get_conversation_history_for_api E (um, w))
    as [[history|e] [um' w0]] eqn:Hhist; simpl in Hhs.
  2:{ inversion Hhs; subst. revert H. unfold logger. run_monad.
      destruct (isinstance e JSONDecodeError); intros H; [wrong_status H|].
      rewrite isinstance_Exception in H. wrong_status H. }
  inversion Hhs; subst um' w0. cbn [fst] in H.
  unfold bind at 1 in H.
  destruct (generate_chat_completion_returns E (openai_service settings)
              (map to_openai_format history) w) as (ai & w1 & Hgen & Hdb1).
  rewrite Hgen in H.
  destruct (truthy_opt ai) eqn:Hai; [|wrong_status H].
  unfold bind at 1 in H. rewrite Message_objects_create_run in H.
  destruct (clock E (ext w1)) as [t x] eqn:Hclock. cbv zeta in H.
  rewrite Hdb1 in H.
  set (new_reply := created_message (next_message_id (db w)) conv "assistant"
                      (text_of ai) t (Some um)) in *.
  exists conv, k, um, history, ai, w1, t, x.
  do 10 (split; [assumption || reflexivity|]).
  cbv zeta. fold new_reply. unfold regenerated_messages.
  unfold bind at 1 in H.
  destruct (first (active_replies_to um (db w))) as [reply|].
  - unfold bind at 1, call_on in H.
    rewrite supersede_with_new_reply_run in H.
    destruct (String.eqb (role reply) "assistant").
    + simpl in H. inversion H; subst. simpl. auto.
    + revert H. unfold logger. run_monad. intros H. wrong_status H.
  - simpl in H. inversion H; subst. simpl. auto.
Qed.

(** The converse: with the conversation and the user message found, the key
    configured and a completion that is not empty, [regenerate_reply]
    answers with status 200. *)
Lemma regenerate_reply_succeeds (E : Externals) (settings : Settings)
  (request : Request Z) (conversation_id : Z) (w w1 : World E)
  (conv : Conversation) (m : Message) (history : list Message)
  (ai : option string) :
  filter (fun c => (conv_id c =? conversation_id)
                   && (user c =? request_user request))
         (conversations (db w)) = [conv] ->
  request_body_ request = JsonObject (Some (id m)) ->
  id m <> 0 ->
  filter (fun x => (id x =? id m) && (conversation x =? conv_id conv)
                   && String.eqb (role x) "user")
         (messages (db w)) = [m] ->
  PyStr.truthy (OPENAI_API_KEY settings) = true ->
  fst (get_conversation_history_for_api E (m, w)) = Ok history ->
  generate_chat_completion E (openai_service settings)
    (map to_openai_format history) w = (Ok ai, w1) ->
  truthy_opt ai = true ->
  exists resp w',
    regenerate_reply E settings request conversation_id w = (Ok resp, w')
    /\ status resp = 200.
Proof.
  intros Hconv Hbody Hid Hm Hkey Hhist Hgen Hai.
  unfold regenerate_reply.
  unfold bind at 1, get at 1. unfold bind at 1. rewrite Hconv.
  unfold get_object_or_404 at 1, ret at 1.
  unfold try_except, bind at 1. rewrite Hbody. simpl.
  apply Z.eqb_neq in Hid. rewrite Hid. simpl.
  unfold bind at 1, get at 1. unfold bind at 1. rewrite Hm.
  unfold get_object_or_404 at 1, ret at 1. rewrite Hkey. simpl.
  unfold atomic. unfold bind at 1, get at 1. unfold bind at 1, call_on at 1.
  pose proof (get_conversation_history_for_api_state E m w) as Hstate.
  destruct (get_conversation_history_for_api E (m, w)) as [res [m' w0]].
  simpl in Hhist, Hstate. injection Hstate as -> ->. subst res. cbn [fst].
  unfold bind at 1. rewrite Hgen, Hai.
  unfold bind at 1. rewrite Message_objects_create_run.
  destruct (clock E (ext w1)) as [t x]. cbv zeta.
  unfold bind at 1.
  destruct (first (active_replies_to m (db w))) as [reply|] eqn:Hreply.
  - assert (Hrole : String.eqb (role reply) "assistant" = true).
    { unfold first in Hreply.
      assert (Hin : In reply (active_replies_to m (db w))).
      { destruct (active_replies_to m (db w)); [discriminate|].
        injection Hreply as ->. now left. }
      apply in_order_by_created_at, filter_In in Hin as [_ Hp].
      apply andb_prop in Hp as [Hp _]. now apply andb_prop in Hp as [_ Hp]. }
    unfold bind at 1, call_on. rewrite supersede_with_new_reply_run, Hrole.
    simpl. eexists _, _. split; reflexivity.
  - simpl. eexists _, _. split; reflexivity.
Qed.

Lemma filter_perm {A} (p : A -> bool) (l l' : list A) :
  Permutation l l' -> Permutation (filter p l) (filter p l').
Proof.
  induction 1 as [|x l l' _ IH|x y l|l l' l'' _ IH1 _ IH2]; simpl.
  - constructor.
  - destruct (p x); [now constructor | exact IH].
  - destruct (p x), (p y); try reflexivity. apply perm_swap.
  - now transitivity (filter p l').
Qed.

Lemma filter_nil {A} (p : A -> bool) (l : list A) :
  (forall x, In x l -> p x = false) -> filter p l = [].
Proof.
  induction l as [|x l IH]; simpl; intros H; [reflexivity|].
  rewrite (H x (or_introl eq_refl)). apply IH. intros y Hy. apply H. now right.
Qed.

Lemma order_by_created_at_singleton (l : list Message) (x : Message) :
  order_by_created_at l = [x] -> l = [x].
Proof.
  intros H. pose proof (order_by_created_at_perm l) as Hp. rewrite H in Hp.
  now apply Permutation_length_1_inv in Hp.
Qed.

(** Saving over a stored row: the rows with that primary key become the
    saved value, the others stay. *)
Lemma save_message_row_stored (m' : Message) (rows : list Message) :
  (exists m, In m rows /\ id m = id m') ->
  save_message_row m' rows
  = map (fun x => if message_eq m' x then m' else x) rows.
Proof.
  intros (m & Hin & Hid). unfold save_message_row.
  replace (existsb (message_eq m') rows) with true; [reflexivity|].
  symmetry. apply existsb_exists. exists m. split; [exact Hin|].
  unfold message_eq. apply Z.eqb_eq. congruence.
Qed.

Lemma in_saved_rows (m' y : Message) (rows : list Message) :
  In y (map (fun x => if message_eq m' x then m' else x) rows) ->
  y = m' \/ (In y rows /\ id y <> id m').
Proof.
  intros H. apply in_map_iff in H as (x & Hx & Hin).
  unfold message_eq in Hx.
  destruct (Z.eqb_spec (id m') (id x)); subst; auto.
Qed.

(** C1, as amended. Let the primary keys of the message table be distinct,
    and let [R] be the only reply to the stored user message [m] that is in
    force (assistant role, not superseded, [parent_user_message = m]). When
    [regenerate_reply] for [m] answers with status 200, it has created a new
    assistant message [N] in the conversation with [parent_user_message = m]
    and [superseded = False]; the row of [R] is [R] with [superseded = True]
    and [replaced_by = N]; and the active messages of the conversation hold
    exactly one assistant reply to [m], which is [N]: they hold nothing with
    the primary key of [R], and nothing that is superseded. *)
Theorem regenerate_reply_supersedes (E : Externals) (settings : Settings)
  (request : Request Z) (conversation_id : Z) (w w' : World E)
  (resp : JsonResponse) (m R : Message) :
  db_wf (db w) ->
  regenerate_reply E settings request conversation_id w = (Ok resp, w') ->
  status resp = 200 ->
  request_body_ request = JsonObject (Some (id m)) ->
  In m (messages (db w)) ->
  active_replies_to m (db w) = [R] ->
  exists N,
    data_ resp = RegeneratedData N
    /\ (forall x, In x (messages (db w)) -> id x <> id N)
    /\ In N (messages (db w'))
    /\ role N = "assistant"
    /\ parent_user_message N = Some (id m)
    /\ conversation N = conversation_id
    /\ superseded N = false
    /\ find (message_eq R) (messages (db w'))
       = Some (set_replaced_by (Some (id N)) (set_superseded true R))
    /\ active_replies_to m (db w') = [N]
    /\ forall cv,
         conv_id cv = conversation_id ->
         replies_to m (get_active_messages cv (db w')) = [N]
         /\ In N (get_active_messages cv (db w'))
         /\ forall x, In x (get_active_messages cv (db w')) ->
                      id x <> id R /\ superseded x = false.
Proof.
  intros [Hnodup Hfresh] Hrun Hstatus Hbody Hm HR.
  destruct (regenerate_reply_success E settings request conversation_id w w'
              resp Hrun Hstatus)
    as (conv & k & um & history & ai & w1 & t & x & Hconv & Hbody' & Hk & Hum
        & Hkey & Hhist & Hgen & Hdb1 & Hai & Hclock & Hresp & Hmsgs & Hconvs
        & Hnext).
  rewrite Hbody in Hbody'. injection Hbody' as <-.
  (* the conversation and the user message found are [conversation_id], [m] *)
  assert (Hcid : conv_id conv = conversation_id).
  { assert (Hin : In conv [conv]) by now left. rewrite <- Hconv in Hin.
    apply filter_In in Hin as [_ Hin]. apply andb_prop in Hin as [Hin _].
    now apply Z.eqb_eq. }
  assert (Hum' : um = m /\ conversation m = conv_id conv).
  { assert (Hin : In um [um]) by now left. rewrite <- Hum in Hin.
    apply filter_In in Hin as [Hin Hp].
    apply andb_prop in Hp as [Hp _]. apply andb_prop in Hp as [Hid Hc].
    apply Z.eqb_eq in Hid, Hc.
    assert (um = m) by (apply (NoDup_map_inj id (messages (db w))); auto).
    subst um. auto. }
  destruct Hum' as [-> Hmconv].
  set (N := created_message (next_message_id (db w)) conv "assistant"
              (text_of ai) t (Some m)) in *.
  set (R' := set_replaced_by (Some (id N)) (set_superseded true R)).
  assert (HRin : In R (messages (db w)) /\ is_active_reply_to m R = true).
  { apply order_by_created_at_singleton in HR.
    assert (Hin : In R [R]) by now left. rewrite <- HR in Hin.
    now apply filter_In in Hin. }
  destruct HRin as [HRin HRP].
  assert (HidN : forall y, In y (messages (db w)) -> id y <> id N).
  { intros y Hy. specialize (Hfresh y Hy). simpl. lia. }
  (* the message table afterwards *)
  assert (Htable : messages (db w')
                   = map (fun x => if message_eq R' x then R' else x)
                       (messages (db w)) ++ [N]).
  { rewrite Hmsgs. unfold regenerated_messages. rewrite HR. cbn [first hd_error].
    fold R'. unfold superseded_by. fold R'.
    rewrite save_message_row_stored.
    - rewrite map_app. cbn [map]. unfold message_eq at 2.
      destruct (Z.eqb_spec (id R') (id N)) as [Heq|]; [|reflexivity].
      exfalso. apply (HidN R HRin). exact Heq.
    - exists R. split; [apply in_or_app; now left | reflexivity]. }
  assert (Hold : forall y,
            In y (map (fun x => if message_eq R' x then R' else x)
                    (messages (db w))) ->
            is_active_reply_to m y = false /\ (superseded y = false -> id y <> id R)).
  { intros y Hy. apply in_saved_rows in Hy as [->|[Hy Hne]].
    - split; [|discriminate]. unfold is_active_reply_to. simpl.
      now rewrite andb_false_r.
    - split; [|intros _; exact Hne].
      destruct (is_active_reply_to m y) eqn:Hp; [|reflexivity].
      exfalso. apply Hne.
      assert (Hin : In y (order_by_created_at
                            (filter (is_active_reply_to m) (messages (db w))))).
      { apply in_order_by_created_at. apply filter_In. auto. }
      unfold active_replies_to in HR. unfold is_active_reply_to in Hin at 1.
      rewrite HR in Hin. destruct Hin as [<-|[]]. reflexivity. }
  assert (HPN : is_active_reply_to m N = true).
  { unfold is_active_reply_to. simpl. now rewrite Z.eqb_refl. }
  exists N. rewrite Hresp.
  split; [reflexivity|]. split; [exact HidN|].
  split; [rewrite Htable; apply in_or_app; right; now left|].
  do 4 (split; [reflexivity || (simpl; congruence)|]).
  split.
  { rewrite (find_message_eq_id R R') by reflexivity.
    rewrite Hmsgs. unfold regenerated_messages. rewrite HR. cbn [first hd_error].
    apply find_save_message_row. }
  split.
  { unfold active_replies_to. rewrite Htable, filter_app.
    fold (is_active_reply_to m).
    rewrite (filter_nil (is_active_reply_to m)
               (map (fun x => if message_eq R' x then R' else x)
                  (messages (db w)))) by (intros y Hy; apply (Hold y Hy)).
    cbn [filter app]. rewrite HPN. reflexivity. }
  intros cv Hcv.
  assert (HNactive : In N (get_active_messages cv (db w'))).
  { apply in_get_active_messages. rewrite Htable. repeat split.
    - apply in_or_app. right. now left.
    - simpl. congruence. }
  split; [|split; [exact HNactive|]].
  - apply Permutation_length_1_inv. unfold replies_to, get_active_messages.
    eapply Permutation_trans;
      [|apply filter_perm; symmetry; apply order_by_created_at_perm].
    unfold related_messages. rewrite Htable, !filter_app.
    rewrite (filter_nil _ (filter _ (filter _ (map _ (messages (db w)))))).
    + cbn [filter app]. cbn [filter app conversation N created_message].
      replace (conv_id conv =? conv_id cv) with true
        by (symmetry; apply Z.eqb_eq; congruence).
      cbn. rewrite Z.eqb_refl. reflexivity.
    + intros y Hy. apply filter_In in Hy as [Hy Hsup].
      apply filter_In in Hy as [Hy _].
      destruct (Hold y Hy) as [Hp _]. unfold is_active_reply_to in Hp.
      rewrite Hsup, andb_true_r in Hp. now rewrite andb_comm.
  - intros y Hy. apply in_get_active_messages in Hy as (Hy & _ & Hsup).
    split; [|exact Hsup]. rewrite Htable in Hy.
    apply in_app_or in Hy as [Hy|[<-|[]]].
    + now apply (Hold y Hy).
    + intros Heq. apply (HidN R HRin). now symmetry.
Qed.

(** C6, as amended. [Message.objects.create] validates nothing: for every
    role and every content it returns a new message with that role and
    content, [edited = False] and [superseded = False]. The check is in
    [send_message]: content that is empty after [strip()] is answered with
    status 400 and nothing is written. Whatever [send_message] does, the
    messages it appends have role ['user'] or ['assistant'],
    [edited = False] and [superseded = False]. *)
Theorem send_message_validates_content (E : Externals) (settings : Settings) :
  (forall (conv : Conversation) (r c : string) (parent : option Message)
          (w : World E),
     exists m w',
       Message_objects_create E conv r c parent w = (Ok m, w')
       /\ role m = r /\ content m = c
       /\ edited m = false /\ superseded m = false
       /\ messages (db w') = messages (db w) ++ [m])
  /\ (forall (request : Request string) (conversation_id : Z) (w : World E)
             (conv : Conversation) (data : option string),
        filter (fun c => (conv_id c =? conversation_id)
                         && (user c =? request_user request))
               (conversations (db w)) = [conv] ->
        request_body_ request = JsonObject data ->
        PyStr.strip (text_of data) = EmptyString ->
        send_message E settings request conversation_id w
        = (Ok (mk_JsonResponse (ErrorData "Message content cannot be empty") 400),
           w))
  /\ (forall (request : Request string) (conversation_id : Z) (w : World E),
        exists new,
          messages (db (snd (send_message E settings request conversation_id w)))
          = messages (db w) ++ new
          /\ Forall view_created new).
Proof.
  split; [|split].
  - intros conv r c parent w. rewrite Message_objects_create_run.
    destruct (clock E (ext w)) as [t x]. cbv zeta.
    eexists _, _. split; [reflexivity|]. repeat split.
  - intros request conversation_id w conv data Hconv Hbody Hblank.
    unfold send_message. run_monad. rewrite Hconv, Hbody. unfold get_object_or_404.
    run_monad. rewrite Hblank. reflexivity.
  - intros request conversation_id w. apply send_message_appends.
Qed.

(* ===================================================================== *)
(** * The properties on concrete worlds *)
(* ===================================================================== *)

Import Scenario.

Lemma one_reply_db_wf : db_wf one_reply_db.
Proof.
  split.
  - simpl. repeat constructor; simpl; intuition discriminate.
  - intros m [<-|[<-|[]]]; simpl; lia.
Defined.

(** On the state of [test_regenerate_reply_view], with an endpoint that
    answers, the old reply is superseded and the new one is the only
    active reply. *)
Lemma regenerate_reply_supersedes_witness :
  let E := externals clean (answers "New AI response") in
  let w := world E one_reply_db 200 in
  let r := regenerate_reply E cfg regenerate_request 1 w in
  exists resp N,
    fst r = Ok resp
    /\ status resp = 200
    /\ active_replies_to user_msg (db w) = [old_reply]
    /\ data_ resp = RegeneratedData N
    /\ find (message_eq old_reply) (messages (db (snd r)))
       = Some (set_replaced_by (Some (id N)) (set_superseded true old_reply))
    /\ active_replies_to user_msg (db (snd r)) = [N]
    /\ replies_to user_msg (get_active_messages conv1 (db (snd r))) = [N].
Proof.
  intros E w r.
  destruct (regenerate_reply E cfg regenerate_request 1 w) as [res w'] eqn:Hrun.
  assert (Hres : exists resp, res = Ok resp /\ status resp = 200).
  { vm_compute in Hrun. injection Hrun as <- _. eexists. split; reflexivity. }
  destruct Hres as (resp & -> & Hstatus).
  destruct (regenerate_reply_supersedes E cfg regenerate_request 1 w w' resp
              user_msg old_reply one_reply_db_wf Hrun Hstatus eq_refl
              (or_introl eq_refl) eq_refl)
    as (N & Hdata & _ & _ & _ & _ & _ & _ & Hfind & Hactive & Hconv).
  exists resp, N. unfold r. cbn [fst snd].
  destruct (Hconv conv1 eq_refl) as (Hreplies & _ & _).
  repeat split; assumption || reflexivity.
Defined.

(** With two replies in force, or an endpoint that answers without text,
    the outcome is another one. *)
Lemma regenerate_reply_needs_success_and_single_reply :
  (let E := externals clean silent in
   let w := world E one_reply_db 200 in
   let r := regenerate_reply E cfg regenerate_request 1 w in
   active_replies_to user_msg (db w) = [old_reply]
   /\ fst r
      = Ok (mk_JsonResponse (ErrorData "Failed to generate AI response") 500)
   /\ db (snd r) = db w
   /\ find (message_eq old_reply) (messages (db (snd r))) = Some old_reply
   /\ active_replies_to user_msg (db (snd r)) = [old_reply])
  /\ (let E := externals clean (answers "New AI response") in
      let w := world E two_replies_db 200 in
      let r := regenerate_reply E cfg regenerate_request 1 w in
      let N := created_message 4 conv1 "assistant" "New AI response" 200
                 (Some user_msg) in
      fst r = Ok (mk_JsonResponse (RegeneratedData N) 200)
      /\ replies_to user_msg (get_active_messages conv1 (db (snd r)))
         = [second_reply; N]).
Proof. vm_compute. repeat split; reflexivity. Qed.

(** The entries of the trimming test: only the last one fits; no budget
    below zero can be met, and nothing is kept. *)
Example trim_messages_by_token_limit_runs :
  trim_messages_by_token_limit history 5
  = [ {| msg_role := "assistant"; msg_content := "Final message" |} ]
  /\ trim_messages_by_token_limit history 2 = []
  /\ trim_messages_by_token_limit history (-1) = []
  /\ trim_messages_by_token_limit history 3000 = history.
Proof. repeat split; reflexivity. Qed.

Lemma trim_messages_by_token_limit_witness :
  0 <= 5
  /\ trim_messages_by_token_limit history 5
     = [ {| msg_role := "assistant"; msg_content := "Final message" |} ]
  /\ total_tokens (trim_messages_by_token_limit history 5) <= 5.
Proof.
  split; [lia|]. split; [reflexivity|].
  destruct (trim_messages_by_token_limit_suffix_within_budget history 5)
    as (_ & older & _ & _ & Hbudget & _).
  apply Hbudget. lia.
Defined.

Lemma get_conversation_history_for_api_witness :
  let E := externals clean (answers "Hi") in
  let w := world E one_reply_db 200 in
  find (fun c => conv_id c =? conversation old_reply) (conversations (db w))
  = Some conv1
  /\ exists before after,
       get_active_messages conv1 (db w) = before ++ old_reply :: after
       /\ fst (get_conversation_history_for_api E (old_reply, w))
          = Ok (before ++ [old_reply]).
Proof.
  intros E w. split; [reflexivity|].
  destruct (get_conversation_history_for_api_prefix E old_reply w conv1 eq_refl)
    as (_ & _ & _ & Hactive).
  apply Hactive; [exact one_reply_db_wf | right; now left | reflexivity].
Defined.

Lemma edit_content_twice_witness :
  let E := externals clean (answers "Hi") in
  let w := world E one_reply_db 200 in
  let s1 := snd (edit_content E "first edit" (user_msg, w)) in
  let s2 := snd (edit_content E "second edit" s1) in
  role user_msg = "user"
  /\ content (fst s2) = "second edit"
  /\ previous_content (fst s2) = "first edit"
  /\ edited (fst s2) = true.
Proof.
  intros E w s1 s2. split; [reflexivity|].
  destruct (edit_content_twice_keeps_previous_only E user_msg w
              "first edit" "second edit" eq_refl)
    as (Hc & Hp & He & _).
  repeat split; assumption.
Defined.

Lemma edit_content_rejects_non_user_witness :
  let E := externals clean (answers "Hi") in
  let w := world E one_reply_db 200 in
  role old_reply <> "user"
  /\ edit_content E "Updated content" (old_reply, w)
     = (Raise (mk_exception ValueError "Only user messages can be edited"),
        (old_reply, w)).
Proof.
  intros E w.
  assert (Hrole : role old_reply <> "user") by discriminate.
  split; [exact Hrole|].
  exact (proj1 (edit_content_rejects_non_user E old_reply w "Updated content"
                  Hrole)).
Defined.

Lemma generate_chat_completion_witness :
  let E := externals clean rate_limited in
  let w := world E one_reply_db 200 in
  let msgs := [ {| msg_role := "user"; msg_content := "Hello" |} ] in
  exists s,
    fst (generate_chat_completion E service msgs w) = Ok (Some s)
    /\ s = high_demand_message.
Proof.
  intros E w msgs.
  destruct (generate_chat_completion_never_raises E service msgs w)
    as (_ & Hfail & _).
  destruct (Hfail w (mk_exception RateLimitError "Rate limit reached") 200
              eq_refl eq_refl)
    as (s & Hs & _ & Hrate & _).
  exists s. split; [exact Hs | now apply Hrate].
Defined.

Lemma check_moderation_fails_open_witness :
  let E := externals down (answers "Hi there!") in
  let w := world E one_reply_db 200 in
  let msgs := [ {| msg_role := "user"; msg_content := "Hello" |} ] in
  fst (check_moderation E "Hello" w) = Ok not_flagged
  /\ fst (generate_chat_completion E service msgs w) = Ok (Some "Hi there!")
  /\ exists um am w',
       send_message E cfg (mk_Request 7 (JsonObject (Some "Hello"))) 1
         (world E empty_db 200)
       = (Ok (mk_JsonResponse (SentData um am) 200), w')
       /\ content um = "Hello" /\ content am = "Hi there!".
Proof.
  intros E w msgs.
  destruct (check_moderation_fails_open E cfg) as (Hcheck & Hflow & Hsend).
  assert (Hdown : forall text x,
            exists e x', moderations E text x = (Raise e, x')).
  { intros text x. eexists _, _. reflexivity. }
  split; [|split].
  - rewrite (Hcheck "Hello" w
               (mk_exception APIConnectionError "Connection error.") 200 eq_refl).
    reflexivity.
  - destruct (Hflow service msgs w Hdown) as (w1 & _ & _ & -> & _).
    reflexivity.
  - destruct (Hsend (mk_Request 7 (JsonObject (Some "Hello"))) 1
                (world E empty_db 200) conv1 (Some "Hello") "Hi there!" Hdown)
      as (um & am & w' & Hrun & _ & Hum & _ & Ham & _);
      try reflexivity.
    + intros rq x. eexists _, _. reflexivity.
    + exists um, am, w'. repeat split; assumption.
Defined.

(** The whole of [send_message] with the moderation endpoint down: the
    user's message is answered. *)
Example send_message_with_moderation_down :
  let E := externals down (answers "Hi there!") in
  let w := world E empty_db 200 in
  let r := send_message E cfg (mk_Request 7 (JsonObject (Some "Hello"))) 1 w in
  exists um am,
    fst r = Ok (mk_JsonResponse (SentData um am) 200)
    /\ content um = "Hello" /\ content am = "Hi there!"
    /\ messages (db (snd r)) = [um; am]
    /\ log (snd r)
       = [ {| level := ERROR;
              text := "Moderation check failed: Connection error." |} ].
Proof. vm_compute. eexists _, _. repeat split; reflexivity. Qed.

Lemma message_creation_validates_nothing :
  let E := externals clean (answers "Hi") in
  let w := world E empty_db 200 in
  exists m,
    fst (Message_objects_create E conv1 "moderator" "   " None w) = Ok m
    /\ ~ In (role m) ROLE_CHOICES
    /\ PyStr.strip (content m) = EmptyString.
Proof.
  eexists. split; [reflexivity|]. split; [|reflexivity].
  simpl. intros [H|[H|[H|[]]]]; discriminate.
Qed.

Lemma send_message_validates_content_witness :
  let E := externals clean (answers "Hi") in
  let w := world E empty_db 200 in
  let request := mk_Request 7 (JsonObject (Some "     ")) in
  send_message E cfg request 1 w
  = (Ok (mk_JsonResponse (ErrorData "Message content cannot be empty") 400), w).
Proof.
  intros E w request.
  destruct (send_message_validates_content E cfg) as (_ & Hblank & _).
  apply (Hblank request 1 w conv1 (Some "     ")); reflexivity.
Defined.

(** The message of the scenario is shorter than said, and a conversation
    that already has a user message takes its title from that one. *)
Lemma long_message_is_not_74 :
  String.length long_message <> 74%nat
  /\ (let E := externals clean (answers "Hi") in
      let w := world E one_reply_db 200 in
      let w1 := snd (Message_objects_create E conv1 "user" long_message None w) in
      let s := snd (update_title_from_first_message E (conv1, w1)) in
      title conv1 = default_title /\ title (fst s) = "User message").
Proof. split; [discriminate|]. vm_compute. split; reflexivity. Qed.

Lemma update_title_from_first_message_truncates_witness :
  let E := externals clean (answers "Hi") in
  let w := world E empty_db 200 in
  let w1 := snd (Message_objects_create E conv1 "user" long_message None w) in
  let s := snd (update_title_from_first_message E (conv1, w1)) in
  title conv1 = default_title
  /\ active_user_messages conv1 (db w) = []
  /\ title (fst s) = "This is a very long message that should be truncat..."
  /\ String.length (title (fst s)) = 53%nat.
Proof.
  intros E w w1 s. split; [reflexivity|]. split; [reflexivity|].
  destruct (update_title_from_first_message_truncates E) as (_ & Hlong & _).
  destruct (Hlong w conv1 eq_refl eq_refl) as (Ht & _ & Hlen & _).
  split; assumption.
Defined.

Lemma update_title_from_first_message_idempotent_witness :
  let E := externals clean (answers "Hi") in
  let w := world E one_reply_db 200 in
  let s1 := snd (update_title_from_first_message E (conv1, w)) in
  let s2 := snd (update_title_from_first_message E s1) in
  title (fst s1) = "User message"
  /\ title (fst s1) <> default_title
  /\ title (fst s2) = title (fst s1)
  /\ s2 = s1.
Proof.
  intros E w s1 s2.
  destruct (update_title_from_first_message_idempotent E conv1 w)
    as (_ & _ & _ & _ & _ & Htitle & _ & _ & Hnoop & _).
  assert (Hne : title (fst s1) <> default_title) by discriminate.
  split; [reflexivity|]. split; [exact Hne|]. split; [exact Htitle|].
  unfold s2, s1. now rewrite (Hnoop Hne).
Defined.

(** When the first user message reads "New Conversation", the title
    derived from it is the placeholder again, and a second call is not a
    no-op: it saves the conversation once more, which moves
    [updated_at]. *)
Lemma update_title_from_first_message_saves_again :
  let E := externals clean (answers "Hi") in
  let w := world E placeholder_db 200 in
  let s1 := snd (update_title_from_first_message E (conv1, w)) in
  let s2 := snd (update_title_from_first_message E s1) in
  title conv1 = default_title
  /\ title (fst s1) = default_title
  /\ conversations (db (snd s1)) = [set_updated_at 200 conv1]
  /\ conversations (db (snd s2)) = [set_updated_at 201 conv1]
  /\ s2 <> s1.
Proof.
  vm_compute. repeat split; try reflexivity.
  intros H. discriminate H.
Qed.

(* ===================================================================== *)
(** * Further properties *)
(* ===================================================================== *)

(** ** More on [trim_messages_by_token_limit] *)

(** The loop takes everything when the whole input is within the budget. *)
Lemma trim_loop_all (reversed : list ChatMessage) (max_tokens : Z) :
  forall total trimmed,
  total + total_tokens reversed <= max_tokens ->
  trim_loop reversed max_tokens total trimmed = rev reversed ++ trimmed.
Proof.
  induction reversed as [|m rest IH]; intros total trimmed Hfit; simpl.
  - reflexivity.
  - simpl in Hfit. pose proof (total_tokens_nonneg rest) as Hrest.
    destruct (Z.leb_spec (total + estimate_tokens (msg_content m)) max_tokens)
      as [_|Hover]; [|lia].
    rewrite IH by lia. now rewrite <- app_assoc.
Qed.

(** What the loop has kept is within the budget, unless it kept nothing. *)
Lemma trim_kept_within (msgs : list ChatMessage) (max_tokens : Z) :
  trim_messages_by_token_limit msgs max_tokens <> [] ->
  total_tokens (trim_messages_by_token_limit msgs max_tokens) <= max_tokens.
Proof.
  unfold trim_messages_by_token_limit.
  destruct (trim_loop_split (rev msgs) max_tokens 0 [])
    as (taken & left & _ & -> & Hrun & _).
  rewrite app_nil_r, total_tokens_rev. intros Hne.
  apply (Hrun taken [] (eq_sym (app_nil_r taken))).
  intros ->. now apply Hne.
Qed.

(** X1. Nothing is trimmed exactly when the input is empty or within the
    budget as a whole. *)
Theorem trim_messages_by_token_limit_keeps_all_iff (msgs : list ChatMessage)
  (max_tokens : Z) :
  trim_messages_by_token_limit msgs max_tokens = msgs
  <-> msgs = [] \/ total_tokens msgs <= max_tokens.
Proof.
  split.
  - intros Hsame. destruct msgs as [|m msgs]; [now left|]. right.
    rewrite <- Hsame at 1. apply trim_kept_within. rewrite Hsame. discriminate.
  - intros [->|Hfit]; [reflexivity|].
    unfold trim_messages_by_token_limit.
    rewrite trim_loop_all by (rewrite total_tokens_rev; lia).
    now rewrite rev_involutive, app_nil_r.
Qed.

(** X2. Trimming what has been trimmed, with the same budget, changes
    nothing. *)
Theorem trim_messages_by_token_limit_idempotent (msgs : list ChatMessage)
  (max_tokens : Z) :
  trim_messages_by_token_limit
    (trim_messages_by_token_limit msgs max_tokens) max_tokens
  = trim_messages_by_token_limit msgs max_tokens.
Proof.
  destruct (trim_messages_by_token_limit msgs max_tokens) as [|m kept] eqn:Hk.
  - reflexivity.
  - rewrite <- Hk.
    assert (Hfit : total_tokens (trim_messages_by_token_limit msgs max_tokens)
                   <= max_tokens).
    { apply trim_kept_within. rewrite Hk. discriminate. }
    unfold trim_messages_by_token_limit at 1.
    rewrite trim_loop_all by (rewrite total_tokens_rev; lia).
    now rewrite rev_involutive, app_nil_r.
Qed.

(** Two prefixes of one list: one of them is a prefix of the other. *)
Lemma prefixes_comparable {A} (a b c d : list A) :
  a ++ b = c ++ d ->
  (exists e, c = a ++ e) \/ (exists x e, a = c ++ x :: e).
Proof.
  revert c. induction a as [|x a IH]; intros c H.
  - left. now exists c.
  - destruct c as [|y c].
    + right. now exists x, a.
    + simpl in H. injection H as -> H.
      destruct (IH c H) as [(e & ->)|(z & e & ->)].
      * left. now exists e.
      * right. now exists z, e.
Qed.

(** X3. A larger budget keeps what a smaller one keeps, and possibly older
    entries before it. *)
Theorem trim_messages_by_token_limit_monotone (msgs : list ChatMessage)
  (small large : Z) :
  small <= large ->
  exists older,
    trim_messages_by_token_limit msgs large
    = older ++ trim_messages_by_token_limit msgs small.
Proof.
  intros Hle. unfold trim_messages_by_token_limit.
  destruct (trim_loop_split (rev msgs) small 0 [])
    as (taken & left & Hsplit & -> & Hrun & _).
  destruct (trim_loop_split (rev msgs) large 0 [])
    as (taken' & left' & Hsplit' & -> & _ & Hstop').
  rewrite !app_nil_r.
  assert (Heq : taken ++ left = taken' ++ left') by congruence.
  destruct (prefixes_comparable taken left taken' left' Heq)
    as [(e & ->)|(x & e & ->)].
  - exists (rev e). now rewrite rev_app_distr.
  - exfalso. rewrite <- app_assoc in Heq. apply app_inv_head in Heq.
    simpl in Heq. specialize (Hstop' x (e ++ left) (eq_sym Heq)).
    specialize (Hrun (taken' ++ [x]) e).
    rewrite <- app_assoc in Hrun. specialize (Hrun eq_refl).
    rewrite total_tokens_app in Hrun. simpl in Hrun.
    assert (taken' ++ [x] <> []) by (now destruct taken').
    specialize (Hrun H). lia.
Qed.

(** ** The active messages *)

Lemma insert_by_created_at_sorted (m : Message) (l : list Message) :
  chronological l -> chronological (insert_by_created_at m l).
Proof.
  unfold chronological. induction l as [|x l IH]; intros Hl; simpl.
  - repeat constructor.
  - apply StronglySorted_inv in Hl as [Hl Hx].
    destruct (Z.leb_spec (created_at m) (created_at x)) as [Hle|Hgt].
    + constructor; [now constructor|].
      constructor; [exact Hle|].
      eapply Forall_impl; [|exact Hx]. intros y Hy. simpl in *. lia.
    + constructor; [now apply IH|].
      eapply Permutation_Forall;
        [symmetry; apply insert_by_created_at_perm|].
      constructor; [lia | exact Hx].
Qed.

Lemma order_by_created_at_sorted (l : list Message) :
  chronological (order_by_created_at l).
Proof.
  induction l as [|x l IH]; simpl; [constructor|].
  now apply insert_by_created_at_sorted.
Qed.

(** Rows that are in chronological order already are left in place. *)
Lemma order_by_created_at_of_sorted (l : list Message) :
  chronological l -> order_by_created_at l = l.
Proof.
  unfold chronological. induction l as [|x l IH]; intros Hl; [reflexivity|].
  apply StronglySorted_inv in Hl as [Hl Hx]. simpl. rewrite (IH Hl).
  destruct l as [|y l]; [reflexivity|]. simpl.
  apply Forall_inv in Hx.
  destruct (Z.leb_spec (created_at x) (created_at y)); [reflexivity | lia].
Qed.

Lemma chronological_filter (p : Message -> bool) (l : list Message) :
  chronological l -> chronological (filter p l).
Proof.
  unfold chronological. induction l as [|x l IH]; intros Hl; [constructor|].
  apply StronglySorted_inv in Hl as [Hl Hx]. simpl.
  destruct (p x); [|now apply IH].
  constructor; [now apply IH|].
  apply Forall_forall. intros y Hy. apply filter_In in Hy as [Hy _].
  rewrite Forall_forall in Hx. now apply Hx.
Qed.

(** X4. [get_active_messages] lists, by creation time, the messages of the
    conversation that are not superseded, each as often as it is stored;
    when the table itself is in chronological order the active messages
    come in the order of the table. *)
Theorem get_active_messages_sorted (self : Conversation) (d : Database) :
  chronological (get_active_messages self d)
  /\ Permutation (get_active_messages self d)
       (filter (fun m => (conversation m =? conv_id self)
                         && negb (superseded m)) (messages d))
  /\ (forall m, In m (get_active_messages self d) ->
        In m (messages d) /\ conversation m = conv_id self
        /\ superseded m = false)
  /\ (chronological (messages d) ->
      get_active_messages self d
      = filter (fun m => negb (superseded m)) (related_messages self d)).
Proof.
  split; [apply order_by_created_at_sorted|]. split; [|split].
  - unfold get_active_messages, related_messages.
    rewrite order_by_created_at_perm.
    induction (messages d) as [|x l IH]; simpl; [reflexivity|].
    destruct (conversation x =? conv_id self); simpl; [|exact IH].
    destruct (negb (superseded x)); [now constructor | exact IH].
  - intros m. apply in_get_active_messages.
  - intros Hd. unfold get_active_messages, related_messages.
    apply order_by_created_at_of_sorted.
    now do 2 apply chronological_filter.
Qed.

Lemma chronological_skipn (n : nat) (l : list Message) :
  chronological l -> chronological (skipn n l).
Proof.
  unfold chronological. revert l. induction n as [|n IH]; intros l Hl;
    [exact Hl|].
  destruct l as [|x l]; [exact Hl|]. simpl. apply IH.
  now apply StronglySorted_inv in Hl as [Hl _].
Qed.

(** X5. [get_recent_messages_for_api] returns the last [limit] active messages
    of the conversation, in their order, or all of them when there are no
    more than [limit]; a limit of zero or less leaves none. *)
Theorem get_recent_messages_for_api_last (self : Conversation) (limit : Z)
  (d : Database) :
  let active := get_active_messages self d in
  let recent := get_recent_messages_for_api self limit d in
  (exists older, active = older ++ recent)
  /\ Z.of_nat (List.length recent)
     = Z.min (Z.of_nat (List.length active)) (Z.max 0 limit)
  /\ (Z.of_nat (List.length active) <= limit -> recent = active)
  /\ (limit <= 0 -> recent = [])
  /\ chronological recent.
Proof.
  intros active recent. unfold recent, get_recent_messages_for_api.
  fold active.
  destruct (Z.ltb_spec limit (Z.of_nat (List.length active))) as [Hlt|Hge].
  - set (n := Z.to_nat (Z.of_nat (List.length active) - limit)).
    split; [|split; [|split; [|split]]].
    + exists (firstn n active). symmetry. apply firstn_skipn.
    + rewrite length_skipn. unfold n. lia.
    + lia.
    + intros Hneg. apply skipn_all2. unfold n. lia.
    + apply chronological_skipn. apply order_by_created_at_sorted.
  - split; [|split; [|split; [|split]]].
    + now exists [].
    + lia.
    + reflexivity.
    + intros Hneg. destruct active; [reflexivity | simpl in Hge; lia].
    + apply order_by_created_at_sorted.
Qed.

(** *** Ordering, filtering and rewriting rows *)

Lemma filter_insert_by_created_at (p : Message -> bool) (m : Message)
  (l : list Message) :
  chronological l ->
  filter p (insert_by_created_at m l)
  = if p m then insert_by_created_at m (filter p l) else filter p l.
Proof.
  unfold chronological. induction l as [|x l IH]; intros Hl; simpl.
  - now destruct (p m).
  - apply StronglySorted_inv in Hl as [Hl Hx].
    destruct (Z.leb_spec (created_at m) (created_at x)) as [Hle|Hgt]; simpl.
    + destruct (p m) eqn:Hm; [|reflexivity].
      destruct (p x) eqn:Hpx; simpl.
      * destruct (Z.leb_spec (created_at m) (created_at x)); [reflexivity|lia].
      * destruct (filter p l) as [|y l'] eqn:Hf; [reflexivity|]. simpl.
        assert (Hy : In y (filter p l)) by (rewrite Hf; now left).
        apply filter_In in Hy as [Hy _]. rewrite Forall_forall in Hx.
        specialize (Hx y Hy). simpl in Hx.
        destruct (Z.leb_spec (created_at m) (created_at y)); [reflexivity|lia].
    + rewrite (IH Hl). destruct (p x) eqn:Hpx; simpl.
      * destruct (p m); [|reflexivity]. simpl.
        destruct (Z.leb_spec (created_at m) (created_at x)); [lia|reflexivity].
      * reflexivity.
Qed.

Lemma filter_order_by_created_at (p : Message -> bool) (l : list Message) :
  filter p (order_by_created_at l) = order_by_created_at (filter p l).
Proof.
  induction l as [|x l IH]; simpl; [reflexivity|].
  rewrite filter_insert_by_created_at by apply order_by_created_at_sorted.
  rewrite IH. now destruct (p x).
Qed.

Lemma filter_twice {A} (p q : A -> bool) (l : list A) :
  filter p (filter q l) = filter (fun x => q x && p x) l.
Proof.
  induction l as [|x l IH]; simpl; [reflexivity|].
  destruct (q x); simpl; [|exact IH]. destruct (p x); now rewrite IH.
Qed.

(** Filtering rewritten rows: a row that is kept must be kept as it was. *)
Lemma filter_rewritten {A} (p q : A -> bool) (g : A -> A) (l : list A) :
  (forall x, In x l ->
     if q x then g x = x /\ p x = true else p (g x) = false) ->
  filter p (map g l) = filter q l.
Proof.
  induction l as [|x l IH]; intros H; simpl; [reflexivity|].
  pose proof (H x (or_introl eq_refl)) as Hx.
  rewrite IH by (intros y Hy; apply H; now right).
  destruct (q x).
  - destruct Hx as [-> ->]. reflexivity.
  - now rewrite Hx.
Qed.

(** Saving a superseded version of a message takes its primary key out of
    the rows that are not superseded, and nothing else. *)
Lemma filter_active_save_superseded (m' : Message) (keep : Message -> bool)
  (rows : list Message) :
  superseded m' = true ->
  filter (fun x => negb (superseded x)) (filter keep (save_message_row m' rows))
  = filter (fun x => negb (id x =? id m'))
      (filter (fun x => negb (superseded x)) (filter keep rows)).
Proof.
  intros Hsup. rewrite !filter_twice. unfold save_message_row.
  destruct (existsb (message_eq m') rows) eqn:Hex.
  - apply filter_rewritten. intros x _. unfold message_eq.
    destruct (Z.eqb_spec (id m') (id x)) as [Heq|Hne].
    + rewrite <- Heq, Z.eqb_refl, Hsup.
      destruct (keep x), (keep m'), (superseded x); simpl; auto.
    + destruct (Z.eqb_spec (id x) (id m')); [congruence|].
      destruct (keep x), (superseded x); simpl; auto.
  - rewrite filter_app. simpl. rewrite Hsup, andb_false_r, app_nil_r.
    apply filter_ext_in. intros x Hx.
    assert (Hne : (id x =? id m') = false).
    { apply Z.eqb_neq. intros Heq.
      assert (Ht : existsb (message_eq m') rows = true).
      { apply existsb_exists. exists x. split; [exact Hx|].
        unfold message_eq. apply Z.eqb_eq. congruence. }
      congruence. }
    rewrite Hne. destruct (keep x), (superseded x); reflexivity.
Qed.

(** X6. [supersede_with_new_reply] refuses a message that is not an assistant
    message and changes nothing then. On an assistant message it returns
    normally; the row stays in the table, now superseded and pointing to the
    new reply; every other row is as before; and from the active messages
    of every conversation exactly this message is gone, the others keeping
    their order. *)
Theorem supersede_with_new_reply_hides_only_self (E : Externals)
  (new_reply m : Message) (w : World E) :
  let r := supersede_with_new_reply E new_reply (m, w) in
  (role m <> "assistant" ->
   r = (Raise (mk_exception ValueError
                 "Only assistant messages can be superseded"), (m, w)))
  /\ (role m = "assistant" ->
      fst r = Ok tt
      /\ superseded (fst (snd r)) = true
      /\ replaced_by (fst (snd r)) = Some (id new_reply)
      /\ find (message_eq m) (messages (db (snd (snd r)))) = Some (fst (snd r))
      /\ (forall x, In x (messages (db w)) -> id x <> id m ->
            In x (messages (db (snd (snd r)))))
      /\ conversations (db (snd (snd r))) = conversations (db w)
      /\ forall cv,
           get_active_messages cv (db (snd (snd r)))
           = filter (fun x => negb (id x =? id m))
               (get_active_messages cv (db w))).
Proof.
  intros r. unfold r. rewrite supersede_with_new_reply_run. split.
  - intros Hrole. apply String.eqb_neq in Hrole. now rewrite Hrole.
  - intros Hrole. apply String.eqb_eq in Hrole. rewrite Hrole. cbn [fst snd].
    split; [reflexivity|]. split; [reflexivity|]. split; [reflexivity|].
    split; [|split; [|split]].
    + cbn [db set_db messages set_messages].
      rewrite (find_message_eq_id m (superseded_by new_reply m)) by reflexivity.
      apply find_save_message_row.
    + intros x Hx Hne. cbn [db set_db messages set_messages].
      unfold save_message_row.
      destruct (existsb _ _); [|apply in_or_app; now left].
      apply in_map_iff. exists x. split; [|exact Hx].
      unfold message_eq. simpl.
      destruct (Z.eqb_spec (id m) (id x)); [congruence|reflexivity].
    + reflexivity.
    + intros cv. unfold get_active_messages, related_messages.
      cbn [db set_db messages set_messages].
      rewrite filter_order_by_created_at. f_equal.
      apply (filter_active_save_superseded (superseded_by new_reply m)).
      reflexivity.
Qed.

(** ** What an edit leaves alone *)

Lemma insert_by_created_at_map (f : Message -> Message) (x : Message)
  (s : list Message) :
  created_at (f x) = created_at x ->
  (forall y, In y s -> created_at (f y) = created_at y) ->
  insert_by_created_at (f x) (map f s) = map f (insert_by_created_at x s).
Proof.
  intros Hx. induction s as [|y s IH]; intros Hs; simpl; [reflexivity|].
  rewrite Hx, (Hs y (or_introl eq_refl)).
  destruct (created_at x <=? created_at y); simpl; [reflexivity|].
  rewrite IH; [reflexivity|]. intros z Hz. apply Hs. now right.
Qed.

Lemma order_by_created_at_map (f : Message -> Message) (l : list Message) :
  (forall x, In x l -> created_at (f x) = created_at x) ->
  order_by_created_at (map f l) = map f (order_by_created_at l).
Proof.
  induction l as [|x l IH]; intros Hf; simpl; [reflexivity|].
  rewrite IH by (intros y Hy; apply Hf; now right).
  apply insert_by_created_at_map; [apply Hf; now left|].
  intros y Hy. apply Hf. right. exact (proj1 (in_order_by_created_at y l) Hy).
Qed.

Lemma filter_map_same {A} (p : A -> bool) (g : A -> A) (l : list A) :
  (forall x, In x l -> p (g x) = p x) ->
  filter p (map g l) = map g (filter p l).
Proof.
  induction l as [|x l IH]; intros H; simpl; [reflexivity|].
  rewrite (H x (or_introl eq_refl)).
  rewrite IH by (intros y Hy; apply H; now right).
  now destruct (p x).
Qed.

(** X7. [edit_content] on a stored user message returns normally and, in the
    message table, rewrites this one row: every other message is as before,
    the active messages of every conversation are the same sequence with
    the edited message in the place of the old one, no reply becomes or
    stops being an active reply, and nothing is logged. (The conversation
    that the method saves afterwards is the object held by the instance;
    nothing is stated here about the table of conversations.) *)
Theorem edit_content_touches_only_its_message (E : Externals) (c : string)
  (m : Message) (w : World E) (cv : Conversation) :
  role m = "user" ->
  NoDup (map id (messages (db w))) ->
  In m (messages (db w)) ->
  find (fun x => conv_id x =? conversation m) (conversations (db w)) = Some cv ->
  let r := edit_content E c (m, w) in
  let m1 := edited_with c (fst (clock E (ext w))) m in
  let swap := fun x => if id m =? id x then m1 else x in
  r = (Ok tt, (m1, snd (snd r)))
  /\ messages (db (snd (snd r))) = map swap (messages (db w))
  /\ (forall cv', get_active_messages cv' (db (snd (snd r)))
                  = map swap (get_active_messages cv' (db w)))
  /\ (forall u, active_replies_to u (db (snd (snd r)))
                = active_replies_to u (db w))
  /\ log (snd (snd r)) = log w.
Proof.
  intros Hrole Hnodup Hin Hcv r m1 swap.
  assert (Hr : String.eqb (role m) "user" = true) by now apply String.eqb_eq.
  assert (Hrows : save_message_row m1 (messages (db w))
                  = map swap (messages (db w))).
  { apply save_message_row_stored. exists m. split; [exact Hin|reflexivity]. }
  assert (Hswap : forall x, In x (messages (db w)) ->
            conversation (swap x) = conversation x
            /\ superseded (swap x) = superseded x
            /\ created_at (swap x) = created_at x
            /\ role (swap x) = role x
            /\ parent_user_message (swap x) = parent_user_message x).
  { intros x Hx. unfold swap.
    destruct (Z.eqb_spec (id m) (id x)) as [Heq|]; [|repeat split].
    assert (x = m) by (apply (NoDup_map_inj id (messages (db w))); auto).
    subst x. repeat split. }
  unfold r. rewrite (edit_content_user_run E c m w Hr), Hcv.
  unfold m1 in Hrows |- *.
  destruct (clock E (ext w)) as [t1 x1]. cbv zeta. cbn [fst snd] in *.
  destruct (clock E x1) as [t2 x2]. cbn [fst snd] in *.
  destruct (clock E x2) as [t3 x3]. cbn [fst snd] in *.
  fold m1 in Hrows |- *.
  cbn [db messages conversations set_conversations set_messages log].
  rewrite Hrows.
  split; [reflexivity|]. split; [reflexivity|]. split; [|split].
  - intros cv'. unfold get_active_messages, related_messages.
    cbn [db messages conversations set_conversations set_messages].
    rewrite ?Hrows.
    rewrite (filter_map_same _ swap)
      by (intros x Hx; now rewrite (proj1 (Hswap x Hx))).
    rewrite (filter_map_same _ swap).
    + apply order_by_created_at_map. intros x Hx.
      apply filter_In in Hx as [Hx _]. apply filter_In in Hx as [Hx _].
      apply (Hswap x Hx).
    + intros x Hx. apply filter_In in Hx as [Hx _].
      destruct (Hswap x Hx) as (_ & -> & _). reflexivity.
  - intros u. unfold active_replies_to.
    cbn [db messages conversations set_conversations set_messages].
    rewrite ?Hrows. f_equal.
    rewrite (filter_map_same _ swap).
    + rewrite <- (map_id (filter _ (messages (db w)))) at 2.
      apply map_ext_in. intros x Hx. apply filter_In in Hx as [Hx Hp].
      unfold swap. destruct (Z.eqb_spec (id m) (id x)) as [Heq|]; [|reflexivity].
      assert (x = m) by (apply (NoDup_map_inj id (messages (db w))); auto).
      subst x. rewrite Hrole in Hp. simpl in Hp.
      now rewrite andb_false_r in Hp.
    + intros x Hx. destruct (Hswap x Hx) as (_ & -> & _ & -> & ->).
      reflexivity.
  - reflexivity.
Qed.

(** ** The moderation verdict and the calls of [generate_chat_completion] *)

Lemma moderation_loop_other_roles (E : Externals) (msgs : list ChatMessage)
  (w : World E) :
  Forall (fun a => msg_role a <> "user") msgs ->
  moderation_loop E msgs w = (Ok None, w).
Proof.
  induction 1 as [|a l Ha _ IH]; [reflexivity|].
  simpl. apply String.eqb_neq in Ha. rewrite Ha. exact IH.
Qed.

(** X8. [check_moderation] always returns a verdict and calls the
    moderation endpoint exactly once. The verdict is the endpoint's first
    result: its [flagged], and its categories only when it is flagged; an
    answer without results, like a failing call, gives the verdict "not
    flagged" and one error record. Nothing else is logged and the database
    is not touched. *)
Theorem check_moderation_verdict (E : Externals) (text : string)
  (w : World E) :
  exists m lg,
    check_moderation E text w
    = (Ok m, mk_World E (db w) (snd (moderations E text (ext w)))
               (log w ++ lg))
    /\ (flagged m = false -> categories m = [])
    /\ match fst (moderations E text (ext w)) with
       | Ok resp =>
           match results resp with
           | r0 :: _ =>
               flagged m = flagged r0
               /\ (flagged r0 = true -> categories m = categories r0)
               /\ lg = []
           | [] =>
               m = not_flagged
               /\ lg = [ {| level := ERROR;
                            text := "Moderation check failed: list index out of range" |} ]
           end
       | Raise e =>
           m = not_flagged
           /\ lg = [ {| level := ERROR;
                        text := ("Moderation check failed: " ++ exc_msg e)%string |} ]
       end.
Proof.
  unfold check_moderation, client_moderations_create, logger, index0.
  run_monad.
  destruct (moderations E text (ext w)) as [[resp|e] x]; simpl.
  - destruct (results resp) as [|r0 rest]; simpl.
    + eexists _, _. split; [reflexivity|]. repeat split.
    + exists {| flagged := flagged r0;
                categories := if flagged r0 then categories r0 else [] |}, [].
      rewrite app_nil_r. split; [reflexivity|]. simpl.
      split; [now intros ->|]. split; [reflexivity|].
      split; [now intros ->|reflexivity].
  - rewrite isinstance_Exception. simpl.
    eexists _, _. split; [reflexivity|]. repeat split.
Qed.

(** X9. A flagged user message ends [generate_chat_completion] at once: when
    the first entry with role user is flagged, the answer is the policy
    message, the warning with the categories is logged, the entries after
    it are not moderated and the completion endpoint is not called (the
    external state is the one the single moderation call left). *)
Theorem generate_chat_completion_flagged_stops (E : Externals)
  (self : OpenAIService) (pre post : list ChatMessage) (m : ChatMessage)
  (w : World E) (resp : ModerationResponse) (r0 : Moderation)
  (rest : list Moderation) (x : Ext E) :
  Forall (fun a => msg_role a <> "user") pre ->
  msg_role m = "user" ->
  moderations E (msg_content m) (ext w) = (Ok resp, x) ->
  results resp = r0 :: rest ->
  flagged r0 = true ->
  generate_chat_completion E self (pre ++ m :: post) w
  = (Ok (Some policy_violation_message),
     mk_World E (db w) x
       (log w ++ [ {| level := WARNING;
                      text := ("Message flagged by moderation: "
                               ++ repr_dict (categories r0))%string |} ])).
Proof.
  intros Hpre Hrole Hmod Hres Hflag.
  rewrite generate_chat_completion_run.
  assert (Hloop : forall l, Forall (fun a => msg_role a <> "user") l ->
            moderation_loop E (l ++ m :: post) w
            = moderation_loop E (m :: post) w).
  { induction 1 as [|a l Ha _ IH]; [reflexivity|].
    simpl. apply String.eqb_neq in Ha. rewrite Ha. exact IH. }
  rewrite (Hloop pre Hpre). simpl. rewrite Hrole. simpl.
  unfold bind at 1.
  unfold check_moderation, client_moderations_create, logger, index0.
  run_monad. rewrite Hmod. simpl. rewrite Hres. simpl. rewrite Hflag.
  reflexivity.
Qed.

(** X10. Only entries with role user are moderated: for a history without
    them the moderation endpoint is not called, the completion endpoint
    receives the whole history with the configured model and
    [max_tokens=1000], and the answer is the content of its first choice;
    an answer without choices gives the "unexpected error" text and one
    error record. *)
Theorem generate_chat_completion_moderates_users_only (E : Externals)
  (self : OpenAIService) (msgs : list ChatMessage) (w : World E)
  (resp : ChatCompletion) (x : Ext E) :
  Forall (fun a => msg_role a <> "user") msgs ->
  completions E (completion_request self msgs) (ext w) = (Ok resp, x) ->
  generate_chat_completion E self msgs w
  = match choices resp with
    | c0 :: _ => (Ok (message_content c0), mk_World E (db w) x (log w))
    | [] =>
        (Ok (Some unexpected_error_message),
         log_error "Unexpected error in OpenAI service: list index out of range"
           (mk_World E (db w) x (log w)))
    end.
Proof.
  intros Hroles Hcall.
  rewrite generate_chat_completion_run.
  rewrite (moderation_loop_other_roles E msgs w Hroles).
  unfold call_backend, client_chat_completions_create, index0,
    completion_handlers, logger.
  run_monad. fold (completion_request self msgs). rewrite Hcall. simpl.
  destruct (choices resp) as [|c0 rest]; reflexivity.
Qed.

(** ** Who may use a conversation *)

Lemma foreign_conversation_filter (cid u : Z) (l : list Conversation) :
  (forall c, In c l -> conv_id c = cid -> user c <> u) ->
  filter (fun c => (conv_id c =? cid) && (user c =? u)) l = [].
Proof.
  intros H. apply filter_nil. intros c Hc.
  destruct (Z.eqb_spec (conv_id c) cid) as [Hid|]; [|reflexivity].
  simpl. apply Z.eqb_neq. now apply H.
Qed.

(** X11. A conversation id that is not a conversation of the requesting
    user (unknown, or owned by somebody else) is answered by [Http404] in
    every view that takes a conversation id, whatever the body and headers
    are, and nothing is read or written: no row, no log record, no call of
    an endpoint or of the clock. *)
Theorem foreign_conversation_is_not_found (E : Externals)
  (settings : Settings) (u cid : Z) (w : World E) :
  (forall c, In c (conversations (db w)) -> conv_id c = cid -> user c <> u) ->
  exists not_found,
    exc_cls not_found = Http404
    /\ (forall body,
          send_message E settings (mk_Request u body) cid w
          = (Raise not_found, w))
    /\ (forall body,
          regenerate_reply E settings (mk_Request u body) cid w
          = (Raise not_found, w))
    /\ (forall body,
          rename_conversation E (mk_Request u body) cid w
          = (Raise not_found, w))
    /\ (forall content_type,
          delete_conversation E u cid content_type w = (Raise not_found, w))
    /\ conversation_detail E u cid w = (Raise not_found, w).
Proof.
  intros Hforeign.
  pose proof (foreign_conversation_filter cid u _ Hforeign) as Hnil.
  eexists. split; [|repeat split; intros;
    unfold send_message, regenerate_reply, rename_conversation,
      delete_conversation, conversation_detail;
    unfold bind at 1, get at 1; unfold bind at 1;
    cbn [request_user]; rewrite Hnil; reflexivity].
  reflexivity.
Qed.

(** ** The API key *)

(** X12. Without an API key [send_message] and [regenerate_reply] answer
    500 with the "not configured" text once the request itself is
    acceptable (content not blank; the message to answer found), and they
    do so before anything is written or sent: the world is unchanged. *)
Theorem views_require_api_key (E : Externals) (settings : Settings)
  (conversation_id : Z) (w : World E) (conv : Conversation) :
  PyStr.truthy (OPENAI_API_KEY settings) = false ->
  let denied :=
    (Ok (mk_JsonResponse (ErrorData key_not_configured) 500), w) in
  (forall (request : Request string) data,
     filter (fun c => (conv_id c =? conversation_id)
                      && (user c =? request_user request))
            (conversations (db w)) = [conv] ->
     request_body_ request = JsonObject data ->
     PyStr.truthy (PyStr.strip (text_of data)) = true ->
     send_message E settings request conversation_id w = denied)
  /\ (forall (request : Request Z) k um,
        filter (fun c => (conv_id c =? conversation_id)
                         && (user c =? request_user request))
               (conversations (db w)) = [conv] ->
        request_body_ request = JsonObject (Some k) ->
        k <> 0 ->
        filter (fun m => (id m =? k) && (conversation m =? conv_id conv)
                         && String.eqb (role m) "user")
               (messages (db w)) = [um] ->
        regenerate_reply E settings request conversation_id w = denied).
Proof.
  intros Hkey denied. split.
  - intros request data Hconv Hbody Hcontent.
    unfold send_message. unfold bind at 1, get at 1. unfold bind at 1.
    rewrite Hconv. unfold get_object_or_404 at 1, ret at 1.
    unfold try_except, bind at 1. rewrite Hbody. simpl.
    rewrite Hcontent, Hkey. reflexivity.
  - intros request k um Hconv Hbody Hk Hum.
    unfold regenerate_reply. unfold bind at 1, get at 1. unfold bind at 1.
    rewrite Hconv. unfold get_object_or_404 at 1, ret at 1.
    unfold try_except, bind at 1. rewrite Hbody. simpl.
    apply Z.eqb_neq in Hk. rewrite Hk. simpl.
    unfold bind at 1, get at 1. unfold bind at 1.
    rewrite Hum. simpl. rewrite Hkey. reflexivity.
Qed.

(** ** [regenerate_reply]: the message to answer *)

(** X13. [regenerate_reply] on a conversation of the requester. A body on
    which [json.loads] raises [JSONDecodeError] is answered 400 "Invalid
    JSON"; a JSON object in which [message_id] is missing, null or the
    integer 0 is answered 400 "message_id is required"; both leave the
    world as it is. A JSON object whose [message_id] is an integer that
    names no user message of this conversation makes the inner
    [get_object_or_404] raise inside the [try], so the answer is not 404
    but 500 "Failed to regenerate reply", with the error record "Error
    regenerating reply: No Message matches the given query." and nothing
    else changed. (Other bodies, such as bytes that are not UTF-8, are not
    covered.) *)
Theorem regenerate_reply_rejects_unknown_message (E : Externals)
  (settings : Settings) (request : Request Z) (conversation_id : Z)
  (w : World E) (conv : Conversation) :
  filter (fun c => (conv_id c =? conversation_id)
                   && (user c =? request_user request))
         (conversations (db w)) = [conv] ->
  (request_body_ request = Malformed ->
   regenerate_reply E settings request conversation_id w
   = (Ok (mk_JsonResponse (ErrorData "Invalid JSON") 400), w))
  /\ (forall data,
        request_body_ request = JsonObject data ->
        truthy_id data = false ->
        regenerate_reply E settings request conversation_id w
        = (Ok (mk_JsonResponse (ErrorData "message_id is required") 400), w))
  /\ (forall k,
        request_body_ request = JsonObject (Some k) ->
        k <> 0 ->
        (forall m, In m (messages (db w)) -> id m = k ->
                   conversation m = conv_id conv -> role m <> "user") ->
        regenerate_reply E settings request conversation_id w
        = (Ok (mk_JsonResponse (ErrorData "Failed to regenerate reply") 500),
           log_error
             "Error regenerating reply: No Message matches the given query."
             w)).
Proof.
  intros Hconv.
  split; [|split].
  - intros Hbody.
    unfold regenerate_reply. unfold bind at 1, get at 1. unfold bind at 1.
    rewrite Hconv. unfold get_object_or_404 at 1, ret at 1.
    unfold try_except, bind at 1. rewrite Hbody. reflexivity.
  - intros data Hbody Hid.
    unfold regenerate_reply. unfold bind at 1, get at 1. unfold bind at 1.
    rewrite Hconv. unfold get_object_or_404 at 1, ret at 1.
    unfold try_except, bind at 1. rewrite Hbody. simpl.
    rewrite Hid. reflexivity.
  - intros k Hbody Hk Hnone.
    unfold regenerate_reply. unfold bind at 1, get at 1. unfold bind at 1.
    rewrite Hconv. unfold get_object_or_404 at 1, ret at 1.
    unfold try_except, bind at 1. rewrite Hbody. simpl.
    apply Z.eqb_neq in Hk. rewrite Hk. simpl.
    unfold bind at 1, get at 1. unfold bind at 1.
    rewrite filter_nil; [reflexivity|].
    intros m Hm.
    destruct (Z.eqb_spec (id m) k) as [Hid|]; [|reflexivity].
    destruct (Z.eqb_spec (conversation m) (conv_id conv)) as [Hc|];
      [|reflexivity].
    simpl. apply String.eqb_neq. now apply Hnone.
Qed.

(** Either [regenerate_reply] answers 200 or the tables are the ones it
    found. *)
Lemma regenerate_reply_outcome (E : Externals)
  (settings : Settings) (request : Request Z) (conversation_id : Z)
  (w : World E) :
  let r := regenerate_reply E settings request conversation_id w in
  (exists resp, fst r = Ok resp /\ status resp = 200)
  \/ db (snd r) = db w.
Proof.
  intros r.
  assert (H : regenerate_reply E settings request conversation_id w = r)
    by reflexivity.
  clearbody r. unfold regenerate_reply in H.
  unfold bind at 1, get at 1 in H. unfold bind at 1 in H.
  destruct (get_object_or_404 E _ _ w) as [[conv|e] w0] eqn:Hconv.
  2:{ right. pose proof (get_object_or_404_state E "Conversation"
                (filter (fun c => (conv_id c =? conversation_id)
                                  && (user c =? request_user request))
                        (conversations (db w))) w) as Hs.
      rewrite Hconv in Hs. simpl in Hs. now subst. }
  apply get_object_or_404_ok in Hconv as [Hconv ->].
  unfold try_except, bind at 1 in H.
  destruct (request_body_ request) as [|data]; simpl in H;
    [right; now subst|].
  destruct data as [k|]; simpl in H; [|right; now subst].
  destruct (Z.eqb_spec k 0) as [|Hk]; simpl in H; [right; now subst|].
  unfold bind at 1, get at 1 in H. unfold bind at 1 in H.
  destruct (get_object_or_404 E _ _ w) as [[um|e] w0] eqn:Hum.
  2:{ right.
      pose proof (get_object_or_404_state E "Message"
                (filter (fun m => (id m =? k)
                                  && (conversation m =? conv_id conv)
                                  && String.eqb (role m) "user")
                        (messages (db w))) w) as Hs.
      rewrite Hum in Hs. simpl in Hs. subst w0.
      revert H. unfold logger. run_monad.
      destruct (isinstance e JSONDecodeError); [now intros <-|].
      rewrite isinstance_Exception. now intros <-. }
  apply get_object_or_404_ok in Hum as [Hum ->].
  destruct (PyStr.truthy (OPENAI_API_KEY settings)); simpl in H;
    [|right; now subst].
  unfold atomic in H. unfold bind at 1, get at 1 in H.
  unfold bind at 1 in H. unfold call_on at 1 in H.
  pose proof (get_conversation_history_for_api_state E um w) as Hhs.
  destruct (get_conversation_history_for_api E (um, w))
    as [[history|e] [um' w0]]; simpl in Hhs.
  2:{ right. inversion Hhs; subst um' w0. revert H. unfold logger. run_monad.
      destruct (isinstance e JSONDecodeError); [now intros <-|].
      rewrite isinstance_Exception. now intros <-. }
  inversion Hhs; subst um' w0. cbn [fst] in H.
  unfold bind at 1 in H.
  destruct (generate_chat_completion_returns E (openai_service settings)
              (map to_openai_format history) w) as (ai & w1 & Hgen & Hdb1).
  rewrite Hgen in H.
  destruct (truthy_opt ai); [|right; subst r; exact Hdb1].
  unfold bind at 1 in H. rewrite Message_objects_create_run in H.
  destruct (clock E (ext w1)) as [t x]. cbv zeta in H.
  unfold bind at 1 in H.
  destruct (first (active_replies_to um (db w))) as [reply|].
  - unfold bind at 1, call_on in H.
    rewrite supersede_with_new_reply_run in H.
    destruct (String.eqb (role reply) "assistant").
    + left. simpl in H. subst r. eexists. split; reflexivity.
    + right. revert H. unfold logger. run_monad. now intros <-.
  - left. simpl in H. subst r. eexists. split; reflexivity.
Qed.

(** X14. [regenerate_reply] writes to the database only when it answers
    200: with any other answer, and when it raises, the tables are the ones
    it found (an exception inside the [atomic] block rolls its writes
    back, and the other ways out are taken before anything is written). *)
Theorem regenerate_reply_writes_only_on_success (E : Externals)
  (settings : Settings) (request : Request Z) (conversation_id : Z)
  (w w' : World E) (res : Result JsonResponse) :
  regenerate_reply E settings request conversation_id w = (res, w') ->
  (forall resp, res = Ok resp -> status resp <> 200) ->
  db w' = db w.
Proof.
  intros Hrun Hfailed.
  destruct (regenerate_reply_outcome E settings request conversation_id w)
    as [(resp & Hres & Hstatus)|Hdb]; rewrite Hrun in *; simpl in *.
  - now elim (Hfailed resp Hres).
  - exact Hdb.
Qed.

(** ** [send_message] when no reply comes *)

(** X15. When the completion has no text ([None] or the empty string),
    [send_message] answers 500 "Failed to generate AI response", yet the
    [atomic] block is left by [return], not by an exception: the user
    message that was created stays in the table (as its last row, with
    the next primary key), and so does the title derived from it. No
    assistant message is created. *)
Theorem send_message_keeps_user_message_without_reply (E : Externals)
  (settings : Settings) (request : Request string) (conversation_id : Z)
  (w w3 : World E) (conv : Conversation) (data ai : option string) :
  filter (fun c => (conv_id c =? conversation_id)
                   && (user c =? request_user request))
         (conversations (db w)) = [conv] ->
  request_body_ request = JsonObject data ->
  PyStr.truthy (PyStr.strip (text_of data)) = true ->
  PyStr.truthy (OPENAI_API_KEY settings) = true ->
  let content := PyStr.strip (text_of data) in
  let um := created_message (next_message_id (db w)) conv "user" content
              (fst (clock E (ext w))) None in
  let w1 := snd (Message_objects_create E conv "user" content None w) in
  let s := snd (update_title_from_first_message E (conv, w1)) in
  generate_chat_completion E (openai_service settings)
    (map to_openai_format
       (get_recent_messages_for_api (fst s)
          (MESSAGE_HISTORY_LIMIT settings) (db (snd s)))) (snd s)
  = (Ok ai, w3) ->
  truthy_opt ai = false ->
  send_message E settings request conversation_id w
  = (Ok (mk_JsonResponse (ErrorData "Failed to generate AI response") 500),
     w3)
  /\ messages (db w3) = messages (db w) ++ [um]
  /\ next_message_id (db w3) = next_message_id (db w) + 1
  /\ conversations (db w3) = conversations (db (snd s)).
Proof.
  intros Hconv Hbody Hcontent Hkey content um w1 s Hgen Hai.
  assert (Hdb3 : db w3 = db (snd s)).
  { destruct (generate_chat_completion_returns E (openai_service settings)
                (map to_openai_format
                   (get_recent_messages_for_api (fst s)
                      (MESSAGE_HISTORY_LIMIT settings) (db (snd s)))) (snd s))
      as (ai' & w3' & Hgen' & Hdb'). congruence. }
  destruct (update_title_from_first_message_messages E conv w1)
    as (cv' & w2 & Hs & Hm2 & Hn2 & _).
  assert (Hw1 : messages (db w1) = messages (db w) ++ [um]
                /\ next_message_id (db w1) = next_message_id (db w) + 1).
  { unfold w1, um. rewrite Message_objects_create_run.
    destruct (clock E (ext w)) as [t x]. split; reflexivity. }
  split.
  - unfold send_message. unfold bind at 1, get at 1. unfold bind at 1.
    rewrite Hconv. unfold get_object_or_404 at 1, ret at 1.
    unfold try_except, bind at 1. rewrite Hbody. simpl.
    rewrite Hcontent, Hkey. simpl.
    unfold atomic, bind at 1.
    fold content.
    destruct (Message_objects_create E conv "user" content None w)
      as [[um'|e] w1'] eqn:Hcreate.
    2:{ rewrite Message_objects_create_run in Hcreate.
        destruct (clock E (ext w)); discriminate. }
    assert (Hw1' : w1' = w1) by (unfold w1; first [reflexivity | now rewrite Hcreate]).
    rewrite Hw1'.
    unfold bind at 1, call_on.
    rewrite Hs. cbn [fst snd].
    unfold bind at 1, get at 1. unfold bind at 1.
    unfold s in Hgen. rewrite Hs in Hgen. cbn [fst snd] in Hgen.
    rewrite Hgen, Hai. reflexivity.
  - rewrite Hdb3. unfold s. rewrite Hs. cbn [snd].
    rewrite Hm2, Hn2. destruct Hw1 as [-> ->]. repeat split.
Qed.

(** ** [rename_conversation] *)

Lemma owned_conversation_in (cid u : Z) (conv : Conversation)
  (l : list Conversation) :
  filter (fun c => (conv_id c =? cid) && (user c =? u)) l = [conv] ->
  In conv l /\ conv_id conv = cid /\ user conv = u.
Proof.
  intros H.
  assert (Hin : In conv (filter (fun c => (conv_id c =? cid) && (user c =? u)) l))
    by (rewrite H; now left).
  apply filter_In in Hin as [Hin Hp]. apply andb_true_iff in Hp as [H1 H2].
  apply Z.eqb_eq in H1, H2. auto.
Qed.

(** X16. [rename_conversation] on a conversation of the requester. A body
    on which [json.loads] raises [JSONDecodeError] is answered 400 "Invalid
    JSON". For a JSON object whose [title] is missing or a string: a title
    that is missing or blank after stripping is answered 400 "Title cannot
    be empty"; any other is answered 200 with the stripped title, the row
    of the conversation gets this title and the time of the save as
    [updated_at], every other conversation and every message is as before,
    and nothing is logged. The two refusals change nothing. (Other bodies,
    such as bytes that are not UTF-8 or a title that is not a string, are
    not covered.) *)
Theorem rename_conversation_stores_stripped_title (E : Externals)
  (request : Request string) (conversation_id : Z) (w : World E)
  (conv : Conversation) :
  filter (fun c => (conv_id c =? conversation_id)
                   && (user c =? request_user request))
         (conversations (db w)) = [conv] ->
  let r := rename_conversation E request conversation_id w in
  (request_body_ request = Malformed ->
   r = (Ok (Json (JsonError "Invalid JSON") 400), w))
  /\ (forall data,
        request_body_ request = JsonObject data ->
        let new_title := PyStr.strip (text_of data) in
        (PyStr.truthy new_title = false ->
         r = (Ok (Json (JsonError "Title cannot be empty") 400), w))
        /\ (PyStr.truthy new_title = true ->
            let conv' :=
              set_updated_at (fst (clock E (ext w)))
                (set_title new_title conv) in
            fst r = Ok (Json (JsonRenamed new_title) 200)
            /\ conversations (db (snd r))
               = map (fun c => if conv_id c =? conversation_id
                               then conv' else c)
                   (conversations (db w))
            /\ In conv' (conversations (db (snd r)))
            /\ messages (db (snd r)) = messages (db w)
            /\ ext (snd r) = snd (clock E (ext w))
            /\ log (snd r) = log w)).
Proof.
  intros Hconv r.
  destruct (owned_conversation_in _ _ _ _ Hconv) as (Hin & Hid & _).
  assert (Hrun : rename_conversation E request conversation_id w =
            match request_body_ request with
            | Malformed => (Ok (Json (JsonError "Invalid JSON") 400), w)
            | JsonObject data =>
                let new_title := PyStr.strip (text_of data) in
                if PyStr.truthy new_title then
                  let (t, x) := clock E (ext w) in
                  let conv' := set_updated_at t (set_title new_title conv) in
                  (Ok (Json (JsonRenamed new_title) 200),
                   mk_World E
                     (set_conversations
                        (save_conversation_row conv' (conversations (db w)))
                        (db w)) x (log w))
                else (Ok (Json (JsonError "Title cannot be empty") 400), w)
            end).
  { unfold rename_conversation. unfold bind at 1, get at 1. unfold bind at 1.
    rewrite Hconv. unfold get_object_or_404 at 1, ret at 1.
    unfold try_except, bind at 1.
    destruct (request_body_ request) as [|data]; simpl; [reflexivity|].
    destruct (PyStr.truthy (PyStr.strip (text_of data))); simpl;
      [|reflexivity].
    unfold Conversation_save. run_monad.
    destruct (clock E (ext w)) as [t x]. reflexivity. }
  unfold r. rewrite Hrun. clear Hrun r.
  split; [intros ->; reflexivity|].
  intros data ->. cbv zeta. split; [intros ->; reflexivity|].
  intros ->.
  destruct (clock E (ext w)) as [t x]. cbn [fst snd db ext log].
  set (conv' := set_updated_at t (set_title _ conv)).
  assert (Hrows : save_conversation_row conv' (conversations (db w))
                  = map (fun c => if conv_id c =? conversation_id
                                  then conv' else c) (conversations (db w))).
  { unfold save_conversation_row.
    replace (existsb _ (conversations (db w))) with true.
    - apply map_ext. intros c. simpl. rewrite Hid. now rewrite Z.eqb_sym.
    - symmetry. apply existsb_exists. exists conv. split; [exact Hin|].
      simpl. apply Z.eqb_refl. }
  cbn [conversations messages set_conversations].
  rewrite Hrows. repeat split.
  apply in_map_iff. exists conv. split; [|exact Hin].
  now rewrite Hid, Z.eqb_refl.
Qed.

(** ** [edit_message] *)

(** X17. [edit_message] on an existing message tests, in this order, the
    owner of its conversation (403 "Permission denied") and its role (400
    "Only user messages can be edited"), then reads the body: one on which
    [json.loads] raises [JSONDecodeError] is answered 400 "Invalid JSON",
    and a JSON object whose [content] is missing or a blank string 400
    "Message content cannot be empty". Each refusal leaves the world
    unchanged. For a JSON object whose [content] is a string that is not
    blank the edit succeeds: the answer is 200 with the stripped content,
    [edited = True] and the time of the edit, and the world is the one
    [edit_content] leaves. (Other bodies, such as bytes that are not UTF-8
    or a content that is not a string, are not covered.) *)
Theorem edit_message_checks_then_edits (E : Externals)
  (request : Request string) (message_id : Z) (w : World E) (m : Message)
  (cv : Conversation) :
  filter (fun x => id x =? message_id) (messages (db w)) = [m] ->
  find (fun c => conv_id c =? conversation m) (conversations (db w))
  = Some cv ->
  let r := edit_message E request message_id w in
  (user cv <> request_user request ->
   r = (Ok (Json (JsonError "Permission denied") 403), w))
  /\ (user cv = request_user request -> role m <> "user" ->
      r = (Ok (Json (JsonError "Only user messages can be edited") 400), w))
  /\ (user cv = request_user request -> role m = "user" ->
      (request_body_ request = Malformed ->
       r = (Ok (Json (JsonError "Invalid JSON") 400), w))
      /\ (forall data,
            request_body_ request = JsonObject data ->
            let c := PyStr.strip (text_of data) in
            (PyStr.truthy c = false ->
             r = (Ok (Json (JsonError "Message content cannot be empty")
                        400), w))
            /\ (PyStr.truthy c = true ->
                r = (Ok (Json (JsonEdited (id m) c true
                                 (Some (fst (clock E (ext w))))) 200),
                     snd (snd (edit_content E c (m, w))))))).
Proof.
  intros Hm Hcv r.
  assert (Hrun : edit_message E request message_id w =
            if negb (user cv =? request_user request) then
              (Ok (Json (JsonError "Permission denied") 403), w)
            else if negb (String.eqb (role m) "user") then
              (Ok (Json (JsonError "Only user messages can be edited") 400),
               w)
            else
              match request_body_ request with
              | Malformed => (Ok (Json (JsonError "Invalid JSON") 400), w)
              | JsonObject data =>
                  let c := PyStr.strip (text_of data) in
                  if PyStr.truthy c then
                    (Ok (Json (JsonEdited (id m) c true
                                 (Some (fst (clock E (ext w))))) 200),
                     snd (snd (edit_content E c (m, w))))
                  else
                    (Ok (Json (JsonError "Message content cannot be empty")
                           400), w)
              end).
  { unfold edit_message. unfold bind at 1, get at 1. unfold bind at 1.
    rewrite Hm. unfold get_object_or_404 at 1, ret at 1.
    unfold bind at 1, get_conversation. unfold bind at 1, get at 1.
    rewrite Hcv. unfold ret at 1.
    destruct (user cv =? request_user request); simpl; [|reflexivity].
    destruct (String.eqb (role m) "user") eqn:Hrole; simpl; [|reflexivity].
    unfold try_except, bind at 1.
    destruct (request_body_ request) as [|data]; simpl; [reflexivity|].
    destruct (PyStr.truthy (PyStr.strip (text_of data))); simpl;
      [|reflexivity].
    unfold bind at 1, call_on.
    rewrite (edit_content_user_run E _ m w Hrole), Hcv.
    destruct (clock E (ext w)) as [t1 x1]. cbv zeta.
    destruct (clock E x1) as [t2 x2]. destruct (clock E x2) as [t3 x3].
    reflexivity. }
  unfold r. rewrite Hrun. clear Hrun r.
  split; [|split].
  - intros Howner. apply Z.eqb_neq in Howner. now rewrite Howner.
  - intros Howner Hrole. apply Z.eqb_eq in Howner.
    apply String.eqb_neq in Hrole. now rewrite Howner, Hrole.
  - intros Howner Hrole. apply Z.eqb_eq in Howner.
    apply String.eqb_eq in Hrole. rewrite Howner, Hrole. cbn [negb].
    split; [intros ->; reflexivity|].
    intros data ->. cbv zeta. split; intros ->; reflexivity.
Qed.

(** ** The list of conversations and [create_conversation] *)

Lemma insert_by_updated_at_desc_perm (c : Conversation)
  (l : list Conversation) :
  Permutation (insert_by_updated_at_desc c l) (c :: l).
Proof.
  induction l as [|x l IH]; simpl; [reflexivity|].
  destruct (updated_at x <=? updated_at c); [reflexivity|].
  rewrite IH. apply perm_swap.
Qed.

Lemma order_by_updated_at_desc_perm (l : list Conversation) :
  Permutation (order_by_updated_at_desc l) l.
Proof.
  induction l as [|c l IH]; simpl; [reflexivity|].
  rewrite insert_by_updated_at_desc_perm. now constructor.
Qed.

Lemma insert_by_updated_at_desc_sorted (c : Conversation)
  (l : list Conversation) :
  latest_first l -> latest_first (insert_by_updated_at_desc c l).
Proof.
  unfold latest_first. induction 1 as [|x l Hl IH Hx]; simpl.
  - repeat constructor.
  - destruct (Z.leb_spec (updated_at x) (updated_at c)) as [Hle|Hlt].
    + constructor; [now constructor|].
      constructor; [exact Hle|].
      rewrite Forall_forall in Hx |- *. intros y Hy.
      specialize (Hx y Hy). lia.
    + constructor; [exact IH|].
      rewrite Forall_forall in Hx |- *. intros y Hy.
      apply (Permutation_in _ (insert_by_updated_at_desc_perm c l)) in Hy.
      destruct Hy as [<-|Hy]; [lia|now apply Hx].
Qed.

Lemma order_by_updated_at_desc_sorted (l : list Conversation) :
  latest_first (order_by_updated_at_desc l).
Proof.
  induction l as [|c l IH]; simpl; [constructor|].
  now apply insert_by_updated_at_desc_sorted.
Qed.

(** X18. [conversation_list] renders exactly the conversations of the
    requesting user, each as often as it is stored, with the latest
    [updated_at] first, and changes nothing. *)
Theorem conversation_list_shows_own_latest_first (E : Externals) (u : Z)
  (w : World E) :
  exists l,
    conversation_list E u w
    = (Ok (Render "chat/conversation_list.html" (ListContext l)), w)
    /\ Permutation l (filter (fun c => user c =? u) (conversations (db w)))
    /\ (forall c, In c l <-> In c (conversations (db w)) /\ user c = u)
    /\ latest_first l.
Proof.
  eexists. split; [reflexivity|].
  split; [apply order_by_updated_at_desc_perm|].
  split; [|apply order_by_updated_at_desc_sorted].
  intros c. split.
  - intros Hc.
    apply (Permutation_in _ (order_by_updated_at_desc_perm _)) in Hc.
    apply filter_In in Hc as [Hc Hu]. apply Z.eqb_eq in Hu. auto.
  - intros [Hc Hu].
    apply (Permutation_in _
             (Permutation_sym (order_by_updated_at_desc_perm _))).
    apply filter_In. split; [exact Hc|]. now apply Z.eqb_eq.
Qed.

(** X19. [create_conversation] appends one conversation with the next
    primary key, the requester as owner and the title "New Conversation",
    and answers with its id (as JSON or as a redirect to its detail page,
    by the [Content-Type] header); no message is touched. When the key
    handed out is unused, as the database guarantees, the new conversation
    has no messages and the detail view the redirect leads to finds it and
    renders it empty. *)
Theorem create_conversation_is_fresh (E : Externals) (u : Z)
  (content_type : option string) (w : World E) :
  (forall c, In c (conversations (db w)) ->
             conv_id c <> next_conversation_id (db w)) ->
  (forall m, In m (messages (db w)) ->
             conversation m <> next_conversation_id (db w)) ->
  let r := create_conversation E u content_type w in
  exists conv,
    conv_id conv = next_conversation_id (db w)
    /\ user conv = u
    /\ title conv = default_title
    /\ fst r
       = Ok (if wants_json content_type
             then Json (JsonCreated (conv_id conv) default_title
                          (conv_created_at conv)) 200
             else Redirect "chat:conversation_detail" (Some (conv_id conv))
                    None)
    /\ conversations (db (snd r)) = conversations (db w) ++ [conv]
    /\ next_conversation_id (db (snd r)) = next_conversation_id (db w) + 1
    /\ messages (db (snd r)) = messages (db w)
    /\ log (snd r) = log w
    /\ conversation_detail E u (conv_id conv) (snd r)
       = (Ok (Render "chat/conversation_detail.html" (DetailContext conv [])),
          snd r).
Proof.
  intros Hpk Hfk r.
  assert (Hrun : create_conversation E u content_type w =
            let (t1, x1) := clock E (ext w) in
            let (t2, x2) := clock E x1 in
            let c := {| conv_id := next_conversation_id (db w); user := u;
                        title := default_title; conv_created_at := t1;
                        updated_at := t2 |} in
            (Ok (if wants_json content_type
                 then Json (JsonCreated (conv_id c) default_title t1) 200
                 else Redirect "chat:conversation_detail" (Some (conv_id c))
                        None),
             mk_World E
               {| conversations := conversations (db w) ++ [c];
                  messages := messages (db w);
                  next_conversation_id := next_conversation_id (db w) + 1;
                  next_message_id := next_message_id (db w) |}
               x2 (log w))).
  { unfold create_conversation, Conversation_objects_create. run_monad.
    destruct (clock E (ext w)) as [t1 x1]. simpl.
    destruct (clock E x1) as [t2 x2]. simpl.
    destruct (wants_json content_type); reflexivity. }
  unfold r. rewrite Hrun. clear Hrun r.
  destruct (clock E (ext w)) as [t1 x1]. destruct (clock E x1) as [t2 x2].
  cbv zeta.
  exists {| conv_id := next_conversation_id (db w); user := u;
            title := default_title; conv_created_at := t1;
            updated_at := t2 |}.
  cbn [fst snd db log conversations messages
                           next_conversation_id conv_id user title
                           conv_created_at].
  do 8 (split; [reflexivity|]).
  unfold conversation_detail. unfold bind at 1, get at 1. unfold bind at 1.
  cbn [db conversations].
  rewrite filter_app.
  rewrite (filter_nil _ (conversations (db w))).
  2:{ intros c Hc. cbn [conv_id].
      destruct (Z.eqb_spec (conv_id c) (next_conversation_id (db w)));
        [|reflexivity].
      now apply Hpk in Hc. }
  simpl. rewrite !Z.eqb_refl. simpl.
  unfold bind at 1, get at 1, ret.
  unfold get_active_messages, related_messages. cbn [db messages conv_id].
  rewrite (filter_nil _ (messages (db w))); [reflexivity|].
  intros m Hm. apply Z.eqb_neq. now apply Hfk.
Qed.

(** ** [delete_conversation] and the cascade *)

Lemma mem_id_In (k : Z) (ids : list Z) : mem_id k ids = true <-> In k ids.
Proof.
  unfold mem_id. rewrite existsb_exists. split.
  - intros (y & Hy & Heq). apply Z.eqb_eq in Heq. now subst.
  - intros Hk. exists k. split; [exact Hk|apply Z.eqb_refl].
Qed.

Lemma mem_id_app (k : Z) (a b : list Z) :
  mem_id k (a ++ b) = mem_id k a || mem_id k b.
Proof. unfold mem_id. apply existsb_app. Qed.

(** A stricter test keeps fewer rows, and strictly fewer if it drops one
    that the other keeps. *)
Lemma fewer_rows_left (p q : Message -> bool) (rows : list Message)
  (x : Message) :
  (forall m, q m = true -> p m = true) ->
  In x rows -> p x = true -> q x = false ->
  (List.length (filter q rows) < List.length (filter p rows))%nat.
Proof.
  intros Hqp.
  assert (Hle : forall l, (List.length (filter q l)
                           <= List.length (filter p l))%nat).
  { induction l as [|y l IH]; simpl; [lia|].
    destruct (q y) eqn:Hq.
    - rewrite (Hqp y Hq). simpl. lia.
    - destruct (p y); simpl; lia. }
  induction rows as [|y rows IH]; simpl; [contradiction|].
  intros [->|Hx] Hp Hq.
  - rewrite Hp, Hq. simpl. specialize (Hle rows). lia.
  - specialize (IH Hx Hp Hq).
    destruct (q y) eqn:Hqy.
    + rewrite (Hqp y Hqy). simpl. lia.
    + destruct (p y); simpl; lia.
Qed.

Lemma cascade_keeps (rounds : nat) (rows : list Message) :
  forall doomed k, In k doomed -> In k (cascade rounds doomed rows).
Proof.
  induction rounds as [|n IH]; intros doomed k Hk; simpl; [exact Hk|].
  destruct (filter _ rows) as [|x more]; [exact Hk|].
  apply IH. apply in_or_app. now left.
Qed.

(** With as many rounds as rows are left, the cascade ends closed: no row
    outside of it answers a message inside of it. *)
Lemma cascade_closed (rows : list Message) :
  forall rounds doomed,
    (List.length (filter (fun m => negb (mem_id (id m) doomed)) rows)
     <= rounds)%nat ->
    forall m, In m rows ->
      refers_to (cascade rounds doomed rows) (parent_user_message m) = true ->
      mem_id (id m) (cascade rounds doomed rows) = true.
Proof.
  induction rounds as [|n IH]; intros doomed Hleft m Hm Hrefers.
  - simpl in *.
    destruct (mem_id (id m) doomed) eqn:Hmem; [reflexivity|].
    assert (Hin : In m (filter (fun m => negb (mem_id (id m) doomed)) rows))
      by (apply filter_In; split; [exact Hm|now rewrite Hmem]).
    destruct (filter _ rows); [contradiction|simpl in Hleft; lia].
  - simpl in *.
    destruct (filter (fun m => refers_to doomed (parent_user_message m)
                               && negb (mem_id (id m) doomed)) rows)
      as [|x more] eqn:Hmore.
    + destruct (mem_id (id m) doomed) eqn:Hmem; [reflexivity|].
      assert (Hin : In m (filter (fun m => refers_to doomed (parent_user_message m)
                                           && negb (mem_id (id m) doomed)) rows))
        by (apply filter_In; split; [exact Hm|now rewrite Hrefers, Hmem]).
      rewrite Hmore in Hin. contradiction.
    + apply IH; [|exact Hm|exact Hrefers].
      assert (Hx : In x (filter (fun m => refers_to doomed (parent_user_message m)
                                          && negb (mem_id (id m) doomed)) rows))
        by (rewrite Hmore; now left).
      apply filter_In in Hx as [Hx Hpx]. apply andb_true_iff in Hpx as [_ Hpx].
      assert (Hlt : (List.length
                       (filter (fun m => negb (mem_id (id m)
                                                 (doomed ++ map id (x :: more))))
                               rows)
                     < List.length
                         (filter (fun m => negb (mem_id (id m) doomed)) rows))%nat).
      { apply (fewer_rows_left _ _ rows x).
        - intros y Hy. rewrite mem_id_app in Hy.
          destruct (mem_id (id y) doomed); [discriminate|reflexivity].
        - exact Hx.
        - exact Hpx.
        - rewrite mem_id_app. simpl. rewrite Z.eqb_refl.
          now rewrite orb_true_r. }
      apply Nat.lt_succ_r.
      eapply Nat.lt_le_trans; [exact Hlt|exact Hleft].
Qed.

Lemma collected_messages_closed (self : Conversation) (d : Database)
  (m : Message) :
  In m (messages d) ->
  refers_to (collected_messages self d) (parent_user_message m) = true ->
  mem_id (id m) (collected_messages self d) = true.
Proof.
  apply cascade_closed.
  induction (messages d) as [|x l IH]; simpl; [lia|].
  destruct (negb _); simpl; lia.
Qed.

Lemma collected_messages_related (self : Conversation) (d : Database)
  (m : Message) :
  In m (messages d) -> conversation m = conv_id self ->
  mem_id (id m) (collected_messages self d) = true.
Proof.
  intros Hm Hc. apply mem_id_In. apply cascade_keeps.
  apply in_map. apply filter_In. split; [exact Hm|now apply Z.eqb_eq].
Qed.

Lemma delete_conversation_run (E : Externals) (u cid : Z)
  (content_type : option string) (w : World E) (conv : Conversation) :
  filter (fun c => (conv_id c =? cid) && (user c =? u))
         (conversations (db w)) = [conv] ->
  delete_conversation E u cid content_type w
  = (Ok (if wants_json content_type then Json JsonSuccess 200
         else Redirect "chat:conversation_list" None
                (Some "Conversation deleted successfully.")),
     snd (Conversation_delete E conv w)).
Proof.
  intros Hconv.
  unfold delete_conversation. unfold bind at 1, get at 1. unfold bind at 1.
  rewrite Hconv. unfold get_object_or_404 at 1, ret at 1.
  unfold Conversation_delete. run_monad.
  destruct (wants_json content_type); reflexivity.
Qed.

(** X20. [delete_conversation] on a conversation of the requester answers
    with success (JSON, or a redirect to the list with the flash message)
    and removes the conversation together with every message of it; all
    other conversations stay. What is left of the message table is
    consistent: every remaining row is a row from before, unchanged or
    with [replaced_by] set to [NULL], and no remaining row points (by
    [parent_user_message] or [replaced_by]) to a message that was
    deleted. *)
Theorem delete_conversation_cascades (E : Externals) (u cid : Z)
  (content_type : option string) (w : World E) (conv : Conversation) :
  filter (fun c => (conv_id c =? cid) && (user c =? u))
         (conversations (db w)) = [conv] ->
  let r := delete_conversation E u cid content_type w in
  let d' := db (snd r) in
  fst r = Ok (if wants_json content_type then Json JsonSuccess 200
              else Redirect "chat:conversation_list" None
                     (Some "Conversation deleted successfully."))
  /\ conversations d'
     = filter (fun c => negb (conv_id c =? cid)) (conversations (db w))
  /\ (forall m, In m (messages d') -> conversation m <> cid)
  /\ (forall m', In m' (messages d') ->
        exists m, In m (messages (db w))
                  /\ (m' = m \/ m' = set_replaced_by None m))
  /\ (forall m' k p,
        In m' (messages d') ->
        parent_user_message m' = Some k \/ replaced_by m' = Some k ->
        In p (messages (db w)) -> id p = k ->
        exists p', In p' (messages d') /\ id p' = k)
  /\ ext (snd r) = ext w /\ log (snd r) = log w.
Proof.
  intros Hconv r d'.
  destruct (owned_conversation_in _ _ _ _ Hconv) as (_ & Hid & _).
  unfold d', r. rewrite (delete_conversation_run E u cid content_type w conv Hconv).
  clear r d'. unfold Conversation_delete. run_monad.
  set (doomed := collected_messages conv (db w)).
  assert (Hkept : forall m',
            In m' (map (fun m => if refers_to doomed (replaced_by m)
                                 then set_replaced_by None m else m)
                     (filter (fun m => negb (mem_id (id m) doomed))
                             (messages (db w)))) ->
            exists m, In m (messages (db w))
                      /\ mem_id (id m) doomed = false
                      /\ (m' = m /\ refers_to doomed (replaced_by m) = false
                          \/ m' = set_replaced_by None m)).
  { intros m' Hm'. apply in_map_iff in Hm' as (m & Heq & Hm).
    apply filter_In in Hm as [Hm Hmem]. apply negb_true_iff in Hmem.
    exists m. split; [exact Hm|]. split; [exact Hmem|].
    destruct (refers_to doomed (replaced_by m)); [right|left]; auto. }
  assert (Hsurvives : forall p, In p (messages (db w)) ->
            mem_id (id p) doomed = false ->
            exists p', In p' (map (fun m => if refers_to doomed (replaced_by m)
                                            then set_replaced_by None m else m)
                               (filter (fun m => negb (mem_id (id m) doomed))
                                       (messages (db w))))
                       /\ id p' = id p).
  { intros p Hp Hmem.
    exists (if refers_to doomed (replaced_by p)
            then set_replaced_by None p else p).
    split.
    - apply in_map_iff. exists p. split; [reflexivity|].
      apply filter_In. split; [exact Hp|now rewrite Hmem].
    - destruct (refers_to doomed (replaced_by p)); reflexivity. }
  split; [reflexivity|].
  split; [now rewrite Hid|].
  split; [|split; [|split; [|split; reflexivity]]].
  - intros m' Hm' Hc.
    destruct (Hkept m' Hm') as (m & Hm & Hmem & Hcase).
    assert (Hcm : conversation m = conv_id conv).
    { rewrite Hid. destruct Hcase as [[-> _]| ->]; exact Hc. }
    pose proof (collected_messages_related conv (db w) m Hm Hcm) as Hin.
    fold doomed in Hin. congruence.
  - intros m' Hm'. destruct (Hkept m' Hm') as (m & Hm & _ & Hcase).
    exists m. split; [exact Hm|]. destruct Hcase as [[-> _]| ->]; auto.
  - intros m' k p Hm' Hptr Hp Hpk.
    destruct (Hkept m' Hm') as (m & Hm & Hmem & Hcase).
    assert (Hk : mem_id k doomed = false).
    { destruct (mem_id k doomed) eqn:Hk; [|reflexivity].
      destruct Hptr as [Hparent|Hrepl].
      - assert (Hpm : parent_user_message m = Some k)
          by (destruct Hcase as [[-> _]| ->]; exact Hparent).
        assert (Hr : refers_to doomed (parent_user_message m) = true)
          by (rewrite Hpm; exact Hk).
        pose proof (collected_messages_closed conv (db w) m Hm Hr) as Hin.
        fold doomed in Hin. congruence.
      - destruct Hcase as [[-> Hnot]| ->]; [|discriminate].
        rewrite Hrepl in Hnot. simpl in Hnot. congruence. }
    subst k. exact (Hsurvives p Hp Hk).
Qed.

(** X21. In a consistent database (distinct primary keys; a reply and the
    message it answers, a superseded reply and its replacement, are in the
    same conversation) [delete_conversation] removes exactly the messages of
    the conversation: every message of another conversation is left as it
    was. *)
Theorem delete_conversation_spares_other_conversations (E : Externals)
  (u cid : Z) (content_type : option string) (w : World E)
  (conv : Conversation) :
  filter (fun c => (conv_id c =? cid) && (user c =? u))
         (conversations (db w)) = [conv] ->
  NoDup (map id (messages (db w))) ->
  (forall m p, In m (messages (db w)) -> In p (messages (db w)) ->
     parent_user_message m = Some (id p) \/ replaced_by m = Some (id p) ->
     conversation m = conversation p) ->
  messages (db (snd (delete_conversation E u cid content_type w)))
  = filter (fun m => negb (conversation m =? cid)) (messages (db w)).
Proof.
  intros Hconv Hnodup Hlocal.
  destruct (owned_conversation_in _ _ _ _ Hconv) as (_ & Hid & _).
  rewrite (delete_conversation_run E u cid content_type w conv Hconv).
  unfold Conversation_delete. run_monad.
  set (rows := messages (db w)) in *.
  set (doomed0 := map id (related_messages conv (db w))).
  assert (Hmem0 : forall m, In m rows ->
            mem_id (id m) doomed0 = (conversation m =? cid)).
  { intros m Hm. apply eq_true_iff_eq. rewrite mem_id_In, Z.eqb_eq.
    unfold doomed0, related_messages. fold rows. rewrite in_map_iff. split.
    - intros (p & Hpid & Hp). apply filter_In in Hp as [Hp Hc].
      apply Z.eqb_eq in Hc.
      assert (p = m) by (apply (NoDup_map_inj id rows); auto).
      subst p. now rewrite Hc.
    - intros Hc. exists m. split; [reflexivity|].
      apply filter_In. split; [exact Hm|]. apply Z.eqb_eq. now rewrite Hid. }
  assert (Hrefers0 : forall m fk, In m rows ->
            parent_user_message m = fk \/ replaced_by m = fk ->
            refers_to doomed0 fk = true -> conversation m = cid).
  { intros m fk Hm Hfk Hr. destruct fk as [k|]; [|discriminate].
    simpl in Hr. apply mem_id_In in Hr.
    unfold doomed0, related_messages in Hr. fold rows in Hr.
    apply in_map_iff in Hr as (p & Hpid & Hp).
    apply filter_In in Hp as [Hp Hc]. apply Z.eqb_eq in Hc. subst k.
    rewrite (Hlocal m p Hm Hp Hfk). now rewrite Hc. }
  assert (Hdoomed : collected_messages conv (db w) = doomed0).
  { unfold collected_messages. fold rows. fold doomed0.
    destruct (List.length rows); simpl; [reflexivity|].
    rewrite filter_nil; [reflexivity|].
    intros m Hm.
    destruct (refers_to doomed0 (parent_user_message m)) eqn:Hr;
      [|reflexivity].
    simpl. rewrite (Hmem0 m Hm).
    rewrite (Hrefers0 m _ Hm (or_introl eq_refl) Hr).
    now rewrite Z.eqb_refl. }
  rewrite Hdoomed.
  rewrite (filter_ext_in (fun m => negb (mem_id (id m) doomed0))
             (fun m => negb (conversation m =? cid)) rows)
    by (intros m Hm; now rewrite (Hmem0 m Hm)).
  rewrite <- (map_id (filter _ rows)) at 2.
  apply map_ext_in. intros m Hm. apply filter_In in Hm as [Hm Hc].
  destruct (refers_to doomed0 (replaced_by m)) eqn:Hr; [|reflexivity].
  rewrite (Hrefers0 m _ Hm (or_intror eq_refl) Hr), Z.eqb_refl in Hc.
  discriminate.
Qed.

(** ** What the views write to the message table *)

Lemma send_message_rows (E : Externals) (settings : Settings)
  (request : Request string) (conversation_id : Z) (w : World E) :
  sent (db w) (db (snd (send_message E settings request conversation_id w))).
Proof.
  assert (Hsame : forall w' : World E, db w' = db w -> sent (db w) (db w')).
  { intros w' ->. exists []. rewrite app_nil_r. simpl.
    split; [reflexivity|]. split; [lia|now left]. }
  unfold send_message. unfold bind at 1. unfold get at 1.
  unfold bind at 1.
  destruct (get_object_or_404 E _ _ w) as [[conv|e] w0] eqn:Hconv.
  2:{ unfold get_object_or_404 in Hconv.
      destruct (filter _ _) as [|c [|c' l]]; inversion Hconv; subst;
        now apply Hsame. }
  assert (w0 = w) as ->.
  { unfold get_object_or_404 in Hconv.
    destruct (filter _ _) as [|c [|c' l]]; inversion Hconv; reflexivity. }
  unfold try_except, bind at 1.
  destruct (request_body_ request) as [|data]; simpl.
  { now apply Hsame. }
  unfold ret at 1.
  destruct (PyStr.truthy (PyStr.strip (text_of data))) eqn:Hcontent; simpl.
  2:{ now apply Hsame. }
  destruct (PyStr.truthy (OPENAI_API_KEY settings)); simpl.
  2:{ now apply Hsame. }
  unfold atomic, bind at 1.
  rewrite Message_objects_create_run.
  destruct (clock E (ext w)) as [t x]. cbv zeta.
  set (um := created_message _ conv "user" _ t None).
  set (w1 := mk_World E _ x (log w)).
  unfold bind at 1, call_on.
  destruct (update_title_from_first_message_messages E conv w1)
    as (cv' & w2 & -> & Hm2 & Hn2 & Hid).
  cbn [snd]. unfold bind at 1, get at 1. unfold bind at 1.
  destruct (generate_chat_completion_returns E (openai_service settings)
              (map to_openai_format
                 (get_recent_messages_for_api cv'
                    (MESSAGE_HISTORY_LIMIT settings) (db w2))) w2)
    as (ai & w3 & -> & Hdb3).
  destruct (truthy_opt ai).
  - unfold bind at 1. rewrite Message_objects_create_run.
    destruct (clock E (ext w3)) as [t3 x3]. cbv zeta.
    unfold sent. simpl.
    rewrite Hdb3, Hm2, Hn2. unfold w1. simpl.
    eexists [um; _]. rewrite <- app_assoc.
    split; [reflexivity|]. split; [simpl; lia|].
    right. exists um. do 3 (split; [reflexivity|]).
    right. eexists. split; [reflexivity|]. simpl.
    do 3 (split; [reflexivity|]). exact Hid.
  - unfold sent. simpl. rewrite Hdb3, Hm2, Hn2. unfold w1. simpl.
    exists [um]. split; [reflexivity|]. split; [simpl; lia|].
    right. exists um. do 3 (split; [reflexivity|]). now left.
Qed.

Lemma regenerate_reply_rows (E : Externals) (settings : Settings)
  (request : Request Z) (conversation_id : Z) (w : World E) :
  regenerated (db w)
    (db (snd (regenerate_reply E settings request conversation_id w))).
Proof.
  destruct (regenerate_reply_outcome E settings request conversation_id w)
    as [(resp & Hres & Hstatus)|Hdb].
  2:{ left. now rewrite Hdb. }
  destruct (regenerate_reply E settings request conversation_id w)
    as [res w'] eqn:Hrun.
  simpl in Hres. subst res. cbn [snd].
  destruct (regenerate_reply_success E settings request conversation_id w w'
              resp Hrun Hstatus)
    as (conv & k & um & history & ai & w1 & t & x & _ & _ & _ & Hum & _ & _
        & _ & _ & _ & _ & Hnew).
  cbv zeta in Hnew. destruct Hnew as (_ & Hrows & _ & Hnext).
  right. exists um, conv, (text_of ai), t.
  assert (Hin : In um (filter (fun m => (id m =? k)
                                        && (conversation m =? conv_id conv)
                                        && String.eqb (role m) "user")
                              (messages (db w))))
    by (rewrite Hum; now left).
  apply filter_In in Hin as [Hin Hp].
  apply andb_true_iff in Hp as [Hp _]. apply andb_true_iff in Hp as [_ Hp].
  apply Z.eqb_eq in Hp. auto.
Qed.

Lemma edit_message_rows (E : Externals) (request : Request string)
  (message_id : Z) (w : World E) :
  edited_rows (db w) (db (snd (edit_message E request message_id w))).
Proof.
  assert (Hsame : forall w' : World E, db w' = db w ->
            edited_rows (db w) (db w')).
  { intros w' ->. split; [reflexivity|now left]. }
  unfold edit_message. unfold bind at 1, get at 1. unfold bind at 1.
  destruct (filter (fun m => id m =? message_id) (messages (db w)))
    as [|m [|m' l]] eqn:Hm; [now apply Hsame| |now apply Hsame].
  unfold get_object_or_404 at 1, ret at 1.
  unfold bind at 1, get_conversation. unfold bind at 1, get at 1.
  destruct (find _ (conversations (db w))) as [cv|] eqn:Hcv;
    [|now apply Hsame].
  unfold ret at 1.
  destruct (user cv =? request_user request); simpl; [|now apply Hsame].
  destruct (String.eqb (role m) "user") eqn:Hrole; simpl;
    [|now apply Hsame].
  unfold try_except, bind at 1.
  destruct (request_body_ request) as [|data]; simpl; [now apply Hsame|].
  destruct (PyStr.truthy (PyStr.strip (text_of data))); simpl;
    [|now apply Hsame].
  unfold bind at 1, call_on.
  rewrite (edit_content_user_run E _ m w Hrole), Hcv.
  destruct (clock E (ext w)) as [t1 x1]. cbv zeta.
  destruct (clock E x1) as [t2 x2]. destruct (clock E x2) as [t3 x3].
  assert (Hin : In m (messages (db w))).
  { assert (Hin : In m (filter (fun m => id m =? message_id)
                               (messages (db w))))
      by (rewrite Hm; now left).
    now apply filter_In in Hin as [Hin _]. }
  split; [reflexivity|]. right.
  exists m, (PyStr.strip (text_of data)), t1. split; [exact Hin|].
  simpl. apply save_message_row_stored.
  exists m. split; [exact Hin|reflexivity].
Qed.

Lemma rename_conversation_messages (E : Externals)
  (request : Request string) (conversation_id : Z) (w : World E) :
  messages (db (snd (rename_conversation E request conversation_id w)))
  = messages (db w)
  /\ next_message_id
       (db (snd (rename_conversation E request conversation_id w)))
     = next_message_id (db w).
Proof.
  split;
    unfold rename_conversation; unfold bind at 1, get at 1; unfold bind at 1;
    (destruct (filter _ (conversations (db w))) as [|conv [|c' l]];
       [reflexivity| |reflexivity]);
    unfold get_object_or_404 at 1, ret at 1;
    unfold try_except, bind at 1;
    (destruct (request_body_ request) as [|data]; simpl; [reflexivity|]);
    (destruct (PyStr.truthy (PyStr.strip (text_of data))); simpl;
       [|reflexivity]);
    unfold Conversation_save; run_monad;
    destruct (clock E (ext w)) as [t x]; reflexivity.
Qed.

Lemma create_conversation_messages (E : Externals) (u : Z)
  (content_type : option string) (w : World E) :
  messages (db (snd (create_conversation E u content_type w)))
  = messages (db w)
  /\ next_message_id (db (snd (create_conversation E u content_type w)))
     = next_message_id (db w).
Proof.
  split;
    unfold create_conversation, Conversation_objects_create; run_monad;
    destruct (clock E (ext w)) as [t1 x1]; simpl;
    destruct (clock E x1) as [t2 x2]; simpl;
    destruct (wants_json content_type); reflexivity.
Qed.

Lemma delete_conversation_rows (E : Externals) (u cid : Z)
  (content_type : option string) (w : World E) :
  deleted_rows (db w)
    (db (snd (delete_conversation E u cid content_type w))).
Proof.
  unfold delete_conversation. unfold bind at 1, get at 1. unfold bind at 1.
  destruct (filter _ (conversations (db w))) as [|conv [|c' l]];
    [split; [reflexivity|now left]| |split; [reflexivity|now left]].
  unfold get_object_or_404 at 1, ret at 1.
  unfold Conversation_delete. run_monad.
  destruct (wants_json content_type);
    (split; [reflexivity|right; exists conv; reflexivity]).
Qed.

(** ** The primary keys of the message table *)

Lemma keys_grow_ok (d d' : Database) :
  keys_ok d -> keys_grow d d' -> keys_ok d'.
Proof.
  intros [[Hnodup Hbound] Hnext] (ks & Hids & Hks & Hfresh & Hle).
  assert (Hold : forall k, In k (map id (messages d)) ->
            0 < k < next_message_id d).
  { intros k Hk. apply in_map_iff in Hk as (m & <- & Hm). now apply Hbound. }
  split; [split|lia].
  - rewrite Hids. clear Hids.
    induction (map id (messages d)) as [|k l IH]; simpl; [exact Hks|].
    inversion Hnodup as [|? ? Hk Hl]; subst.
    constructor.
    + intros Hin. apply in_app_or in Hin as [Hin|Hin]; [now apply Hk|].
      specialize (Hfresh k Hin). specialize (Hold k (or_introl eq_refl)). lia.
    + apply IH; [exact Hl|]. intros k' Hk'. apply Hold. now right.
  - intros m Hm.
    assert (Hin : In (id m) (map id (messages d) ++ ks))
      by (rewrite <- Hids; now apply in_map).
    apply in_app_or in Hin as [Hin|Hin].
    + specialize (Hold _ Hin). lia.
    + specialize (Hfresh _ Hin). lia.
Qed.

Lemma keys_grow_same (d d' : Database) :
  map id (messages d') = map id (messages d) ->
  next_message_id d' = next_message_id d ->
  keys_grow d d'.
Proof.
  intros Hids Hnext. exists []. rewrite app_nil_r.
  split; [exact Hids|]. split; [constructor|].
  split; [intros k []|lia].
Qed.

Lemma map_id_save_message_row (m' : Message) (rows : list Message) :
  (exists m, In m rows /\ id m = id m') ->
  map id (save_message_row m' rows) = map id rows.
Proof.
  intros H. rewrite (save_message_row_stored m' rows H).
  rewrite map_map. apply map_ext. intros x. unfold message_eq.
  destruct (Z.eqb_spec (id m') (id x)); congruence.
Qed.

Lemma send_message_keys (E : Externals) (settings : Settings)
  (request : Request string) (conversation_id : Z) (w : World E) :
  keys_grow (db w)
    (db (snd (send_message E settings request conversation_id w))).
Proof.
  destruct (send_message_rows E settings request conversation_id w)
    as (new & Hrows & Hnext & Hnew).
  exists (map id new). rewrite Hrows, Hnext, map_app.
  split; [reflexivity|].
  destruct Hnew as [->|(um & Hum & _ & _ & [->|(am & -> & Ham & _)])]; simpl.
  - split; [constructor|]. split; [intros k []|lia].
  - rewrite Hum. split; [repeat constructor; intros []|].
    split; [|lia]. intros k [<-|[]]. lia.
  - rewrite Hum, Ham. split.
    + constructor; [simpl; intros [H|[]]; lia|].
      constructor; [intros []|constructor].
    + split; [|lia]. intros k [<-|[<-|[]]]; lia.
Qed.

Lemma regenerate_reply_keys (E : Externals) (settings : Settings)
  (request : Request Z) (conversation_id : Z) (w : World E) :
  keys_grow (db w)
    (db (snd (regenerate_reply E settings request conversation_id w))).
Proof.
  destruct (regenerate_reply_rows E settings request conversation_id w)
    as [[Hrows Hnext]|(um & conv & ai & t & Hum & _ & Hrows & Hnext)].
  { apply keys_grow_same; [now rewrite Hrows|exact Hnext]. }
  exists [next_message_id (db w)].
  split; [|split; [|split; [|lia]]].
  - rewrite Hrows. unfold regenerated_messages.
    destruct (first (active_replies_to um (db w))) as [reply|] eqn:Hfirst.
    + rewrite map_id_save_message_row; [now rewrite map_app|].
      exists reply. split; [|reflexivity].
      apply in_or_app. left.
      assert (Hin : In reply (active_replies_to um (db w))).
      { destruct (active_replies_to um (db w)); inversion Hfirst.
        now left. }
      unfold active_replies_to in Hin.
      apply (proj1 (in_order_by_created_at _ _)) in Hin.
      now apply filter_In in Hin as [Hin _].
    + now rewrite map_app.
  - constructor; [intros []|constructor].
  - simpl. intros k' [<-|[]]. lia.
Qed.

Lemma edit_message_keys (E : Externals) (request : Request string)
  (message_id : Z) (w : World E) :
  keys_grow (db w) (db (snd (edit_message E request message_id w))).
Proof.
  destruct (edit_message_rows E request message_id w)
    as [Hnext [Hrows|(m & c & t & Hin & Hrows)]].
  - apply keys_grow_same; [now rewrite Hrows|exact Hnext].
  - apply keys_grow_same; [|exact Hnext].
    rewrite Hrows, map_map. apply map_ext. intros x.
    destruct (Z.eqb_spec (id m) (id x)) as [Hid|]; [|reflexivity].
    now rewrite <- Hid.
Qed.

Lemma rename_conversation_keys (E : Externals) (request : Request string)
  (conversation_id : Z) (w : World E) :
  keys_grow (db w)
    (db (snd (rename_conversation E request conversation_id w))).
Proof.
  destruct (rename_conversation_messages E request conversation_id w)
    as [Hrows Hnext].
  apply keys_grow_same; [now rewrite Hrows|exact Hnext].
Qed.

Lemma create_conversation_keys (E : Externals) (u : Z)
  (content_type : option string) (w : World E) :
  keys_grow (db w) (db (snd (create_conversation E u content_type w))).
Proof.
  destruct (create_conversation_messages E u content_type w)
    as [Hrows Hnext].
  apply keys_grow_same; [now rewrite Hrows|exact Hnext].
Qed.

Lemma delete_conversation_keys (E : Externals) (u cid : Z)
  (content_type : option string) (w : World E) :
  keys_ok (db w) ->
  keys_ok (db (snd (delete_conversation E u cid content_type w))).
Proof.
  intros [[Hnodup Hbound] Hpos].
  destruct (delete_conversation_rows E u cid content_type w)
    as [Hnext [Hrows|(conv & Hrows)]];
    (split; [split|now rewrite Hnext]); rewrite Hrows, ?Hnext.
  - exact Hnodup.
  - exact Hbound.
  - rewrite map_map.
    rewrite (map_ext _ id) by (intros m; now destruct (refers_to _ _)).
    now apply NoDup_ids_filter.
  - intros m' Hm'. apply in_map_iff in Hm' as (m & <- & Hm).
    apply filter_In in Hm as [Hm _].
    destruct (refers_to _ _); simpl; apply (Hbound m Hm).
Qed.

(** X22. The views keep the primary keys of the message table in order:
    from a table whose keys are positive, distinct and below the next key
    to be handed out (with that key positive), each of the views that
    write leaves such a table, whatever the request is and however it is
    answered. For all but [delete_conversation] the keys of the rows
    present stay where they are, row by row, and only fresh keys are
    appended. *)
Theorem views_keep_primary_keys (E : Externals) (settings : Settings)
  (w : World E) :
  keys_ok (db w) ->
  (forall request cid,
     keys_ok (db (snd (send_message E settings request cid w)))
     /\ keys_grow (db w) (db (snd (send_message E settings request cid w))))
  /\ (forall request cid,
        keys_ok (db (snd (regenerate_reply E settings request cid w)))
        /\ keys_grow (db w)
             (db (snd (regenerate_reply E settings request cid w))))
  /\ (forall request message_id,
        keys_ok (db (snd (edit_message E request message_id w)))
        /\ keys_grow (db w) (db (snd (edit_message E request message_id w))))
  /\ (forall request cid,
        keys_ok (db (snd (rename_conversation E request cid w)))
        /\ keys_grow (db w) (db (snd (rename_conversation E request cid w))))
  /\ (forall u content_type,
        keys_ok (db (snd (create_conversation E u content_type w)))
        /\ keys_grow (db w)
             (db (snd (create_conversation E u content_type w))))
  /\ (forall u cid content_type,
        keys_ok (db (snd (delete_conversation E u cid content_type w)))).
Proof.
  intros Hok.
  assert (Hgrow : forall d', keys_grow (db w) d' ->
            keys_ok d' /\ keys_grow (db w) d').
  { intros d' Hd'. split; [exact (keys_grow_ok (db w) d' Hok Hd')|exact Hd']. }
  split; [|split; [|split; [|split; [|split]]]]; intros.
  - apply Hgrow, send_message_keys.
  - apply Hgrow, regenerate_reply_keys.
  - apply Hgrow, edit_message_keys.
  - apply Hgrow, rename_conversation_keys.
  - apply Hgrow, create_conversation_keys.
  - now apply delete_conversation_keys.
Qed.

(** ** The links between messages *)

Lemma links_ok_append (rows new : list Message) :
  links_ok rows ->
  (forall m k, In m new -> points_to m k ->
     exists p, In p (rows ++ new) /\ id p = k
               /\ conversation p = conversation m) ->
  links_ok (rows ++ new).
Proof.
  intros Hrows Hnew m k Hm Hk.
  apply in_app_or in Hm as [Hm|Hm]; [|now apply Hnew].
  destruct (Hrows m k Hm Hk) as (p & Hp & Hid & Hc).
  exists p. split; [apply in_or_app; now left|]. auto.
Qed.

Lemma links_ok_rewritten (rows : list Message) (f : Message -> Message) :
  (forall x, In x rows ->
     id (f x) = id x /\ conversation (f x) = conversation x) ->
  (forall x k, In x rows -> points_to (f x) k ->
     exists p, In p rows /\ id p = k /\ conversation p = conversation x) ->
  links_ok (map f rows).
Proof.
  intros Hsame Hlinks m' k Hm' Hk.
  apply in_map_iff in Hm' as (x & <- & Hx).
  destruct (Hlinks x k Hx Hk) as (p & Hp & Hid & Hc).
  exists (f p). split; [now apply in_map|].
  destruct (Hsame p Hp) as [-> ->]. destruct (Hsame x Hx) as [_ ->].
  auto.
Qed.

Lemma send_message_links (E : Externals) (settings : Settings)
  (request : Request string) (conversation_id : Z) (w : World E) :
  links_ok (messages (db w)) ->
  links_ok
    (messages (db (snd (send_message E settings request conversation_id w)))).
Proof.
  intros Hok.
  destruct (send_message_rows E settings request conversation_id w)
    as (new & -> & _ & Hnew).
  apply links_ok_append; [exact Hok|].
  destruct Hnew as [->|(um & Hum & Hpu & Hru & [->|(am & -> & _ & Hpa & Hra & Hc)])].
  - intros m k [].
  - intros m k [<-|[]] [H|H]; congruence.
  - intros m k [<-|[<-|[]]] [H|H]; try congruence.
    exists um. split; [apply in_or_app; right; now left|].
    split; [congruence|now symmetry].
Qed.

Lemma first_active_reply (um reply : Message) (d : Database) :
  first (active_replies_to um d) = Some reply ->
  In reply (filter (is_active_reply_to um) (messages d)).
Proof.
  intros Hfirst.
  assert (Hin : In reply (active_replies_to um d)).
  { destruct (active_replies_to um d); inversion Hfirst. now left. }
  unfold active_replies_to in Hin.
  exact (proj1 (in_order_by_created_at _ _) Hin).
Qed.

Lemma is_active_reply_to_parent (u x : Message) :
  is_active_reply_to u x = true ->
  parent_user_message x = Some (id u) /\ superseded x = false.
Proof.
  unfold is_active_reply_to. intros H.
  apply andb_true_iff in H as [H Hs]. apply andb_true_iff in H as [H _].
  apply negb_true_iff in Hs. split; [|exact Hs].
  destruct (parent_user_message x) as [k|]; simpl in H; [|discriminate].
  apply Z.eqb_eq in H. now subst.
Qed.

Lemma regenerate_reply_links (E : Externals) (settings : Settings)
  (request : Request Z) (conversation_id : Z) (w : World E) :
  keys_ok (db w) ->
  links_ok (messages (db w)) ->
  links_ok
    (messages
       (db (snd (regenerate_reply E settings request conversation_id w)))).
Proof.
  intros [[Hnodup Hbound] _] Hok.
  destruct (regenerate_reply_rows E settings request conversation_id w)
    as [[-> _]|(um & conv & ai & t & Hin_um & Hconv_um & -> & _)];
    [exact Hok|].
  set (N := created_message (next_message_id (db w)) conv "assistant"
              ai t (Some um)).
  assert (Hnew : links_ok (messages (db w) ++ [N])).
  { apply links_ok_append; [exact Hok|].
    intros m k' [<-|[]] [H|H]; [|discriminate H].
    exists um. split; [apply in_or_app; now left|].
    simpl in H. split; [congruence|exact Hconv_um]. }
  unfold regenerated_messages.
  destruct (first (active_replies_to um (db w))) as [reply|] eqn:Hfirst;
    [|exact Hnew].
  apply first_active_reply in Hfirst.
  apply filter_In in Hfirst as [Hin_reply Hactive].
  apply is_active_reply_to_parent in Hactive as [Hparent _].
  assert (Hconv_reply : conversation reply = conv_id conv).
  { destruct (Hok reply (id um) Hin_reply (or_introl Hparent))
      as (p & Hp & Hid & Hc).
    assert (p = um) by (apply (NoDup_map_inj id (messages (db w))); auto).
    subst p. congruence. }
  assert (Hunique : forall y, In y (messages (db w) ++ [N]) ->
            id reply = id y -> y = reply).
  { intros y Hy Hid. apply in_app_or in Hy as [Hy|[<-|[]]].
    - apply (NoDup_map_inj id (messages (db w))); auto.
    - specialize (Hbound reply Hin_reply). simpl in Hid. lia. }
  rewrite save_message_row_stored
    by (exists reply; split; [apply in_or_app; now left|reflexivity]).
  apply links_ok_rewritten.
  - intros y Hy. unfold message_eq.
    destruct (Z.eqb_spec (id (superseded_by N reply)) (id y)) as [Hid|];
      [|split; reflexivity].
    rewrite (Hunique y Hy Hid). split; reflexivity.
  - intros y k' Hy. unfold message_eq.
    destruct (Z.eqb_spec (id (superseded_by N reply)) (id y)) as [Hid|];
      [|now apply Hnew].
    rewrite (Hunique y Hy Hid). intros [H|H].
    + apply Hnew; [apply in_or_app; now left|now left].
    + exists N. split; [apply in_or_app; right; now left|].
      simpl in H. injection H as <-. split; [reflexivity|].
      now rewrite Hconv_reply.
Qed.

Lemma edit_message_links (E : Externals) (request : Request string)
  (message_id : Z) (w : World E) :
  keys_ok (db w) ->
  links_ok (messages (db w)) ->
  links_ok (messages (db (snd (edit_message E request message_id w)))).
Proof.
  intros [[Hnodup _] _] Hok.
  destruct (edit_message_rows E request message_id w)
    as [_ [->|(m & c & t & Hin & ->)]]; [exact Hok|].
  assert (Hunique : forall y, In y (messages (db w)) -> id m = id y -> y = m).
  { intros y Hy Hid. apply (NoDup_map_inj id (messages (db w))); auto. }
  apply links_ok_rewritten.
  - intros y Hy.
    destruct (Z.eqb_spec (id m) (id y)) as [Hid|]; [|split; reflexivity].
    rewrite (Hunique y Hy Hid). split; reflexivity.
  - intros y k Hy.
    destruct (Z.eqb_spec (id m) (id y)) as [Hid|]; [|now apply Hok].
    rewrite (Hunique y Hy Hid). intros Hk. now apply Hok.
Qed.

Lemma delete_conversation_links (E : Externals) (u cid : Z)
  (content_type : option string) (w : World E) :
  links_ok (messages (db w)) ->
  links_ok (messages (db (snd (delete_conversation E u cid content_type w)))).
Proof.
  intros Hok.
  destruct (delete_conversation_rows E u cid content_type w)
    as [_ [->|(conv & ->)]]; [exact Hok|].
  set (doomed := collected_messages conv (db w)).
  apply links_ok_rewritten.
  - intros y _. destruct (refers_to doomed (replaced_by y)); split;
      reflexivity.
  - intros y k Hy Hk. apply filter_In in Hy as [Hy Hmem].
    apply negb_true_iff in Hmem.
    assert (Hlink : points_to y k /\ mem_id k doomed = false).
    { destruct Hk as [Hk|Hk].
      - assert (Hparent : parent_user_message y = Some k)
          by (destruct (refers_to doomed (replaced_by y)); exact Hk).
        split; [now left|].
        destruct (mem_id k doomed) eqn:Hkd; [|reflexivity].
        assert (Hr : refers_to doomed (parent_user_message y) = true)
          by (rewrite Hparent; exact Hkd).
        pose proof (collected_messages_closed conv (db w) y Hy Hr) as Hd.
        fold doomed in Hd. congruence.
      - destruct (refers_to doomed (replaced_by y)) eqn:Hr;
          [discriminate Hk|].
        split; [now right|]. rewrite Hk in Hr. exact Hr. }
    destruct Hlink as [Hlink Hkd].
    destruct (Hok y k Hy Hlink) as (p & Hp & Hid & Hc).
    exists p. split; [|auto].
    apply filter_In. split; [exact Hp|]. now rewrite Hid, Hkd.
Qed.

(** X23. The views keep the links between messages in order: if every
    [parent_user_message] and [replaced_by] leads to a stored message of
    the same conversation (and the primary keys are in order), this still
    holds after each of the views that write, for every request and
    however it is answered. No view leaves a dangling link or links
    messages of two conversations. *)
Theorem views_keep_links (E : Externals) (settings : Settings)
  (w : World E) :
  keys_ok (db w) ->
  links_ok (messages (db w)) ->
  (forall request cid,
     links_ok (messages (db (snd (send_message E settings request cid w)))))
  /\ (forall request cid,
        links_ok
          (messages (db (snd (regenerate_reply E settings request cid w)))))
  /\ (forall request message_id,
        links_ok (messages (db (snd (edit_message E request message_id w)))))
  /\ (forall request cid,
        links_ok
          (messages (db (snd (rename_conversation E request cid w)))))
  /\ (forall u content_type,
        links_ok
          (messages (db (snd (create_conversation E u content_type w)))))
  /\ (forall u cid content_type,
        links_ok
          (messages (db (snd (delete_conversation E u cid content_type w))))).
Proof.
  intros Hkeys Hlinks.
  split; [|split; [|split; [|split; [|split]]]]; intros.
  - now apply send_message_links.
  - now apply regenerate_reply_links.
  - now apply edit_message_links.
  - now rewrite (proj1 (rename_conversation_messages E request cid w)).
  - now rewrite (proj1 (create_conversation_messages E u content_type w)).
  - now apply delete_conversation_links.
Qed.

(** ** One reply in force *)

Lemma active_replies_length (u : Message) (d : Database) :
  List.length (active_replies_to u d)
  = List.length (filter (is_active_reply_to u) (messages d)).
Proof.
  unfold active_replies_to.
  apply Permutation_length, order_by_created_at_perm.
Qed.

Lemma single_reply_rows (d d' : Database) :
  (forall u,
     (List.length (filter (is_active_reply_to u) (messages d')) <= 1)%nat) ->
  single_reply d'.
Proof. intros H u. rewrite active_replies_length. apply H. Qed.

Lemma is_active_reply_to_same_key (u u' x : Message) :
  id u = id u' -> is_active_reply_to u x = is_active_reply_to u' x.
Proof. unfold is_active_reply_to. now intros ->. Qed.

Lemma filter_of_kept_shorter (p keep : Message -> bool)
  (rows : list Message) :
  (List.length (filter p (filter keep rows))
   <= List.length (filter p rows))%nat.
Proof.
  induction rows as [|x rows IH]; simpl; [lia|].
  destruct (keep x); simpl; destruct (p x); simpl; lia.
Qed.

Lemma at_most_one (l : list Message) (a b : Message) :
  (List.length l <= 1)%nat -> In a l -> In b l -> a = b.
Proof.
  destruct l as [|x [|y l]]; simpl; intros Hlen Ha Hb;
    [contradiction| |lia].
  destruct Ha as [<-|[]], Hb as [<-|[]]. reflexivity.
Qed.

Lemma send_message_single_reply (E : Externals) (settings : Settings)
  (request : Request string) (conversation_id : Z) (w : World E) :
  keys_ok (db w) ->
  links_ok (messages (db w)) ->
  single_reply (db w) ->
  single_reply (db (snd (send_message E settings request conversation_id w))).
Proof.
  intros [[_ Hbound] _] Hlinks Hsingle.
  apply (single_reply_rows (db w)). intros u.
  specialize (Hsingle u). rewrite active_replies_length in Hsingle.
  destruct (send_message_rows E settings request conversation_id w)
    as (new & -> & _ & Hnew).
  rewrite filter_app, length_app.
  assert (Hfresh : forall x, is_active_reply_to u x = true ->
            parent_user_message x <> None).
  { intros x Hx. apply is_active_reply_to_parent in Hx as [-> _].
    discriminate. }
  destruct Hnew as [->|(um & Hum & Hpu & _ & [->|(am & -> & _ & Hpa & _)])];
    simpl.
  - lia.
  - destruct (is_active_reply_to u um) eqn:Hactive; simpl; [|lia].
    now elim (Hfresh um Hactive).
  - destruct (is_active_reply_to u um) eqn:Hactive; simpl;
      [now elim (Hfresh um Hactive)|].
    destruct (is_active_reply_to u am) eqn:Ham; simpl; [|lia].
    apply is_active_reply_to_parent in Ham as [Hparent _].
    rewrite Hpa in Hparent. injection Hparent as Hid.
    rewrite filter_nil; [simpl; lia|].
    intros x Hx.
    destruct (is_active_reply_to u x) eqn:Hx_active; [|reflexivity].
    apply is_active_reply_to_parent in Hx_active as [Hx_parent _].
    destruct (Hlinks x (id u) Hx (or_introl Hx_parent)) as (p & Hp & Hpid & _).
    specialize (Hbound p Hp). lia.
Qed.

Lemma regenerate_reply_single_reply (E : Externals) (settings : Settings)
  (request : Request Z) (conversation_id : Z) (w : World E) :
  keys_ok (db w) ->
  single_reply (db w) ->
  single_reply
    (db (snd (regenerate_reply E settings request conversation_id w))).
Proof.
  intros [[Hnodup Hbound] _] Hsingle.
  apply (single_reply_rows (db w)). intros u.
  pose proof (Hsingle u) as Hu. rewrite active_replies_length in Hu.
  destruct (regenerate_reply_rows E settings request conversation_id w)
    as [[-> _]|(um & conv & ai & t & Hin_um & _ & -> & _)];
    [exact Hu|].
  set (N := created_message (next_message_id (db w)) conv "assistant"
              ai t (Some um)).
  assert (HN : is_active_reply_to u N = (id um =? id u)).
  { unfold is_active_reply_to. simpl. now rewrite !andb_true_r. }
  unfold regenerated_messages.
  destruct (first (active_replies_to um (db w))) as [reply|] eqn:Hfirst.
  - apply first_active_reply in Hfirst.
    pose proof Hfirst as Hreply.
    apply filter_In in Hreply as [Hin_reply Hactive].
    rewrite save_message_row_stored
      by (exists reply; split; [apply in_or_app; now left|reflexivity]).
    rewrite (filter_rewritten _
               (fun x => is_active_reply_to u x && negb (id reply =? id x))).
    2:{ intros x _. unfold message_eq.
        change (id (superseded_by N reply)) with (id reply).
        destruct (id reply =? id x); simpl.
        - rewrite andb_false_r. unfold is_active_reply_to. simpl.
          now rewrite andb_false_r.
        - rewrite andb_true_r.
          destruct (is_active_reply_to u x); auto. }
    rewrite filter_app, length_app. simpl. rewrite HN.
    destruct (Z.eqb_spec (id um) (id u)) as [Hid|]; simpl.
    + rewrite filter_nil.
      * destruct (negb _); simpl; lia.
      * intros x Hx.
        destruct (is_active_reply_to u x) eqn:Hx_active; [|reflexivity].
        simpl. apply negb_false_iff, Z.eqb_eq. f_equal.
        apply (at_most_one (filter (is_active_reply_to u) (messages (db w))));
          [exact Hu| |].
        -- apply filter_In. split; [exact Hin_reply|].
           now rewrite <- (is_active_reply_to_same_key um u reply Hid).
        -- apply filter_In. auto.
    + rewrite <- (filter_twice (fun x => negb (id reply =? id x))
                    (is_active_reply_to u)).
      pose proof (filter_length_le (fun x => negb (id reply =? id x))
                    (filter (is_active_reply_to u) (messages (db w)))).
      lia.
  - rewrite filter_app, length_app. simpl. rewrite HN.
    destruct (Z.eqb_spec (id um) (id u)) as [Hid|]; simpl; [|lia].
    assert (Hnone : List.length
                      (filter (is_active_reply_to u) (messages (db w)))
                    = 0%nat).
    { rewrite (filter_ext _ _
                 (fun x => is_active_reply_to_same_key u um x (eq_sym Hid))).
      rewrite <- active_replies_length.
      destruct (active_replies_to um (db w)); [reflexivity|discriminate]. }
    lia.
Qed.

Lemma edit_message_single_reply (E : Externals) (request : Request string)
  (message_id : Z) (w : World E) :
  keys_ok (db w) ->
  single_reply (db w) ->
  single_reply (db (snd (edit_message E request message_id w))).
Proof.
  intros [[Hnodup _] _] Hsingle.
  apply (single_reply_rows (db w)). intros u.
  pose proof (Hsingle u) as Hu. rewrite active_replies_length in Hu.
  destruct (edit_message_rows E request message_id w)
    as [_ [->|(m & c & t & Hin & ->)]]; [exact Hu|].
  rewrite filter_map_same; [now rewrite length_map|].
  intros x Hx.
  destruct (Z.eqb_spec (id m) (id x)) as [Hid|]; [|reflexivity].
  assert (x = m) by (apply (NoDup_map_inj id (messages (db w))); auto).
  subst x. reflexivity.
Qed.

Lemma delete_conversation_single_reply (E : Externals) (u cid : Z)
  (content_type : option string) (w : World E) :
  single_reply (db w) ->
  single_reply (db (snd (delete_conversation E u cid content_type w))).
Proof.
  intros Hsingle.
  apply (single_reply_rows (db w)). intros v.
  pose proof (Hsingle v) as Hv. rewrite active_replies_length in Hv.
  destruct (delete_conversation_rows E u cid content_type w)
    as [_ [->|(conv & ->)]]; [exact Hv|].
  rewrite filter_map_same
    by (intros x _; now destruct (refers_to _ (replaced_by x))).
  rewrite length_map.
  pose proof (filter_of_kept_shorter (is_active_reply_to v)
                (fun m => negb (mem_id (id m) (collected_messages conv (db w))))
                (messages (db w))).
  lia.
Qed.

Lemma single_reply_same_rows (d d' : Database) :
  messages d' = messages d -> single_reply d -> single_reply d'.
Proof.
  intros Hrows Hsingle u. unfold active_replies_to. rewrite Hrows.
  apply Hsingle.
Qed.

(** X24. The views never leave a message with two replies in force: if
    the primary keys and the links are in order and no message has more
    than one assistant reply that is not superseded, the same holds after
    each of the views that write, for every request and however it is
    answered. [send_message] gives the new message one reply,
    [regenerate_reply] replaces the reply in force, and the other views
    create none. *)
Theorem views_keep_single_reply (E : Externals) (settings : Settings)
  (w : World E) :
  keys_ok (db w) ->
  links_ok (messages (db w)) ->
  single_reply (db w) ->
  (forall request cid,
     single_reply (db (snd (send_message E settings request cid w))))
  /\ (forall request cid,
        single_reply (db (snd (regenerate_reply E settings request cid w))))
  /\ (forall request message_id,
        single_reply (db (snd (edit_message E request message_id w))))
  /\ (forall request cid,
        single_reply (db (snd (rename_conversation E request cid w))))
  /\ (forall u content_type,
        single_reply (db (snd (create_conversation E u content_type w))))
  /\ (forall u cid content_type,
        single_reply (db (snd (delete_conversation E u cid content_type w)))).
Proof.
  intros Hkeys Hlinks Hsingle.
  split; [|split; [|split; [|split; [|split]]]]; intros.
  - now apply send_message_single_reply.
  - now apply regenerate_reply_single_reply.
  - now apply edit_message_single_reply.
  - apply (single_reply_same_rows (db w)); [|exact Hsingle].
    apply rename_conversation_messages.
  - apply (single_reply_same_rows (db w)); [|exact Hsingle].
    apply create_conversation_messages.
  - now apply delete_conversation_single_reply.
Qed.

(** ** Every state the views reach *)

Lemma conversation_list_state (E : Externals) (u : Z) (w : World E) :
  snd (conversation_list E u w) = w.
Proof. reflexivity. Qed.

Lemma conversation_detail_state (E : Externals) (u cid : Z) (w : World E) :
  snd (conversation_detail E u cid w) = w.
Proof.
  unfold conversation_detail. unfold bind at 1, get at 1. unfold bind at 1.
  destruct (filter _ (conversations (db w))) as [|conv [|c' l]]; reflexivity.
Qed.

(** X25. Every database that the views reach from one without messages is
    consistent: the primary keys of the messages are positive, distinct and
    below the next key; every [parent_user_message] and [replaced_by] leads
    to a stored message of the same conversation; and no message has more
    than one reply in force. So the single reply in force that a successful
    regeneration needs in order to leave exactly one is there in every state
    the views produce. *)
Theorem reachable_databases_are_consistent (E : Externals)
  (settings : Settings) (w : World E) :
  reachable E settings w ->
  keys_ok (db w) /\ links_ok (messages (db w)) /\ single_reply (db w).
Proof.
  induction 1 as [w Hempty Hnext|w w' _ (Hkeys & Hlinks & Hsingle) Hstep].
  - split; [split; [split|exact Hnext]|split].
    + rewrite Hempty. constructor.
    + rewrite Hempty. intros m [].
    + rewrite Hempty. intros m k [].
    + intros u. unfold active_replies_to. rewrite Hempty. simpl. lia.
  - destruct Hstep.
    + rewrite conversation_list_state. auto.
    + split; [|split].
      * exact (keys_grow_ok _ _ Hkeys (create_conversation_keys E u _ w)).
      * now rewrite (proj1 (create_conversation_messages E u content_type w)).
      * apply (single_reply_same_rows (db w)); [|exact Hsingle].
        apply create_conversation_messages.
    + rewrite conversation_detail_state. auto.
    + split; [|split].
      * now apply delete_conversation_keys.
      * now apply delete_conversation_links.
      * now apply delete_conversation_single_reply.
    + split; [|split].
      * exact (keys_grow_ok _ _ Hkeys (rename_conversation_keys E request _ w)).
      * now rewrite (proj1 (rename_conversation_messages E request cid w)).
      * apply (single_reply_same_rows (db w)); [|exact Hsingle].
        apply rename_conversation_messages.
    + split; [|split].
      * exact (keys_grow_ok _ _ Hkeys
                 (send_message_keys E settings request _ w)).
      * now apply send_message_links.
      * now apply send_message_single_reply.
    + split; [|split].
      * exact (keys_grow_ok _ _ Hkeys (edit_message_keys E request _ w)).
      * now apply edit_message_links.
      * now apply edit_message_single_reply.
    + split; [|split].
      * exact (keys_grow_ok _ _ Hkeys
                 (regenerate_reply_keys E settings request _ w)).
      * now apply regenerate_reply_links.
      * now apply regenerate_reply_single_reply.
    + auto.
Qed.

(** ** Editing, then regenerating *)

Lemma list_index_same_keys {St St'} (f : Message -> Message)
  (m m' : Message) (l : list Message) (s : St) (s' : St') :
  (forall x, id (f x) = id x) -> id m' = id m ->
  fst (list_index m' (map f l) s') = fst (list_index m l s).
Proof.
  intros Hf Hm. induction l as [|y l IH]; simpl; [reflexivity|].
  unfold message_eq. rewrite Hf, Hm.
  destruct (id m =? id y); [reflexivity|].
  unfold bind.
  pose proof (list_index_state m' (map f l) s') as Hs'.
  pose proof (list_index_state m l s) as Hs.
  destruct (list_index m' (map f l) s') as [[i'|e'] s1'];
    destruct (list_index m l s) as [[i|e] s1]; simpl in *;
    inversion IH; subst; reflexivity.
Qed.

Lemma get_active_messages_rewritten (f : Message -> Message)
  (cv cv' : Conversation) (d d' : Database) :
  conv_id cv' = conv_id cv ->
  messages d' = map f (messages d) ->
  (forall x, In x (messages d) ->
     conversation (f x) = conversation x
     /\ superseded (f x) = superseded x
     /\ created_at (f x) = created_at x) ->
  get_active_messages cv' d' = map f (get_active_messages cv d).
Proof.
  intros Hid Hrows Hf.
  unfold get_active_messages, related_messages. rewrite Hrows, Hid.
  rewrite (filter_map_same _ f)
    by (intros x Hx; now rewrite (proj1 (Hf x Hx))).
  rewrite (filter_map_same _ f).
  - apply order_by_created_at_map. intros x Hx.
    apply filter_In in Hx as [Hx _]. apply filter_In in Hx as [Hx _].
    apply (Hf x Hx).
  - intros x Hx. apply filter_In in Hx as [Hx _].
    destruct (Hf x Hx) as (_ & -> & _). reflexivity.
Qed.

(** X26. The history for the model after an edit: for a stored user
    message, [get_conversation_history_for_api] on the edited instance
    returns the history it returned before the edit, entry by entry, with
    the edited message in the place of the original; in the format for the
    model every entry is as before, except the one of the edited message,
    which has the new content. So a reply regenerated after an edit
    answers the edited text. *)
Theorem edited_message_history (E : Externals) (c : string) (m : Message)
  (w : World E) (cv : Conversation) (history : list Message) :
  role m = "user" ->
  NoDup (map id (messages (db w))) ->
  In m (messages (db w)) ->
  find (fun x => conv_id x =? conversation m) (conversations (db w)) = Some cv ->
  fst (get_conversation_history_for_api E (m, w)) = Ok history ->
  let m1 := edited_with c (fst (clock E (ext w))) m in
  let w' := snd (snd (edit_content E c (m, w))) in
  let swap := fun x => if id m =? id x then m1 else x in
  get_conversation_history_for_api E (m1, w')
  = (Ok (map swap history), (m1, w'))
  /\ map to_openai_format (map swap history)
     = map (fun x => if id m =? id x
                     then {| msg_role := "user"; msg_content := c |}
                     else to_openai_format x) history.
Proof.
  intros Hrole Hnodup Hin Hcv Hhist m1 w' swap.
  assert (Hr : String.eqb (role m) "user" = true) by now apply String.eqb_eq.
  split.
  2:{ rewrite map_map. apply map_ext. intros x. unfold swap.
      destruct (id m =? id x); [|reflexivity].
      unfold to_openai_format, m1. simpl. now rewrite Hrole. }
  assert (Hswap : forall x, In x (messages (db w)) ->
            conversation (swap x) = conversation x
            /\ superseded (swap x) = superseded x
            /\ created_at (swap x) = created_at x).
  { intros x Hx. unfold swap.
    destruct (Z.eqb_spec (id m) (id x)) as [Heq|]; [|repeat split].
    assert (x = m) by (apply (NoDup_map_inj id (messages (db w))); auto).
    subst x. repeat split. }
  assert (Hkeys : forall x, id (swap x) = id x).
  { intros x. unfold swap.
    destruct (Z.eqb_spec (id m) (id x)) as [Heq|]; [|reflexivity].
    now rewrite <- Heq. }
  assert (Hw' : messages (db w') = map swap (messages (db w))
                /\ exists cv', conv_id cv' = conv_id cv
                     /\ find (fun x => conv_id x =? conversation m)
                          (conversations (db w')) = Some cv').
  { unfold w'. rewrite (edit_content_user_run E c m w Hr), Hcv.
    unfold swap, m1.
    destruct (clock E (ext w)) as [t1 x1]. cbv zeta.
    destruct (clock E x1) as [t2 x2]. destruct (clock E x2) as [t3 x3].
    cbn [fst snd db messages conversations set_conversations set_messages].
    split.
    - apply save_message_row_stored. exists m. split; [exact Hin|reflexivity].
    - exists (set_updated_at t3 (set_updated_at t2 cv)).
      split; [reflexivity|].
      pose proof (find_some _ _ Hcv) as [_ Hid]. apply Z.eqb_eq in Hid.
      rewrite <- Hid.
      exact (find_save_conversation_row
               (set_updated_at t3 (set_updated_at t2 cv)) _). }
  destruct Hw' as (Hrows & cv' & Hid & Hcv').
  rewrite (get_conversation_history_for_api_run E m w cv Hcv) in Hhist.
  rewrite (get_conversation_history_for_api_run E m1 w' cv' Hcv').
  cbv zeta in *.
  rewrite (get_active_messages_rewritten swap cv cv' (db w) (db w')
             Hid Hrows Hswap).
  pose proof (list_index_same_keys swap m m1 (get_active_messages cv (db w))
                (m, w) (m1, w') Hkeys eq_refl) as Hidx.
  pose proof (list_index_state m1
                (map swap (get_active_messages cv (db w))) (m1, w')) as Hs'.
  destruct (list_index m1 (map swap (get_active_messages cv (db w))) (m1, w'))
    as [[i'|e'] s1'];
    destruct (list_index m (get_active_messages cv (db w)) (m, w))
      as [[i|e] s1]; simpl in Hidx, Hs'; inversion Hidx; subst.
  - simpl in Hhist. inversion Hhist; subst.
    now rewrite firstn_map.
  - destruct (isinstance e ValueError); simpl in Hhist; inversion Hhist.
    reflexivity.
Qed.

(** ** Previews of a message *)

(** X27. The preview of the admin list shows a content of at most 100
    characters as it is, and of a longer one the first 100 characters and
    the marker "...": never more than 103 characters. [Message.__str__]
    shows at most 50 characters of the content but appends the marker in
    every case, also to a content it shows completely. *)
Theorem previews_truncate (m : Message) :
  (String.length (content_preview m) <= 103)%nat
  /\ ((String.length (content m) <= 100)%nat ->
      content_preview m = content m)
  /\ ((100 < String.length (content m))%nat ->
      content_preview m = (substring 0 100 (content m) ++ "...")%string
      /\ String.length (content_preview m) = 103%nat)
  /\ String.length (Message_str m)
     = (String.length (role m) + 2
        + Nat.min 50 (String.length (content m)) + 3)%nat
  /\ ((String.length (content m) <= 50)%nat ->
      Message_str m = (role m ++ ": " ++ content m ++ "...")%string).
Proof.
  assert (Hlong : (100 < String.length (content m))%nat ->
            content_preview m = (substring 0 100 (content m) ++ "...")%string
            /\ String.length (content_preview m) = 103%nat).
  { intros H. unfold content_preview, PyStr.len, PyStr.slice_to.
    destruct (Z.ltb_spec 100 (Z.of_nat (String.length (content m))));
      [|lia].
    split; [reflexivity|].
    rewrite string_length_append, substring_0_length by lia. reflexivity. }
  assert (Hshort : (String.length (content m) <= 100)%nat ->
            content_preview m = content m).
  { intros H. unfold content_preview, PyStr.len.
    destruct (Z.ltb_spec 100 (Z.of_nat (String.length (content m))));
      [lia|reflexivity]. }
  split; [|split; [exact Hshort|split; [exact Hlong|split]]].
  - destruct (Nat.le_gt_cases (String.length (content m)) 100) as [H|H].
    + rewrite (Hshort H). lia.
    + destruct (Hlong H) as [_ ->]. lia.
  - unfold Message_str, PyStr.slice_to.
    rewrite !string_length_append.
    change (String.length ": ") with 2%nat.
    change (String.length "...") with 3%nat.
    destruct (Nat.le_gt_cases (String.length (content m)) 50) as [H|H].
    + rewrite (substring_0_short 50 _ H). lia.
    + rewrite substring_0_length by lia. lia.
  - intros H. unfold Message_str, PyStr.slice_to.
    now rewrite (substring_0_short 50 _ H).
Qed.

(* ===================================================================== *)
(** * The further properties on concrete worlds *)
(* ===================================================================== *)

Import Cases.

Lemma two_conversations_db_keys : keys_ok two_conversations_db.
Proof.
  split; [split|reflexivity].
  - simpl. repeat constructor; simpl; intuition discriminate.
  - intros m [<-|[<-|[<-|[]]]]; simpl; lia.
Defined.

Lemma two_conversations_db_local (m p : Message) :
  In m (messages two_conversations_db) ->
  In p (messages two_conversations_db) ->
  parent_user_message m = Some (id p) \/ replaced_by m = Some (id p) ->
  conversation m = conversation p.
Proof.
  simpl.
  intros [<-|[<-|[<-|[]]]] [<-|[<-|[<-|[]]]] [H|H];
    try reflexivity; discriminate H.
Defined.

Lemma two_conversations_db_links :
  links_ok (messages two_conversations_db).
Proof.
  intros m k [<-|[<-|[<-|[]]]] [H|H]; try discriminate H.
  injection H as <-. exists user_msg. split; [now left|]. split; reflexivity.
Defined.

Lemma two_conversations_db_single_reply : single_reply two_conversations_db.
Proof.
  intros u. rewrite active_replies_length. simpl.
  destruct (is_active_reply_to u old_reply); simpl; lia.
Defined.

Lemma trim_messages_by_token_limit_monotone_witness :
  exists older,
    trim_messages_by_token_limit history 3000
    = older ++ trim_messages_by_token_limit history 5.
Proof.
  apply (trim_messages_by_token_limit_monotone history 5 3000). lia.
Defined.

Lemma supersede_with_new_reply_hides_only_self_witness :
  let E := externals clean (answers "Hi") in
  let w := world E two_replies_db 200 in
  let r := supersede_with_new_reply E second_reply (old_reply, w) in
  fst r = Ok tt
  /\ get_active_messages conv1 (db (snd (snd r))) = [user_msg; second_reply]
  /\ supersede_with_new_reply E second_reply (user_msg, w)
     = (Raise (mk_exception ValueError
                 "Only assistant messages can be superseded"), (user_msg, w)).
Proof.
  intros E w r.
  destruct (supersede_with_new_reply_hides_only_self E second_reply old_reply
              w) as [_ Hassistant].
  destruct (Hassistant eq_refl) as (Hok & _ & _ & _ & _ & _ & Hactive).
  destruct (supersede_with_new_reply_hides_only_self E second_reply user_msg
              w) as [Hrefused _].
  split; [exact Hok|]. split; [exact (Hactive conv1)|].
  apply Hrefused. discriminate.
Defined.

Lemma edit_content_touches_only_its_message_witness :
  let E := externals clean (answers "Hi") in
  let w := world E one_reply_db 200 in
  let w' := snd (snd (edit_content E "Edited" (user_msg, w))) in
  messages (db w')
  = [edited_with "Edited" 200 user_msg; old_reply]
  /\ get_active_messages conv1 (db w')
     = [edited_with "Edited" 200 user_msg; old_reply]
  /\ active_replies_to user_msg (db w') = [old_reply].
Proof.
  intros E w w'.
  destruct (edit_content_touches_only_its_message E "Edited" user_msg w conv1
              eq_refl (proj1 one_reply_db_wf) (or_introl eq_refl) eq_refl)
    as (_ & Hrows & Hactive & Hreplies & _).
  split; [exact Hrows|]. split; [exact (Hactive conv1)|].
  exact (Hreplies user_msg).
Defined.

Lemma generate_chat_completion_flagged_stops_witness :
  let E := externals flagging silent in
  let w := world E one_reply_db 200 in
  generate_chat_completion E service
    (assistant_only ++ {| msg_role := "user"; msg_content := "Hit them" |}
       :: history) w
  = (Ok (Some policy_violation_message),
     mk_World E one_reply_db 200
       [ {| level := WARNING;
            text := "Message flagged by moderation: {'violence': True}" |} ]).
Proof.
  intros E w.
  apply (generate_chat_completion_flagged_stops E service assistant_only
           history {| msg_role := "user"; msg_content := "Hit them" |} w
           {| results := [ {| flagged := true;
                              categories := [("violence", true)] |} ] |}
           {| flagged := true; categories := [("violence", true)] |} [] 200);
    try reflexivity.
  repeat constructor; discriminate.
Defined.

Lemma generate_chat_completion_moderates_users_only_witness :
  let E := externals flagging (answers "Hi") in
  let w := world E one_reply_db 200 in
  generate_chat_completion E service assistant_only w = (Ok (Some "Hi"), w).
Proof.
  intros E w.
  apply (generate_chat_completion_moderates_users_only E service
           assistant_only w
           {| choices := [ {| message_content := Some "Hi" |} ] |} 200);
    [|reflexivity].
  repeat constructor; discriminate.
Defined.

Lemma foreign_conversation_is_not_found_witness :
  let E := externals clean (answers "Hi") in
  let w := world E two_conversations_db 200 in
  exists not_found,
    exc_cls not_found = Http404
    /\ send_message E cfg (mk_Request 7 (JsonObject (Some "Hello"))) 2 w
       = (Raise not_found, w)
    /\ delete_conversation E 7 2 None w = (Raise not_found, w)
    /\ conversation_detail E 7 2 w = (Raise not_found, w).
Proof.
  intros E w.
  destruct (foreign_conversation_is_not_found E cfg 7 2 w)
    as (not_found & Hcls & Hsend & _ & _ & Hdel & Hdetail).
  - intros c [<-|[<-|[]]] Hc; simpl in *; [lia|discriminate].
  - exists not_found. split; [exact Hcls|]. split; [apply Hsend|].
    split; [apply Hdel|exact Hdetail].
Defined.

Lemma views_require_api_key_witness :
  let E := externals clean (answers "Hi") in
  let w := world E one_reply_db 200 in
  send_message E no_key (mk_Request 7 (JsonObject (Some "Hello"))) 1 w
  = (Ok (mk_JsonResponse (ErrorData key_not_configured) 500), w)
  /\ regenerate_reply E no_key regenerate_request 1 w
     = (Ok (mk_JsonResponse (ErrorData key_not_configured) 500), w).
Proof.
  intros E w.
  destruct (views_require_api_key E no_key 1 w conv1 eq_refl)
    as [Hsend Hregenerate].
  split.
  - apply (Hsend (mk_Request 7 (JsonObject (Some "Hello"))) (Some "Hello"));
      reflexivity.
  - apply (Hregenerate regenerate_request 1 user_msg);
      reflexivity || discriminate.
Defined.

Lemma regenerate_reply_rejects_unknown_message_witness :
  let E := externals clean (answers "Hi") in
  let w := world E one_reply_db 200 in
  regenerate_reply E cfg (mk_Request 7 (JsonObject None)) 1 w
  = (Ok (mk_JsonResponse (ErrorData "message_id is required") 400), w)
  /\ regenerate_reply E cfg (mk_Request 7 (JsonObject (Some 2))) 1 w
     = (Ok (mk_JsonResponse (ErrorData "Failed to regenerate reply") 500),
        log_error
          "Error regenerating reply: No Message matches the given query." w).
Proof.
  intros E w. split.
  - destruct (regenerate_reply_rejects_unknown_message E cfg
                (mk_Request 7 (JsonObject None)) 1 w conv1 eq_refl)
      as (_ & Hmissing & _).
    apply (Hmissing None); reflexivity.
  - destruct (regenerate_reply_rejects_unknown_message E cfg
                (mk_Request 7 (JsonObject (Some 2))) 1 w conv1 eq_refl)
      as (_ & _ & Hunknown).
    apply (Hunknown 2); [reflexivity|discriminate|].
    intros m [<-|[<-|[]]] Hid Hc; simpl in *; discriminate.
Defined.

Lemma regenerate_reply_writes_only_on_success_witness :
  let E := externals clean silent in
  let w := world E one_reply_db 200 in
  db (snd (regenerate_reply E cfg regenerate_request 1 w)) = one_reply_db.
Proof.
  intros E w.
  apply (regenerate_reply_writes_only_on_success E cfg regenerate_request 1 w
           (snd (regenerate_reply E cfg regenerate_request 1 w))
           (fst (regenerate_reply E cfg regenerate_request 1 w))).
  - vm_compute. reflexivity.
  - intros resp Hresp. vm_compute in Hresp.
    injection Hresp as <-. discriminate.
Defined.

Lemma send_message_keeps_user_message_without_reply_witness :
  let E := externals clean silent in
  let w := world E empty_db 200 in
  let r := send_message E cfg (mk_Request 7 (JsonObject (Some " Hello "))) 1 w in
  fst r
  = Ok (mk_JsonResponse (ErrorData "Failed to generate AI response") 500)
  /\ messages (db (snd r))
     = [created_message 1 conv1 "user" "Hello" 200 None].
Proof.
  intros E w r.
  destruct (send_message_keeps_user_message_without_reply E cfg
              (mk_Request 7 (JsonObject (Some " Hello "))) 1 w
              (mk_World E
                 {| conversations := [set_updated_at 201
                                        (set_title "Hello" conv1)];
                    messages := [created_message 1 conv1 "user" "Hello" 200
                                   None];
                    next_conversation_id := 2; next_message_id := 2 |}
                 202 [])
              conv1 (Some " Hello ") None
              eq_refl eq_refl eq_refl eq_refl eq_refl eq_refl)
    as (Hrun & Hrows & _).
  unfold r. rewrite Hrun. split; [reflexivity|exact Hrows].
Defined.

Lemma rename_conversation_stores_stripped_title_witness :
  let E := externals clean (answers "Hi") in
  let w := world E two_conversations_db 200 in
  let r := rename_conversation E
             (mk_Request 7 (JsonObject (Some "  Plans  "))) 1 w in
  fst r = Ok (Json (JsonRenamed "Plans") 200)
  /\ conversations (db (snd r))
     = [set_updated_at 200 (set_title "Plans" conv1); conv2]
  /\ rename_conversation E (mk_Request 7 (JsonObject (Some "   "))) 1 w
     = (Ok (Json (JsonError "Title cannot be empty") 400), w).
Proof.
  intros E w r.
  destruct (rename_conversation_stores_stripped_title E
              (mk_Request 7 (JsonObject (Some "  Plans  "))) 1 w conv1
              eq_refl)
    as [_ Hobject].
  destruct (Hobject (Some "  Plans  ") eq_refl) as [_ Hstored].
  destruct (Hstored eq_refl) as (Hanswer & Hrows & _).
  destruct (rename_conversation_stores_stripped_title E
              (mk_Request 7 (JsonObject (Some "   "))) 1 w conv1
              eq_refl)
    as [_ Hblank].
  destruct (Hblank (Some "   ") eq_refl) as [Hempty _].
  split; [exact Hanswer|]. split; [exact Hrows|exact (Hempty eq_refl)].
Defined.

Lemma edit_message_checks_then_edits_witness :
  let E := externals clean (answers "Hi") in
  let w := world E two_conversations_db 200 in
  fst (edit_message E (mk_Request 7 (JsonObject (Some " Edited "))) 1 w)
  = Ok (Json (JsonEdited 1 "Edited" true (Some 200)) 200)
  /\ edit_message E (mk_Request 7 (JsonObject (Some "Edited"))) 3 w
     = (Ok (Json (JsonError "Permission denied") 403), w)
  /\ edit_message E (mk_Request 7 (JsonObject (Some "Edited"))) 2 w
     = (Ok (Json (JsonError "Only user messages can be edited") 400), w).
Proof.
  intros E w. split; [|split].
  - destruct (edit_message_checks_then_edits E
                (mk_Request 7 (JsonObject (Some " Edited "))) 1 w user_msg
                conv1 eq_refl eq_refl)
      as (_ & _ & Hchecked).
    destruct (Hchecked eq_refl eq_refl) as [_ Hobject].
    destruct (Hobject (Some " Edited ") eq_refl) as [_ Hedited].
    now rewrite (Hedited eq_refl).
  - destruct (edit_message_checks_then_edits E
                (mk_Request 7 (JsonObject (Some "Edited"))) 3 w other_msg
                conv2 eq_refl eq_refl)
      as (Hforeign & _).
    apply Hforeign. discriminate.
  - destruct (edit_message_checks_then_edits E
                (mk_Request 7 (JsonObject (Some "Edited"))) 2 w old_reply
                conv1 eq_refl eq_refl)
      as (_ & Hrole & _).
    apply Hrole; [reflexivity|discriminate].
Defined.

Lemma create_conversation_is_fresh_witness :
  let E := externals clean (answers "Hi") in
  let w := world E two_conversations_db 200 in
  let r := create_conversation E 8 None w in
  exists conv,
    conv_id conv = 3
    /\ fst r = Ok (Redirect "chat:conversation_detail" (Some 3) None)
    /\ conversations (db (snd r)) = [conv1; conv2; conv]
    /\ conversation_detail E 8 3 (snd r)
       = (Ok (Render "chat/conversation_detail.html" (DetailContext conv [])),
          snd r).
Proof.
  intros E w r.
  destruct (create_conversation_is_fresh E 8 None w) as
    (conv & Hid & _ & _ & Hanswer & Hrows & _ & _ & _ & Hdetail).
  - intros c [<-|[<-|[]]]; discriminate.
  - intros m [<-|[<-|[<-|[]]]]; discriminate.
  - exists conv. rewrite Hid in Hanswer, Hdetail.
    split; [exact Hid|]. split; [exact Hanswer|].
    split; [exact Hrows|exact Hdetail].
Defined.

Lemma delete_conversation_cascades_witness :
  let E := externals clean (answers "Hi") in
  let w := world E two_conversations_db 200 in
  let r := delete_conversation E 7 1 (Some "application/json") w in
  fst r = Ok (Json JsonSuccess 200)
  /\ conversations (db (snd r)) = [conv2]
  /\ forall m, In m (messages (db (snd r))) -> conversation m <> 1.
Proof.
  intros E w r.
  destruct (delete_conversation_cascades E 7 1 (Some "application/json") w
              conv1 eq_refl)
    as (Hanswer & Hconvs & Hgone & _).
  split; [exact Hanswer|]. split; [exact Hconvs|exact Hgone].
Defined.

Lemma delete_conversation_spares_other_conversations_witness :
  let E := externals clean (answers "Hi") in
  let w := world E two_conversations_db 200 in
  messages (db (snd (delete_conversation E 7 1 None w))) = [other_msg].
Proof.
  intros E w.
  exact (delete_conversation_spares_other_conversations E 7 1 None w conv1
           eq_refl (proj1 (proj1 two_conversations_db_keys))
           two_conversations_db_local).
Defined.

Lemma views_keep_primary_keys_witness :
  let E := externals clean (answers "Hi") in
  let w := world E two_conversations_db 200 in
  keys_ok (db (snd (send_message E cfg
                      (mk_Request 7 (JsonObject (Some "Hello"))) 1 w)))
  /\ keys_ok (db (snd (delete_conversation E 7 1 None w))).
Proof.
  intros E w.
  destruct (views_keep_primary_keys E cfg w two_conversations_db_keys)
    as (Hsend & _ & _ & _ & _ & Hdelete).
  split; [apply Hsend|apply Hdelete].
Defined.

Lemma views_keep_links_witness :
  let E := externals clean (answers "New AI response") in
  let w := world E two_conversations_db 200 in
  links_ok
    (messages (db (snd (regenerate_reply E cfg regenerate_request 1 w))))
  /\ links_ok (messages (db (snd (delete_conversation E 7 1 None w)))).
Proof.
  intros E w.
  destruct (views_keep_links E cfg w two_conversations_db_keys
              two_conversations_db_links)
    as (_ & Hregenerate & _ & _ & _ & Hdelete).
  split; [apply Hregenerate|apply Hdelete].
Defined.

Lemma views_keep_single_reply_witness :
  let E := externals clean (answers "New AI response") in
  let w := world E two_conversations_db 200 in
  single_reply
    (db (snd (send_message E cfg
                (mk_Request 7 (JsonObject (Some "Hello"))) 1 w)))
  /\ single_reply (db (snd (regenerate_reply E cfg regenerate_request 1 w))).
Proof.
  intros E w.
  destruct (views_keep_single_reply E cfg w two_conversations_db_keys
              two_conversations_db_links two_conversations_db_single_reply)
    as (Hsend & Hregenerate & _).
  split; [apply Hsend|apply Hregenerate].
Defined.

Lemma reachable_databases_are_consistent_witness :
  let E := externals clean (answers "Hello!") in
  let w0 := world E empty_db 200 in
  let w1 := snd (send_message E cfg
                   (mk_Request 7 (JsonObject (Some "Hi"))) 1 w0) in
  let w2 := snd (regenerate_reply E cfg regenerate_request 1 w1) in
  List.length (messages (db w2)) = 3%nat
  /\ keys_ok (db w2) /\ links_ok (messages (db w2)) /\ single_reply (db w2).
Proof.
  intros E w0 w1 w2. split; [reflexivity|].
  apply (reachable_databases_are_consistent E cfg w2).
  apply (reachable_step E cfg w1); [|apply step_regenerate_reply].
  apply (reachable_step E cfg w0); [|apply step_send_message].
  apply reachable_start; reflexivity.
Defined.

Lemma edited_message_history_witness :
  let E := externals clean (answers "Hi") in
  let w := world E one_reply_db 200 in
  let w' := snd (snd (edit_content E "Edited" (user_msg, w))) in
  fst (get_conversation_history_for_api E (user_msg, w)) = Ok [user_msg]
  /\ fst (get_conversation_history_for_api E
            (edited_with "Edited" 200 user_msg, w'))
     = Ok [edited_with "Edited" 200 user_msg].
Proof.
  intros E w w'. split; [reflexivity|].
  destruct (edited_message_history E "Edited" user_msg w conv1 [user_msg]
              eq_refl (proj1 one_reply_db_wf) (or_introl eq_refl) eq_refl
              eq_refl)
    as [Hhistory _].
  exact (f_equal fst Hhistory).
Defined.
